(** * Pseudo-METAR pipeline ([metar.py]): shallow embedding and properties

    The Python module turns a weather-station payload into a structured
    record ([build_metar_dict]) and renders the record as a four-line text
    report ([metar_string]).  The embedding follows the source function by
    function:

    - Python values are the inductive [pyval]; a Python [float] is a
      primitive binary64 [float], a Python [int] an unbounded [Z];
    - a Python [dict] with string keys is a [gmap string _];
    - an exception is a value of [exn], a computation that may raise has
      type [result _];
    - what the module takes from its surroundings (libm's [cos] and [sin],
      the HTTP [fetch_station]) is a parameter of the definitions that use
      it. *)

From Stdlib Require Import Floats.
From Stdlib Require Import ZArith Ascii String List Lia.
From stdpp Require Import base option list gmap strings pretty.

Local Open Scope string_scope.
Local Open Scope list_scope.
Local Open Scope Z_scope.
Set Warnings "-inexact-float".

(** ** Exceptions and the error monad *)

(** The exceptions the module can meet.  [HTTPError] is what
    [raise_for_status] raises and carries the response's status and reason;
    [RequestException] stands for the other failures of [requests]
    (connection, timeout, undecodable body).  [NotModelled] marks the two
    operations the embedding leaves out, [str] of a [float] and [int] of a
    [str]; only the formatter can meet them. *)
Inductive exn : Type :=
| KeyError (key : string)
| IndexError
| TypeError
| ValueError
| OverflowError
| HTTPError (status_code : Z) (reason : string)
| RequestException (msg : string)
| NotModelled (what : string).

Inductive result (A : Type) : Type :=
| Ok (a : A)
| Raise (e : exn).
Arguments Ok {A} a.
Arguments Raise {A} e.

Definition bind {A B : Type} (c : result A) (k : A -> result B) : result B :=
  match c with
  | Ok a => k a
  | Raise e => Raise e
  end.

Notation "'let!' x ':=' c 'in' k" := (bind c (fun x => k))
  (at level 10, x name, c at level 100, k at level 200, only parsing).

(** [try: body except handler]: every [exn] is an [Exception], so a bare
    [except Exception] clause sees all of them. *)
Definition try_except {A : Type} (body : result A) (handler : exn -> result A)
  : result A :=
  match body with
  | Ok a => Ok a
  | Raise e => handler e
  end.

(** ** Python values *)

Inductive pyval : Type :=
| VNone
| VInt (n : Z)
| VFloat (x : float)
| VStr (s : string).

(** [d[key]] on a dict. *)
Definition getitem {V : Type} (d : gmap string V) (key : string) : result V :=
  match d !! key with
  | Some v => Ok v
  | None => Raise (KeyError key)
  end.

(** *** Floats *)

(** [float(n)] for an [int]: the nearest double, ties to even;
    [OverflowError] when [n] is too large. *)
Definition float_of_int (n : Z) : result float :=
  match binary_normalize prec emax n 0 false with
  | S754_infinity _ => Raise OverflowError
  | sf => Ok (SF2Prim sf)
  end.

(** The integer nearest to [m * 2^e], ties to even ([m], [e] from a finite
    double). *)
Definition round_half_even (m e : Z) : Z :=
  if 0 <=? e then m * 2 ^ e
  else
    let d := 2 ^ (- e) in
    let q := m / d in
    let r := m mod d in
    match 2 * r ?= d with
    | Lt => q
    | Gt => q + 1
    | Eq => if Z.even q then q else q + 1
    end.

(** [round(x)] for a [float], one argument: an [int], ties to even. *)
Definition round_float (x : float) : result Z :=
  match Prim2SF x with
  | S754_zero _ => Ok 0
  | S754_infinity _ => Raise OverflowError
  | S754_nan => Raise ValueError
  | S754_finite s m e =>
      let r := round_half_even (Zpos m) e in
      Ok (if s then - r else r)
  end.

(** [int(x)] for a [float]: truncation towards zero. *)
Definition int_of_float (x : float) : result Z :=
  match Prim2SF x with
  | S754_zero _ => Ok 0
  | S754_infinity _ => Raise OverflowError
  | S754_nan => Raise ValueError
  | S754_finite s m e =>
      let t := if 0 <=? e then Zpos m * 2 ^ e else Zpos m / 2 ^ (- e) in
      Ok (if s then - t else t)
  end.

(** Exact comparison of a double with an integer, as Python's mixed
    comparison does it; [None] when the double is a NaN. *)
Definition float_compare_int (x : float) (k : Z) : option comparison :=
  match Prim2SF x with
  | S754_nan => None
  | S754_infinity s => Some (if s then Lt else Gt)
  | S754_zero _ => Some (0 ?= k)
  | S754_finite s m e =>
      let sm := if s then Zneg m else Zpos m in
      Some (if 0 <=? e then sm * 2 ^ e ?= k else sm ?= k * 2 ^ (- e))
  end.

(** C's [fmod]: the exact remainder of [x / y] truncated, with the sign of
    [x]. *)
Definition fmod (x y : float) : float :=
  match Prim2SF x, Prim2SF y with
  | S754_nan, _ | _, S754_nan => PrimFloat.nan
  | S754_infinity _, _ => PrimFloat.nan
  | _, S754_zero _ => PrimFloat.nan
  | _, S754_infinity _ => x
  | S754_zero _, _ => x
  | S754_finite sx mx ex, S754_finite _ my ey =>
      let e := Z.min ex ey in
      let r := (Zpos mx * 2 ^ (ex - e)) mod (Zpos my * 2 ^ (ey - e)) in
      if r =? 0 then (if sx then PrimFloat.neg_zero else PrimFloat.zero)
      else SF2Prim (binary_normalize prec emax (if sx then - r else r) e false)
  end.

(** C's [floor] on a double. *)
Definition floor (x : float) : float :=
  match Prim2SF x with
  | S754_finite s m e =>
      if 0 <=? e then x
      else
        let q := (if s then Zneg m else Zpos m) / 2 ^ (- e) in
        if q =? 0 then PrimFloat.zero
        else SF2Prim (binary_normalize prec emax q 0 false)
  | _ => x
  end.

Definition copysign (x y : float) : float :=
  if PrimFloat.get_sign y then (- PrimFloat.abs x)%float else PrimFloat.abs x.

(** *** Operators on values

    Only what the module applies to its data.  The right operand of every
    comparison and of most arithmetic in the source is an integer literal;
    it is the [Z] argument here. *)

(** [v < k], [v <= k], [v > k], [v >= k] share [compare_int]; a NaN
    compares false with everything, [None] and strings do not order with
    an [int]. *)
Definition compare_int (v : pyval) (k : Z) : result (option comparison) :=
  match v with
  | VInt n => Ok (Some (n ?= k))
  | VFloat x => Ok (float_compare_int x k)
  | VNone | VStr _ => Raise TypeError
  end.

Definition py_lt (v : pyval) (k : Z) : result bool :=
  let! c := compare_int v k in
  Ok match c with Some Lt => true | _ => false end.

Definition py_le (v : pyval) (k : Z) : result bool :=
  let! c := compare_int v k in
  Ok match c with Some Lt | Some Eq => true | _ => false end.

Definition py_gt (v : pyval) (k : Z) : result bool :=
  let! c := compare_int v k in
  Ok match c with Some Gt => true | _ => false end.

Definition py_ge (v : pyval) (k : Z) : result bool :=
  let! c := compare_int v k in
  Ok match c with Some Gt | Some Eq => true | _ => false end.

(** [v == k] never raises. *)
Definition py_eq_int (v : pyval) (k : Z) : bool :=
  match v with
  | VInt n => n =? k
  | VFloat x =>
      match float_compare_int x k with Some Eq => true | _ => false end
  | VNone | VStr _ => false
  end.

(** [v == s] for a string literal [s]. *)
Definition py_eq_str (v : pyval) (s : string) : bool :=
  match v with
  | VStr t => String.eqb t s
  | _ => false
  end.

(** Truth value of [v] in a condition. *)
Definition truthy (v : pyval) : bool :=
  match v with
  | VNone => false
  | VInt n => negb (n =? 0)
  | VFloat x => negb (x =? 0)%float
  | VStr s => negb (String.eqb s "")
  end.

(** [float(v)] as the arithmetic operators coerce a number. *)
Definition as_float (v : pyval) : result float :=
  match v with
  | VInt n => float_of_int n
  | VFloat x => Ok x
  | VNone | VStr _ => Raise TypeError
  end.

(** [v * c] for a float literal [c]. *)
Definition py_mul_float (v : pyval) (c : float) : result float :=
  let! x := as_float v in Ok (x * c)%float.

(** [a - b] on numbers. *)
Definition py_sub (a b : pyval) : result pyval :=
  match a, b with
  | VInt m, VInt n => Ok (VInt (m - n))
  | (VNone | VStr _), _ | _, (VNone | VStr _) => Raise TypeError
  | _, _ =>
      let! x := as_float a in let! y := as_float b in Ok (VFloat (x - y))
  end.

(** [a + b] on numbers. *)
Definition py_add (a b : pyval) : result pyval :=
  match a, b with
  | VInt m, VInt n => Ok (VInt (m + n))
  | (VNone | VStr _), _ | _, (VNone | VStr _) => Raise TypeError
  | _, _ =>
      let! x := as_float a in let! y := as_float b in Ok (VFloat (x + y))
  end.

(** [n / k] on two [int]s, [k > 0]: the double nearest to the exact
    quotient.  The quotient is taken to 64 bits or more and a sticky bit
    records a non-zero remainder, so one rounding gives the nearest double. *)
Definition int_true_div (n k : Z) : result float :=
  let a := Z.abs n in
  let sh := Z.max 0 (64 + Z.log2 k - Z.log2 a) in
  let q := (a * 2 ^ sh) / k in
  let sticky := if (a * 2 ^ sh) mod k =? 0 then 0 else 1 in
  let m := 2 * q + sticky in
  match binary_normalize prec emax (if n <? 0 then - m else m) (- sh - 1) false
  with
  | S754_infinity _ => Raise OverflowError
  | sf => Ok (SF2Prim sf)
  end.

(** [v / k] for a positive integer literal [k] (at most [2^53], so that
    [float(k)] is [k]). *)
Definition py_truediv (v : pyval) (k : Z) : result float :=
  match v with
  | VInt n => int_true_div n k
  | VFloat x => let! y := float_of_int k in Ok (x / y)%float
  | VNone | VStr _ => Raise TypeError
  end.

(** [x // y] on doubles, [y] non-zero: CPython's [_float_div_mod]. *)
Definition float_floor_div (vx wx : float) : float :=
  let mod_ := fmod vx wx in
  let div_ := ((vx - mod_) / wx)%float in
  let div_ :=
    if negb (mod_ =? 0)%float
       && negb (Bool.eqb (wx <? 0)%float (mod_ <? 0)%float)
    then (div_ - 1)%float else div_ in
  if negb (div_ =? 0)%float then
    let floordiv := floor div_ in
    if (0.5 <? div_ - floordiv)%float then (floordiv + 1)%float else floordiv
  else copysign 0 (vx / wx)%float.

(** [v // k] for a non-zero integer literal [k]. *)
Definition py_floordiv (v : pyval) (k : Z) : result pyval :=
  match v with
  | VInt n => Ok (VInt (n / k))
  | VFloat x => let! y := float_of_int k in Ok (VFloat (float_floor_div x y))
  | VNone | VStr _ => Raise TypeError
  end.

(** [round(v)], one argument. *)
Definition py_round (v : pyval) : result Z :=
  match v with
  | VInt n => Ok n
  | VFloat x => round_float x
  | VNone | VStr _ => Raise TypeError
  end.

(** [int(v)] for a number. *)
Definition py_int (v : pyval) : result Z :=
  match v with
  | VInt n => Ok n
  | VFloat x => int_of_float x
  | VNone => Raise TypeError
  | VStr _ => Raise (NotModelled "int(str)")
  end.

(** *** Strings *)

(** [str(n)] for an [int]: decimal digits, a leading [-] when negative. *)
Definition str_int (n : Z) : string := pretty n.

(** [str(v)]; the repr of a float is left out of the embedding. *)
Definition py_str (v : pyval) : result string :=
  match v with
  | VNone => Ok "None"
  | VInt n => Ok (str_int n)
  | VFloat _ => Raise (NotModelled "str(float)")
  | VStr s => Ok s
  end.

Fixpoint zeros (n : nat) : string :=
  match n with
  | O => ""
  | S n' => String "0" (zeros n')
  end.

(** [s.zfill(width)]: zeros on the left up to [width] characters, after a
    leading sign if there is one. *)
Definition zfill (s : string) (width : nat) : string :=
  let fill := zeros (width - String.length s) in
  match s with
  | String c rest =>
      if (Ascii.eqb c "+" || Ascii.eqb c "-")%bool
      then String c (fill +:+ rest)
      else fill +:+ s
  | EmptyString => fill
  end.

(** [s.replace(old, new)] for a one-character [old]. *)
Fixpoint replace_char (old : ascii) (new : string) (s : string) : string :=
  match s with
  | EmptyString => EmptyString
  | String c rest =>
      if Ascii.eqb c old then new +:+ replace_char old new rest
      else String c (replace_char old new rest)
  end.

(** *** [datetime]

    [datetime.fromisoformat], [isoformat(timespec="seconds")] and
    [strftime] on the strings of the documented grammar
    [YYYY-MM-DD[*HH[:MM[:SS[.fff[fff]]]][+HH:MM[:SS[.ffffff]]]]]
    (ASCII, any one character for [*]); every other string is a
    [ValueError]. *)

Record datetime : Type := {
  year : Z; month : Z; day : Z;
  hour : Z; minute : Z; second : Z; microsecond : Z;
  (** offset from UTC in microseconds, [None] for a naive datetime *)
  utcoffset : option Z
}.

Definition digit_of (c : ascii) : option Z :=
  let n := Z.of_N (N_of_ascii c) in
  if (48 <=? n) && (n <=? 57) then Some (n - 48) else None.

(** Exactly [n] decimal digits at the head of [s]; their value (after
    [acc]) and the rest of [s]. *)
Fixpoint parse_digits (n : nat) (acc : Z) (s : string) : option (Z * string) :=
  match n with
  | O => Some (acc, s)
  | S n' =>
      match s with
      | String c rest =>
          match digit_of c with
          | Some d => parse_digits n' (10 * acc + d) rest
          | None => None
          end
      | EmptyString => None
      end
  end.

Definition expect (c : ascii) (s : string) : option string :=
  match s with
  | String c' rest => if Ascii.eqb c c' then Some rest else None
  | EmptyString => None
  end.

(** [HH[:MM[:SS[.fff[fff]]]]] *)
Definition parse_hh_mm_ss_ff (s : string) : option (Z * Z * Z * Z) :=
  '(h, r) ← parse_digits 2 0 s;
  if String.eqb r "" then Some (h, 0, 0, 0) else
  r ← expect ":" r;
  '(mi, r) ← parse_digits 2 0 r;
  if String.eqb r "" then Some (h, mi, 0, 0) else
  r ← expect ":" r;
  '(se, r) ← parse_digits 2 0 r;
  if String.eqb r "" then Some (h, mi, se, 0) else
  r ← expect "." r;
  match String.length r with
  | 3%nat => '(ms, r) ← parse_digits 3 0 r; Some (h, mi, se, 1000 * ms)
  | 6%nat => '(us, r) ← parse_digits 6 0 r; Some (h, mi, se, us)
  | _ => None
  end.

(** The time string cut at its first [+] or [-]: the time, and the sign
    (true for [-]) and text of the offset when there is one. *)
Fixpoint split_offset (s : string) : string * option (bool * string) :=
  match s with
  | EmptyString => (EmptyString, None)
  | String c rest =>
      if Ascii.eqb c "+" then (EmptyString, Some (false, rest))
      else if Ascii.eqb c "-" then (EmptyString, Some (true, rest))
      else let '(t, o) := split_offset rest in (String c t, o)
  end.

(** [+HH:MM], [+HH:MM:SS] or [+HH:MM:SS.ffffff]; the offset they add up to
    must be strictly inside a day. *)
Definition parse_offset (neg : bool) (s : string) : option Z :=
  if bool_decide (String.length s ∈ [5; 8; 15]%nat) then
    '(h, mi, se, us) ← parse_hh_mm_ss_ff s;
    let off := ((h * 60 + mi) * 60 + se) * 1000000 + us in
    if off <? 86400000000 then Some (if neg then - off else off) else None
  else None.

Definition is_leap (y : Z) : bool :=
  (y mod 4 =? 0) && (negb (y mod 100 =? 0) || (y mod 400 =? 0)).

Definition days_in_month (y m : Z) : Z :=
  if m =? 2 then (if is_leap y then 29 else 28)
  else if bool_decide (m ∈ [4; 6; 9; 11]) then 30 else 31.

Definition parse_isoformat (s : string) : option datetime :=
  '(y, r) ← parse_digits 4 0 s;
  r ← expect "-" r;
  '(mo, r) ← parse_digits 2 0 r;
  r ← expect "-" r;
  '(d, r) ← parse_digits 2 0 r;
  '(h, mi, se, us, off) ←
    match r with
    | EmptyString => Some (0, 0, 0, 0, None)
    | String _ tstr =>
        let '(t, o) := split_offset tstr in
        '(h, mi, se, us) ← parse_hh_mm_ss_ff t;
        match o with
        | None => Some (h, mi, se, us, None)
        | Some (neg, ostr) =>
            off ← parse_offset neg ostr; Some (h, mi, se, us, Some off)
        end
    end;
  if (1 <=? y) && (1 <=? mo) && (mo <=? 12) && (1 <=? d)
     && (d <=? days_in_month y mo) && (h <? 24) && (mi <? 60) && (se <? 60)
  then Some {| year := y; month := mo; day := d; hour := h; minute := mi;
               second := se; microsecond := us; utcoffset := off |}
  else None.

Definition fromisoformat (s : string) : result datetime :=
  match parse_isoformat s with
  | Some dt => Ok dt
  | None => Raise ValueError
  end.

Definition two (n : Z) : string := zfill (str_int n) 2.

Definition format_offset (off : Z) : string :=
  let a := Z.abs off in
  let us := a mod 1000000 in
  let s := a / 1000000 in
  (if off <? 0 then "-" else "+") +:+ two (s / 3600) +:+ ":"
  +:+ two (s / 60 mod 60)
  +:+ (if (s mod 60 =? 0) && (us =? 0) then ""
       else ":" +:+ two (s mod 60)
            +:+ (if us =? 0 then "" else "." +:+ zfill (str_int us) 6)).

(** [dt.isoformat(timespec="seconds")] *)
Definition isoformat_seconds (dt : datetime) : string :=
  zfill (str_int (year dt)) 4 +:+ "-" +:+ two (month dt) +:+ "-"
  +:+ two (day dt) +:+ "T" +:+ two (hour dt) +:+ ":" +:+ two (minute dt)
  +:+ ":" +:+ two (second dt)
  +:+ match utcoffset dt with
      | Some off => format_offset off
      | None => ""
      end.

(** [dt.strftime("%d%H%MZ")] *)
Definition strftime_ddhhmmz (dt : datetime) : string :=
  two (day dt) +:+ two (hour dt) +:+ two (minute dt) +:+ "Z".

(** *** [math] *)

(** libm's [cos] and [sin] on doubles.  Their results depend on the C
    library; the module's functions take them as given. *)
Class Libm : Type := {
  libm_cos : float -> float;
  libm_sin : float -> float
}.

(** CPython's wrapper around a libm function of one argument: a NaN out of
    a non-NaN argument, or an infinity out of a finite one, is a
    [ValueError]. *)
Definition math_1 (f : float -> float) (x : float) : result float :=
  let r := f x in
  if PrimFloat.is_nan r && negb (PrimFloat.is_nan x) then Raise ValueError
  else if PrimFloat.is_infinity r && PrimFloat.is_finite x then Raise ValueError
  else Ok r.

Definition math_cos `{Libm} (x : float) : result float := math_1 libm_cos x.
Definition math_sin `{Libm} (x : float) : result float := math_1 libm_sin x.

(** [math.radians(v)]: [x * (pi / 180)]. *)
Definition degToRad : float := (3.141592653589793 / 180)%float.

Definition math_radians (v : pyval) : result float :=
  let! x := as_float v in Ok (x * degToRad)%float.

(** ** Configuration *)

Definition STATIONS_items : list (string * string) :=
  [("06170", "EKRK"); ("06156", "EKHK")].

Definition STATIONS : gmap string string := list_to_map STATIONS_items.

Definition PARAMS_items : list (string * string) :=
  [("temp_dew", "temp_dew_c");
   ("temp_dry", "temp_dry_c");
   ("visib_mean_last10min", "visibility_m");
   ("pressure_at_sea", "qnh_hpa");
   ("wind_dir", "wind_dir_deg");
   ("wind_speed", "wind_speed_ms");
   ("wind_max", "wind_gust_ms");
   ("cloud_cover", "cloud_cover_pct");
   ("cloud_height", "cloud_height_m")].

Definition PARAMS : gmap string string := list_to_map PARAMS_items.

(** ** The payload *)

(** One element of [payload["features"]]: the three properties the module
    reads. *)
Record feature : Type := {
  parameterId : string;
  value : pyval;
  observed : string
}.

Record payload : Type := { features : list feature }.

(** ** API helpers *)

(** [all(v != -1 for v in result.values())] *)
Definition all_collected (res : gmap string pyval) : bool :=
  bool_decide (map_Forall (fun _ v => py_eq_int v (-1) = false) res).

(** The [for] loop of [latest_values] from a given [result]; beside the
    mapping it tells whether the loop ended in its [break]. *)
Fixpoint latest_values_loop (res : gmap string pyval) (feats : list feature)
  : result (gmap string pyval * bool) :=
  match feats with
  | [] => Ok (res, false)
  | feat :: rest =>
      let pid := parameterId feat in
      match PARAMS !! pid with
      | Some alias =>
          if negb (String.eqb alias "") then
            let! cur := getitem res alias in
            if py_eq_int cur (-1) then
              let res' := <[alias := value feat]> res in
              if all_collected res' then Ok (res', true)
              else latest_values_loop res' rest
            else latest_values_loop res rest
          else latest_values_loop res rest
      | None => latest_values_loop res rest
      end
  end.

(** [{alias: -1 for alias in PARAMS.values()}] *)
Definition initial_result : gmap string pyval :=
  list_to_map ((fun kv => (kv.2, VInt (-1))) <$> PARAMS_items).

Definition latest_values (raw : payload) : result (gmap string pyval) :=
  let! r := latest_values_loop initial_result (features raw) in
  Ok r.1.

(** ** Domain-specific calculations *)

(** Metre/sec to knots. *)
Definition kt (ms : pyval) : result float := py_mul_float ms 1.94384.

Definition cloud_code (cover : pyval) : result string :=
  let! b := py_le cover 0 in
  if b then Ok "NCD" else
  let! b := py_le cover 10 in
  if b then Ok "SKC" else
  let! b := py_le cover 25 in
  if b then Ok "FEW" else
  let! b := py_le cover 50 in
  if b then Ok "SCT" else
  let! b := py_le cover 90 in
  if b then Ok "BKN" else
  Ok "OVC".

(** [10 < wdir < 190]: the second comparison is evaluated only when the
    first holds. *)
Definition in_sector_10 (wdir : pyval) : result bool :=
  let! above := py_gt wdir 10 in
  if above then py_lt wdir 190 else Ok false.

(** The runway number and the angular offset chosen for [wdir]. *)
Definition runway_offset (wdir : pyval) : result (Z * pyval) :=
  let! sector := in_sector_10 wdir in
  if sector then
    let! offset := py_sub wdir (VInt 100) in Ok (10, offset)
  else
    let! far := py_ge wdir 190 in
    let! offset :=
      if far then py_sub wdir (VInt 280) else py_add wdir (VInt 80) in
    Ok (28, offset).

Section WithLibm.
Context `{Libm}.

(** [abs(round(f(av_rad) * wspd))] *)
Definition wind_component (f : float -> result float) (av_rad wspd : float)
  : result Z :=
  let! c := f av_rad in
  let! r := round_float (c * wspd) in
  Ok (Z.abs r).

Definition runway_and_components (wdir wspd_ms : pyval)
  : result (gmap string pyval) :=
  let! ro := runway_offset wdir in
  let '(rwy, offset) := ro in
  let! wspd := kt wspd_ms in
  let! av_rad := math_radians offset in
  let! hw := wind_component math_cos av_rad wspd in
  let! xw := wind_component math_sin av_rad wspd in
  let! neg := py_lt offset 0 in
  Ok (<["runway" := VStr (str_int rwy)]>
      (<["headwind_kt" := VInt hw]>
      (<["crosswind_kt" := VInt xw]>
      (<["crosswind_from" := VStr (if neg then "left" else "right")]> ∅)))).

(** [raw["features"][0]] *)
Definition first_feature (raw : payload) : result feature :=
  match features raw with
  | f :: _ => Ok f
  | [] => Raise IndexError
  end.

Definition build_metar_dict (station_id : string) (raw : payload)
  : result (gmap string pyval) :=
  let! vals := latest_values raw in
  let name := default station_id (STATIONS !! station_id) in
  let! first := first_feature raw in
  let obs_time_iso := observed first in
  let! obs_dt := fromisoformat (replace_char "Z" "+00:00" obs_time_iso) in
  (* {"station": ..., "observed": ..., **vals}: the entries of vals come
     last and win *)
  let metar_bits : gmap string pyval :=
    vals ∪ <["station" := VStr name]>
             (<["observed" := VStr (isoformat_seconds obs_dt)]> ∅) in
  let! ms := getitem vals "wind_speed_ms" in
  let! k := kt ms in
  let! wind_speed_kt := round_float k in
  let metar_bits := <["wind_speed_kt" := VInt wind_speed_kt]> metar_bits in
  let! ms := getitem vals "wind_gust_ms" in
  let! k := kt ms in
  let! wind_gust_kt := round_float k in
  let metar_bits := <["wind_gust_kt" := VInt wind_gust_kt]> metar_bits in
  let! cover := getitem vals "cloud_cover_pct" in
  let! code := cloud_code cover in
  let metar_bits := <["cloud_code" := VStr code]> metar_bits in
  let! height := getitem vals "cloud_height_m" in
  let! high := py_gt height 15 in
  let! cloud_height_ft :=
    if high then
      let! height := getitem vals "cloud_height_m" in
      let! ft := py_mul_float height 3.28084 in
      let! r := round_float ft in
      Ok (VInt r)
    else Ok VNone in
  let metar_bits := <["cloud_height_ft" := cloud_height_ft]> metar_bits in
  let! wdir := getitem vals "wind_dir_deg" in
  let! wspd := getitem vals "wind_speed_ms" in
  let! rc := runway_and_components wdir wspd in
  (* metar_bits.update(...): the new entries win *)
  Ok (rc ∪ metar_bits).
End WithLibm.

(** ** Formatter *)

Definition nl : string := String (ascii_of_nat 10) "".

(** [datetime.fromisoformat(v)] wants a [str]. *)
Definition fromisoformat_val (v : pyval) : result datetime :=
  match v with
  | VStr s => fromisoformat s
  | _ => Raise TypeError
  end.

(** [clouds += suffix] *)
Definition append_str (clouds : pyval) (suffix : string) : result pyval :=
  match clouds with
  | VStr s => Ok (VStr (s +:+ suffix))
  | _ => Raise TypeError
  end.

(** The [gust] local: ["G"] and the padded gust when it exceeds the speed
    by more than 10 kt, else empty. *)
Definition gust_of (d : gmap string pyval) : result string :=
  let! g := getitem d "wind_gust_kt" in
  let! s := getitem d "wind_speed_kt" in
  let! diff := py_sub g s in
  let! big := py_gt diff 10 in
  if big then
    let! g := getitem d "wind_gust_kt" in
    let! gs := py_str g in
    Ok ("G" +:+ zfill gs 2)
  else Ok "".

(** The [clouds] local. *)
Definition clouds_of (d : gmap string pyval) : result pyval :=
  let! clouds := getitem d "cloud_code" in
  let! with_height :=
    if negb (py_eq_str clouds "SKC") then
      let! h := getitem d "cloud_height_ft" in Ok (truthy h)
    else Ok false in
  if with_height then
    let! h := getitem d "cloud_height_ft" in
    let! q := py_floordiv h 100 in
    let! qs := py_str q in
    append_str clouds (zfill qs 3)
  else Ok clouds.

(** The [vis] local. *)
Definition vis_of (d : gmap string pyval) : result string :=
  let! v := getitem d "visibility_m" in
  let! far := py_gt v 9999 in
  if far then Ok "9999" else
  let! v := getitem d "visibility_m" in
  let! near := py_lt v 100 in
  if near then Ok "0000" else
  let! v := getitem d "visibility_m" in
  let! q := py_floordiv v 100 in
  let! n := py_int q in
  Ok (zfill (str_int n) 2 +:+ "00").

(** The [rwy] local. *)
Definition rwy_of (d : gmap string pyval) : result string :=
  let! r := getitem d "runway" in
  let! rs := py_str r in
  let! hw := getitem d "headwind_kt" in
  let! hws := py_str hw in
  let! side := getitem d "crosswind_from" in
  let arrow := if py_eq_str side "right" then "←" else "→" in
  let! xw := getitem d "crosswind_kt" in
  let! xws := py_str xw in
  Ok ("R" +:+ rs +:+ " HW" +:+ zfill hws 2 +:+ " "
      +:+ "XW" +:+ arrow +:+ zfill xws 2).

(** The f-string [metar_string] returns, from its locals: four lines, the
    first three ending in a space. *)
Definition report_text
    (station ts wdir wspd gust vis clouds qnh temp_dew rwy : string) : string :=
  station +:+ " METAR " +:+ ts +:+ " " +:+ nl
  +:+ wdir +:+ wspd
  +:+ (if negb (String.eqb gust "") then "G" else "") +:+ gust
  +:+ "KT " +:+ nl
  +:+ vis +:+ " " +:+ clouds +:+ " " +:+ qnh +:+ " " +:+ temp_dew
  +:+ " " +:+ nl
  +:+ " " +:+ rwy +:+ nl.

(** The [wdir] local: the direction rounded to the nearest ten degrees. *)
Definition wdir_of (d : gmap string pyval) : result Z :=
  let! wd := getitem d "wind_dir_deg" in
  let! tenth := py_truediv wd 10 in
  let! r := round_float tenth in
  Ok (r * 10).

(** [metar_string] also prints [gust] on standard output, which the
    embedding leaves out. *)
Definition metar_string (d : gmap string pyval) : result string :=
  let! obs := getitem d "observed" in
  let! dt := fromisoformat_val obs in
  let ts := strftime_ddhhmmz dt in
  let! wdir := wdir_of d in
  let! ws := getitem d "wind_speed_kt" in
  let! wss := py_str ws in
  let wspd := zfill wss 2 in
  let! gust := gust_of d in
  let! clouds := clouds_of d in
  let! vis := vis_of d in
  let! dry := getitem d "temp_dry_c" in
  let! dry := py_round dry in
  let! dew := getitem d "temp_dew_c" in
  let! dew := py_round dew in
  let temp_dew := str_int dry +:+ "/" +:+ str_int dew in
  let! q := getitem d "qnh_hpa" in
  let! q := py_round q in
  let qnh := "Q" +:+ str_int q in
  let! rwy := rwy_of d in
  let! station := getitem d "station" in
  let! station := py_str station in
  let! clouds := py_str clouds in
  Ok (report_text station ts (zfill (str_int wdir) 3) wspd gust vis clouds
        qnh temp_dew rwy).

(** ** Batch builder *)

(** What [get_metar] writes on standard error for a station it skips. *)
Inductive log_line : Type :=
| LogHTTPError (sid : string) (status_code : Z) (reason : string)
| LogUndecodable (sid : string) (e : exn).

(** [if not station_ids: station_ids = list(STATIONS)]: the default also
    replaces an empty list. *)
Definition station_ids_or_default (station_ids : option (list string))
  : list string :=
  match station_ids with
  | Some (sid :: rest) => sid :: rest
  | Some [] | None => STATIONS_items.*1
  end.

Section GetMetar.
Context `{Libm}.
(** [fetch_station] with its default period: the HTTP request, seen as
    what it returns or raises for each station id. *)
Variable fetch_station : string -> result payload.

(** The state of the loop: [out] and the lines logged so far. *)
Definition batch : Type := list (gmap string pyval) * list log_line.

(** One iteration of the [for] loop: the [try] block and its two
    handlers ([time.sleep] has no effect on the values). *)
Definition get_metar_station (acc : batch) (sid : string) : result batch :=
  try_except
    (let! raw := fetch_station sid in
     let! d := build_metar_dict sid raw in
     Ok (acc.1 ++ [d], acc.2))
    (fun e =>
       match e with
       | HTTPError status_code reason =>
           Ok (acc.1, acc.2 ++ [LogHTTPError sid status_code reason])
       | exc => Ok (acc.1, acc.2 ++ [LogUndecodable sid exc])
       end).

Fixpoint get_metar_loop (acc : batch) (station_ids : list string)
  : result batch :=
  match station_ids with
  | [] => Ok acc
  | sid :: rest =>
      let! acc' := get_metar_station acc sid in
      get_metar_loop acc' rest
  end.

(** [get_metar(station_ids)]; [None] is the default argument. *)
Definition get_metar (station_ids : option (list string)) : result batch :=
  get_metar_loop ([], []) (station_ids_or_default station_ids).

(** What the batch is about, station by station.  [station_run] is the
    body of the [try] block for one station. *)
Definition station_run (sid : string) : result (gmap string pyval) :=
  let! raw := fetch_station sid in
  build_metar_dict sid raw.

(** The line the handlers log for a failure. *)
Definition logged (sid : string) (e : exn) : log_line :=
  match e with
  | HTTPError status_code reason => LogHTTPError sid status_code reason
  | exc => LogUndecodable sid exc
  end.

(** The records of the stations that succeed, in order. *)
Definition successes (station_ids : list string)
  : list (gmap string pyval) :=
  omap (fun sid => match station_run sid with
                   | Ok d => Some d
                   | Raise _ => None
                   end) station_ids.

(** The log lines of the stations that fail, in order. *)
Definition failures (station_ids : list string) : list log_line :=
  omap (fun sid => match station_run sid with
                   | Ok _ => None
                   | Raise e => Some (logged sid e)
                   end) station_ids.
End GetMetar.

(** ** The web application ([main.py]) *)

(** An [HTMLResponse]: its body and its status ([200] when the source gives
    none). *)
Record HTMLResponse : Type := {
  content : string;
  response_status : Z
}.

Definition dq : string := String (ascii_of_nat 34) "".

(** The page of [ekhg_page], before and after [{metar}]. *)
Definition page_head : string :=
  "
     <html>
        <head>
            <meta charset="
  +:+ dq +:+ "utf-8"
  +:+ dq +:+ ">
            <meta http-equiv="
  +:+ dq +:+ "refresh"
  +:+ dq +:+ " content="
  +:+ dq +:+ "60"
  +:+ dq +:+ ">
            <meta name="
  +:+ dq +:+ "viewport"
  +:+ dq +:+ " content="
  +:+ dq +:+ "width=device-width, initial-scale=1.0"
  +:+ dq +:+ ">
            <style>
              * {
                box-sizing: border-box;
              }
              html, body {
                margin: 0;
                padding: 0;
                height: 100%;
                width: 100%;
                background-color: #0d0f11;
                color: #00f5b3;
                font-family: monospace;
                font-size: 1.4rem;
                letter-spacing: 0.04em;
                display: flex;
                align-items: center;
                justify-content: center;
              }
              .container {
                text-align: center;
                padding: 1rem;
                max-width: 90%;
                width: 50%;
                line-height: 1.4;
              }
              span {
                display: inline-block;
                white-space: pre-wrap;
                word-break: break-word;
              }
            </style>
        </head>
        <body>
            <div class="
  +:+ dq +:+ "container"
  +:+ dq +:+ ">
                <span>".

Definition page_tail : string :=
  "</span>
            </div>
        </body>
        </html>
    ".

Section App.
Context `{Libm}.
Variable fetch_station : string -> result payload.

(** [GET /ekhk] *)
Definition ekhg_page : result HTMLResponse :=
  let! b := get_metar fetch_station (Some ["06156"]) in
  let data := b.1 in
  match data with
  | [] =>
      Ok {| content := "<h3>Service temporarily unavailable</h3>";
            response_status := 503 |}
  | d0 :: _ =>
      let! metar := metar_string d0 in
      Ok {| content := page_head +:+ metar +:+ page_tail;
            response_status := 200 |}
  end.

(** [GET /json]: the records themselves.  The handler also prints them
    with [json.dumps], which accepts every value of [pyval]. *)
Definition ekhk : result (list (gmap string pyval)) :=
  let! b := get_metar fetch_station (Some ["06156"]) in
  Ok b.1.
End App.

(** ** Helpers the module defines beside the pipeline *)

(** [zfill_int(n, width)]: [str(int(round(n))).zfill(width)]. *)
Definition zfill_int (n : pyval) (width : nat) : result string :=
  let! r := py_round n in
  Ok (zfill (str_int r) width).

(** ** An executable stand-in for libm

    Taylor polynomials for [cos] and [sin], accurate on [[-pi, pi]], the
    range of the offsets of wind directions in [[0, 360)].  The theorems
    below hold for every [Libm]; this instance runs the examples. *)

Fixpoint taylor_sum (n : nat) (x2 term k acc : float) : float :=
  match n with
  | O => acc
  | S n' =>
      let term' := (- term * x2 / (k * (k + 1)))%float in
      taylor_sum n' x2 term' (k + 2)%float (acc + term')%float
  end.

Definition cos_taylor (x : float) : float := taylor_sum 16 (x * x) 1 1 1.
Definition sin_taylor (x : float) : float := taylor_sum 16 (x * x) x 2 x.

Definition taylor_libm : Libm :=
  {| libm_cos := cos_taylor; libm_sin := sin_taylor |}.

(** ** The payload of the end-to-end example *)

(** A feature observed at 12:50 UTC on 16 January 2024. *)
Definition obs (pid : string) (v : pyval) : feature :=
  {| parameterId := pid; value := v; observed := "2024-01-16T12:50:00Z" |}.

(** Station 06156: wind 140 degrees at 5 m/s, cover 30 %, base 20 m,
    visibility 12000 m, QNH 1008, 6 over 4 degrees; no gust reported. *)
Definition ekhk_payload : payload :=
  {| features :=
       [obs "wind_dir" (VInt 140);
        obs "wind_speed" (VInt 5);
        obs "cloud_cover" (VInt 30);
        obs "cloud_height" (VInt 20);
        obs "visib_mean_last10min" (VInt 12000);
        obs "pressure_at_sea" (VInt 1008);
        obs "temp_dry" (VInt 6);
        obs "temp_dew" (VInt 4)] |}.

(** * Vocabulary of the properties

    Definitions the statements below are written with, and the payloads
    and records they are tried on. *)

(** ** Exceptions *)

(** An exception of Python, as opposed to the marker [NotModelled]. *)
Definition is_python (e : exn) : Prop :=
  match e with
  | NotModelled _ => False
  | _ => True
  end.

(** A computation that raises only exceptions of Python. *)
Definition pythonic {A : Type} (c : result A) : Prop :=
  forall e, c = Raise e -> is_python e.

(** ** The value extractor *)

(** What the loop leaves in the field [alias] that holds [cur], feature by
    feature: a feature of that field is taken while the field still
    compares equal to [-1]. *)
Fixpoint scan_alias (alias : string) (cur : pyval) (feats : list feature)
  : pyval :=
  match feats with
  | [] => cur
  | feat :: rest =>
      if py_eq_int cur (-1)
         && bool_decide (PARAMS !! parameterId feat = Some alias)
         && negb (String.eqb alias "")
      then scan_alias alias (value feat) rest
      else scan_alias alias cur rest
  end.

(** The feature reports the parameter stored in the field [alias]. *)
Definition tracks (alias : string) (feat : feature) : Prop :=
  PARAMS !! parameterId feat = Some alias.

(** The nine internal field names, [PARAMS.values()]. *)
Definition aliases : gset string := list_to_set PARAMS_items.*2.

(** ** The formatter *)

(** What a report is made of: [metar_string] returns exactly when each
    of its locals can be computed, and then returns [report_text] of them. *)
Inductive formatted (d : gmap string pyval) (s : string) : Prop :=
| Formatted (dt : datetime) (wdir : Z) (wspd gust clouds vis : string)
    (dry dew qnh : Z) (rwy station : string) :
    (exists obs, d !! "observed" = Some obs /\ fromisoformat_val obs = Ok dt) ->
    wdir_of d = Ok wdir ->
    (exists ws wss, d !! "wind_speed_kt" = Some ws /\ py_str ws = Ok wss
                    /\ wspd = zfill wss 2) ->
    gust_of d = Ok gust ->
    (exists cl, clouds_of d = Ok cl /\ py_str cl = Ok clouds) ->
    vis_of d = Ok vis ->
    (exists v, d !! "temp_dry_c" = Some v /\ py_round v = Ok dry) ->
    (exists v, d !! "temp_dew_c" = Some v /\ py_round v = Ok dew) ->
    (exists v, d !! "qnh_hpa" = Some v /\ py_round v = Ok qnh) ->
    rwy_of d = Ok rwy ->
    (exists v, d !! "station" = Some v /\ py_str v = Ok station) ->
    s = report_text station (strftime_ddhhmmz dt) (zfill (str_int wdir) 3)
          wspd gust vis clouds ("Q" +:+ str_int qnh)
          (str_int dry +:+ "/" +:+ str_int dew) rwy ->
    formatted d s.

(** The character of the decimal digit [n]. *)
Definition digit_char (n : Z) : ascii := ascii_of_N (Z.to_N (48 + n)).

(** [s.split(sep)] for a one-character separator. *)
Fixpoint split_on (sep : ascii) (s : string) : list string :=
  match s with
  | EmptyString => [EmptyString]
  | String c rest =>
      if Ascii.eqb c sep then EmptyString :: split_on sep rest
      else match split_on sep rest with
           | piece :: more => String c piece :: more
           | [] => [String c EmptyString]
           end
  end.

(** The lines of a text and the blank-separated tokens of a line. *)
Definition text_lines (s : string) : list string :=
  split_on (ascii_of_nat 10) s.

Definition text_tokens (line : string) : list string := split_on " " line.

(** ** Runway and wind components *)

(** The dict [runway_and_components] returns. *)
Definition components (rwy : string) (hw xw : Z) (side : string)
  : gmap string pyval :=
  <["runway" := VStr rwy]>
    (<["headwind_kt" := VInt hw]>
       (<["crosswind_kt" := VInt xw]>
          (<["crosswind_from" := VStr side]> ∅))).

(** ** Payloads and records *)

(** The computation returns. *)
Definition is_Ok {A : Type} (r : result A) : bool :=
  match r with Ok _ => true | Raise _ => false end.

(** [build_metar_dict] then [metar_string], as the [/ekhk] page does. *)
Definition report `{Libm} (station_id : string) (raw : payload)
  : result string :=
  let! d := build_metar_dict station_id raw in
  metar_string d.

(** What [latest_values] extracts from [ekhk_payload]. *)
Definition ekhk_vals : gmap string pyval :=
  list_to_map
    [("temp_dew_c", VInt 4);
     ("temp_dry_c", VInt 6);
     ("visibility_m", VInt 12000);
     ("qnh_hpa", VInt 1008);
     ("wind_dir_deg", VInt 140);
     ("wind_speed_ms", VInt 5);
     ("wind_gust_ms", VInt (-1));
     ("cloud_cover_pct", VInt 30);
     ("cloud_height_m", VInt 20)].

(** The record [build_metar_dict] makes of [ekhk_payload] with the
    stand-in libm. *)
Definition ekhk_record : gmap string pyval :=
  list_to_map
    [("station", VStr "EKHK");
     ("observed", VStr "2024-01-16T12:50:00+00:00");
     ("temp_dew_c", VInt 4);
     ("temp_dry_c", VInt 6);
     ("visibility_m", VInt 12000);
     ("qnh_hpa", VInt 1008);
     ("wind_dir_deg", VInt 140);
     ("wind_speed_ms", VInt 5);
     ("wind_gust_ms", VInt (-1));
     ("cloud_cover_pct", VInt 30);
     ("cloud_height_m", VInt 20);
     ("wind_speed_kt", VInt 10);
     ("wind_gust_kt", VInt (-2));
     ("cloud_code", VStr "SCT");
     ("cloud_height_ft", VInt 66);
     ("runway", VStr "10");
     ("headwind_kt", VInt 7);
     ("crosswind_kt", VInt 6);
     ("crosswind_from", VStr "right")].

(** [ekhk_record] with another visibility. *)
Definition with_visibility (v : pyval) : gmap string pyval :=
  <["visibility_m" := v]> ekhk_record.

(** [ekhk_record] with a speed of 10 kt and the given gust. *)
Definition with_gust (gust_kt : Z) : gmap string pyval :=
  <["wind_gust_kt" := VInt gust_kt]> ekhk_record.

(** A dry-bulb temperature of -1 degree followed by an older reading. *)
Definition freezing_payload : payload :=
  {| features :=
       [obs "temp_dry" (VFloat (-1)); obs "temp_dry" (VFloat 0.5)] |}.

(** Three dry-bulb readings, the newest equal to -1, among other
    features. *)
Definition sentinel_payload : payload :=
  {| features :=
       [obs "wind_dir" (VInt 140);
        obs "temp_dry" (VInt (-1));
        obs "wind_speed" (VInt 5);
        obs "temp_dry" (VInt 3);
        obs "temp_dry" (VInt 7)] |}.

(** A calm payload: the wind speed is 0.0 m/s. *)
Definition calm_payload : payload :=
  {| features :=
       [obs "wind_dir" (VFloat 140);
        obs "wind_speed" (VFloat 0);
        obs "temp_dry" (VFloat 6)] |}.

(** ** Batch builder *)

(** A network in which station 06170 answers 503 and station 06156
    answers [ekhk_payload]. *)
Definition flaky_fetch (sid : string) : result payload :=
  if String.eqb sid "06156" then Ok ekhk_payload
  else Raise (HTTPError 503 "Service Unavailable").

(** ** More vocabulary: the extractor without its early exit, the record
    as [build_metar_dict] puts it together *)

(** The loop of [latest_values] with the [break] taken out. *)
Fixpoint latest_values_loop_no_break (res : gmap string pyval)
    (feats : list feature) : result (gmap string pyval) :=
  match feats with
  | [] => Ok res
  | feat :: rest =>
      match PARAMS !! parameterId feat with
      | Some alias =>
          if negb (String.eqb alias "") then
            let! cur := getitem res alias in
            if py_eq_int cur (-1) then
              latest_values_loop_no_break (<[alias := value feat]> res) rest
            else latest_values_loop_no_break res rest
          else latest_values_loop_no_break res rest
      | None => latest_values_loop_no_break res rest
      end
  end.

(** The features that report the parameter of the field [alias]. *)
Definition features_of (alias : string) (feats : list feature)
  : list feature :=
  filter (fun feat => PARAMS !! parameterId feat = Some alias) feats.

(** The keys [build_metar_dict] adds to the nine fields. *)
Definition derived_keys : gset string :=
  list_to_set
    ["station"; "observed"; "wind_speed_kt"; "wind_gust_kt"; "cloud_code";
     "cloud_height_ft"; "runway"; "headwind_kt"; "crosswind_kt";
     "crosswind_from"].

(** The dict [build_metar_dict] returns, from its parts. *)
Definition assemble (vals : gmap string pyval) (name iso : string)
    (speed_kt gust_kt : Z) (code : string) (height_ft : pyval)
    (rc : gmap string pyval) : gmap string pyval :=
  rc ∪ <["cloud_height_ft" := height_ft]>
         (<["cloud_code" := VStr code]>
            (<["wind_gust_kt" := VInt gust_kt]>
               (<["wind_speed_kt" := VInt speed_kt]>
                  (vals ∪ <["station" := VStr name]>
                            (<["observed" := VStr iso]> ∅))))).

(** [w] is [n] rounded to a multiple of ten, a tie going to the even
    multiple. *)
Definition rounded_to_ten (n w : Z) : Prop :=
  w mod 10 = 0 /\ Z.abs (w - n) <= 5
  /\ (Z.abs (w - n) = 5 -> Z.even (w / 10) = true).

(** What [wdir_of] gives for the whole direction [n]: the rounded
    direction, three characters long once padded, 0 up to 4 degrees and
    360 from 355 degrees. *)
Definition prints_direction (n : Z) (r : result Z) : Prop :=
  match r with
  | Ok w => rounded_to_ten n w
            /\ String.length (zfill (str_int w) 3) = 3%nat
            /\ (n <= 4 -> w = 0) /\ (355 <= n -> w = 360)
  | Raise _ => False
  end.

#[global] Instance prints_direction_dec (n : Z) (r : result Z) :
  Decision (prints_direction n r).
Proof. destruct r; unfold prints_direction, rounded_to_ten; apply _. Defined.

(** The answers of the two endpoints that read station 06156. *)
Definition unavailable : HTMLResponse :=
  {| content := "<h3>Service temporarily unavailable</h3>";
     response_status := 503 |}.

Definition page (metar : string) : HTMLResponse :=
  {| content := page_head +:+ metar +:+ page_tail; response_status := 200 |}.

(** A payload whose newest dry-bulb reading is [null]. *)
Definition null_temperature_payload : payload :=
  {| features :=
       [obs "wind_dir" (VInt 140);
        obs "wind_speed" (VInt 5);
        obs "temp_dry" VNone;
        obs "temp_dry" (VInt 6)] |}.

(** ** Time stamps *)

(** The dates and times [fromisoformat] accepts. *)
Definition valid_datetime (dt : datetime) : Prop :=
  1 <= year dt <= 9999
  /\ 1 <= month dt <= 12
  /\ 1 <= day dt <= days_in_month (year dt) (month dt)
  /\ 0 <= hour dt < 24
  /\ 0 <= minute dt < 60
  /\ 0 <= second dt < 60
  /\ forall off, utcoffset dt = Some off ->
                 -86400000000 < off < 86400000000.

(** The offset from UTC, if any, is a whole number of seconds. *)
Definition whole_second_offset (dt : datetime) : Prop :=
  forall off, utcoffset dt = Some off -> off mod 1000000 = 0.

(** [dt.replace(microsecond=0)] *)
Definition to_the_second (dt : datetime) : datetime :=
  {| year := year dt; month := month dt; day := day dt;
     hour := hour dt; minute := minute dt; second := second dt;
     microsecond := 0; utcoffset := utcoffset dt |}.

(** * Properties *)

(** ** The Python operations on sample values *)

(** [round] goes to the even neighbour on a tie. *)
Example round_float_ties :
  round_float 0.5 = Ok 0 /\ round_float 1.5 = Ok 2
  /\ round_float 2.5 = Ok 2 /\ round_float (-2.5) = Ok (-2)
  /\ round_float 9.7192 = Ok 10 /\ round_float (-1.94384) = Ok (-2)
  /\ round_float PrimFloat.nan = Raise ValueError
  /\ round_float PrimFloat.infinity = Raise OverflowError.
Proof. by vm_compute. Qed.

(** The comparison with an integer literal agrees with the comparison of
    doubles on the literals of the module. *)
Example float_compare_int_samples :
  Forall (fun xk : float * Z * float =>
            let '(x, k, kf) := xk in
            float_compare_int x k
            = match PrimFloat.compare x kf with
              | FEq => Some Eq
              | FLt => Some Lt
              | FGt => Some Gt
              | FNotComparable => None
              end)
    [(10.01%float, 10, 10%float);
     (10%float, 10, 10%float);
     (9.99%float, 10, 10%float);
     (0%float, 0, 0%float);
     ((-0)%float, 0, 0%float);
     (90.01%float, 90, 90%float);
     (189.99%float, 190, 190%float);
     (190%float, 190, 190%float);
     (9999.5%float, 9999, 9999%float);
     (99.99%float, 100, 100%float);
     ((-1)%float, (-1), (-1)%float);
     (PrimFloat.nan, 0, 0%float);
     (PrimFloat.infinity, 9999, 9999%float);
     (PrimFloat.neg_infinity, 100, 100%float);
     (15.000001%float, 15, 15%float)].
Proof. repeat constructor. Qed.

Example arithmetic_samples :
  int_true_div 140 10 = Ok 14%float
  /\ int_true_div 145 10 = Ok 14.5%float
  /\ int_true_div 1 10 = Ok 0.1%float
  /\ py_truediv (VFloat 144.9) 10 = Ok (144.9 / 10)%float
  /\ float_of_int (2 ^ 53 + 1) = Ok 9007199254740992%float
  /\ float_of_int (2 ^ 1024) = Raise OverflowError
  /\ py_floordiv (VFloat 4321.5) 100 = Ok (VFloat 43)
  /\ py_floordiv (VFloat (-1)) 100 = Ok (VFloat (-1))
  /\ py_floordiv (VInt (-1)) 100 = Ok (VInt (-1))
  /\ py_int (VFloat (-43.7)) = Ok (-43)
  /\ py_sub (VFloat 140.5) (VInt 100) = Ok (VFloat 40.5)
  /\ py_sub (VStr "a") (VInt 100) = Raise TypeError.
Proof. by vm_compute. Qed.

Example string_samples :
  zfill (str_int 5) 2 = "05" /\ zfill (str_int 123) 2 = "123"
  /\ zfill (str_int (-2)) 2 = "-2" /\ zfill (str_int (-2)) 3 = "-02"
  /\ zfill (str_int 0) 3 = "000"
  /\ replace_char "Z" "+00:00" "2024-01-16T12:50:00Z"
     = "2024-01-16T12:50:00+00:00".
Proof. by vm_compute. Qed.

Example datetime_samples :
  (let! dt := fromisoformat "2024-01-16T12:50:00+00:00" in
   Ok (isoformat_seconds dt, strftime_ddhhmmz dt))
  = Ok ("2024-01-16T12:50:00+00:00", "161250Z")
  /\ (let! dt := fromisoformat "2024-01-16 12:50:07.500-01:30" in
      Ok (isoformat_seconds dt, strftime_ddhhmmz dt))
     = Ok ("2024-01-16T12:50:07-01:30", "161250Z")
  /\ (let! dt := fromisoformat "2024-02-29" in Ok (isoformat_seconds dt))
     = Ok "2024-02-29T00:00:00"
  /\ fromisoformat "2023-02-29T00:00:00" = Raise ValueError
  /\ fromisoformat "2024-01-16T12:50:00Z" = Raise ValueError
  /\ fromisoformat "" = Raise ValueError.
Proof. by vm_compute. Qed.

(** ** Which exceptions can come out *)

Create HintDb pythonic.

Lemma pythonic_Ok {A : Type} (a : A) : pythonic (Ok a).
Proof. by intros e. Qed.

Lemma pythonic_Raise {A : Type} (e : exn) : is_python e -> pythonic (@Raise A e).
Proof. by intros He e' [= <-]. Qed.

Lemma pythonic_bind {A B : Type} (c : result A) (k : A -> result B) :
  pythonic c -> (forall a, pythonic (k a)) -> pythonic (bind c k).
Proof.
  intros Hc Hk e. destruct c as [a|e']; simpl.
  - apply Hk.
  - intros [= <-]. by apply Hc.
Qed.

Lemma pythonic_if {A : Type} (b : bool) (c1 c2 : result A) :
  pythonic c1 -> pythonic c2 -> pythonic (if b then c1 else c2).
Proof. by destruct b. Qed.

Lemma pythonic_getitem {V : Type} (d : gmap string V) (key : string) :
  pythonic (getitem d key).
Proof. unfold getitem. intros e. by destruct (d !! key); intros [= <-]. Qed.

Lemma pythonic_float_of_int (n : Z) : pythonic (float_of_int n).
Proof.
  unfold float_of_int. intros e.
  by destruct (binary_normalize _ _ _ _ _); intros [= <-].
Qed.

Lemma pythonic_as_float (v : pyval) : pythonic (as_float v).
Proof.
  destruct v; simpl; try (by intros e [= <-]).
  apply pythonic_float_of_int.
Qed.

Lemma pythonic_round_float (x : float) : pythonic (round_float x).
Proof.
  unfold round_float. intros e. by destruct (Prim2SF x); intros [= <-].
Qed.

Lemma pythonic_compare_int (v : pyval) (k : Z) : pythonic (compare_int v k).
Proof. by destruct v; intros e [= <-]. Qed.

#[local] Hint Resolve pythonic_Ok pythonic_bind pythonic_if pythonic_getitem
  pythonic_float_of_int pythonic_as_float pythonic_round_float
  pythonic_compare_int : pythonic.

Lemma pythonic_py_gt (v : pyval) (k : Z) : pythonic (py_gt v k).
Proof. unfold py_gt. auto with pythonic. Qed.

Lemma pythonic_py_lt (v : pyval) (k : Z) : pythonic (py_lt v k).
Proof. unfold py_lt. auto with pythonic. Qed.

Lemma pythonic_py_le (v : pyval) (k : Z) : pythonic (py_le v k).
Proof. unfold py_le. auto with pythonic. Qed.

Lemma pythonic_py_ge (v : pyval) (k : Z) : pythonic (py_ge v k).
Proof. unfold py_ge. auto with pythonic. Qed.

Lemma pythonic_py_sub (a b : pyval) : pythonic (py_sub a b).
Proof.
  destruct a, b; simpl; try (by intros e [= <-]); auto 6 with pythonic.
Qed.

Lemma pythonic_py_add (a b : pyval) : pythonic (py_add a b).
Proof.
  destruct a, b; simpl; try (by intros e [= <-]); auto 6 with pythonic.
Qed.

Lemma pythonic_py_mul_float (v : pyval) (c : float) :
  pythonic (py_mul_float v c).
Proof. unfold py_mul_float. auto with pythonic. Qed.

Lemma pythonic_math_1 (f : float -> float) (x : float) : pythonic (math_1 f x).
Proof. unfold math_1. intros e. by repeat case_match; intros [= <-]. Qed.

Lemma pythonic_fromisoformat (s : string) : pythonic (fromisoformat s).
Proof.
  unfold fromisoformat. intros e. by destruct (parse_isoformat s); intros [= <-].
Qed.

#[local] Hint Resolve pythonic_py_gt pythonic_py_lt pythonic_py_le
  pythonic_py_ge pythonic_py_sub pythonic_py_add pythonic_py_mul_float
  pythonic_math_1 pythonic_fromisoformat : pythonic.

Lemma pythonic_cloud_code (cover : pyval) : pythonic (cloud_code cover).
Proof.
  unfold cloud_code.
  repeat (apply pythonic_bind; [auto with pythonic|];
          intros []; [apply pythonic_Ok|]).
  apply pythonic_Ok.
Qed.

Lemma pythonic_runway_offset (wdir : pyval) : pythonic (runway_offset wdir).
Proof.
  unfold runway_offset, in_sector_10.
  apply pythonic_bind.
  { apply pythonic_bind; [auto with pythonic|]. intros []; auto with pythonic. }
  intros [|].
  - apply pythonic_bind; [auto with pythonic|]. intros offset.
    apply pythonic_Ok.
  - apply pythonic_bind; [auto with pythonic|]. intros far.
    apply pythonic_bind; [destruct far; auto with pythonic|].
    intros offset. apply pythonic_Ok.
Qed.

Lemma pythonic_runway_and_components `{Libm} (wdir wspd_ms : pyval) :
  pythonic (runway_and_components wdir wspd_ms).
Proof.
  unfold runway_and_components, wind_component, kt, math_radians,
    math_cos, math_sin.
  apply pythonic_bind; [apply pythonic_runway_offset|]. intros [rwy offset].
  repeat (apply pythonic_bind; [auto with pythonic|]; intros ?).
  apply pythonic_Ok.
Qed.

(** ** The value extractor *)

Lemma all_collected_lookup (res : gmap string pyval) (a : string) (v : pyval) :
  all_collected res = true -> res !! a = Some v -> py_eq_int v (-1) = false.
Proof.
  unfold all_collected. intros Hall Hlook.
  apply bool_decide_eq_true in Hall. exact (Hall a v Hlook).
Qed.

Lemma scan_alias_settled (alias : string) (cur : pyval) (feats : list feature) :
  py_eq_int cur (-1) = false -> scan_alias alias cur feats = cur.
Proof.
  intros Hcur. induction feats as [|feat rest IH]; simpl; [done|].
  by rewrite Hcur.
Qed.

Lemma scan_alias_untracked (alias : string) (cur : pyval) (feats : list feature) :
  Forall (fun feat => ~ tracks alias feat) feats ->
  scan_alias alias cur feats = cur.
Proof.
  induction 1 as [|feat rest Hfeat _ IH]; simpl; [done|].
  rewrite (bool_decide_eq_false_2 _ Hfeat).
  by rewrite andb_false_r.
Qed.

Lemma scan_alias_app (alias : string) (cur : pyval) (l1 l2 : list feature) :
  scan_alias alias cur (l1 ++ l2)
  = scan_alias alias (scan_alias alias cur l1) l2.
Proof.
  revert cur. induction l1 as [|feat rest IH]; intros cur; simpl; [done|].
  by destruct (_ && _ && _).
Qed.

(** The loop never raises on a mapping that has every field, keeps the
    keys, computes [scan_alias] in each field, and has broken only with
    every field different from [-1]. *)
Lemma latest_values_loop_spec (feats : list feature) (res : gmap string pyval) :
  (forall pid alias, PARAMS !! pid = Some alias -> is_Some (res !! alias)) ->
  exists res' broke,
    latest_values_loop res feats = Ok (res', broke)
    /\ dom res' = dom res
    /\ (forall a cur, res !! a = Some cur ->
          res' !! a = Some (scan_alias a cur feats))
    /\ (broke = true -> all_collected res' = true).
Proof.
  revert res. induction feats as [|feat rest IH]; intros res Hkeys.
  { exists res, false. by repeat split. }
  cbn [latest_values_loop].
  destruct (PARAMS !! parameterId feat) as [alias|] eqn:Hpid; last first.
  { destruct (IH res Hkeys) as (res' & broke & -> & Hdom & Hscan & Hbrk).
    exists res', broke. repeat split; try done.
    intros a cur Ha. rewrite (Hscan a cur Ha). simpl. rewrite Hpid.
    rewrite bool_decide_eq_false_2 by done. by rewrite andb_false_r. }
  destruct (String.eqb alias "") eqn:Hempty; cbn [negb].
  { destruct (IH res Hkeys) as (res' & broke & -> & Hdom & Hscan & Hbrk).
    exists res', broke. repeat split; try done.
    intros a cur Ha. rewrite (Hscan a cur Ha). simpl. rewrite Hpid.
    destruct (bool_decide (Some alias = Some a)) eqn:Hd.
    - apply bool_decide_eq_true in Hd. injection Hd as <-.
      by rewrite Hempty, andb_false_r.
    - by rewrite andb_false_r. }
  destruct (Hkeys _ _ Hpid) as [cur0 Hcur0].
  unfold getitem. rewrite Hcur0. cbn [bind].
  destruct (py_eq_int cur0 (-1)) eqn:Hsent; last first.
  { destruct (IH res Hkeys) as (res' & broke & -> & Hdom & Hscan & Hbrk).
    exists res', broke. repeat split; try done.
    intros a cur Ha. rewrite (Hscan a cur Ha). simpl. rewrite Hpid.
    destruct (bool_decide (Some alias = Some a)) eqn:Hd.
    - apply bool_decide_eq_true in Hd. injection Hd as <-.
      assert (cur = cur0) as -> by congruence.
      by rewrite Hsent.
    - by rewrite andb_false_r. }
  set (res1 := <[alias := value feat]> res).
  assert (Hdom1 : dom res1 = dom res).
  { unfold res1. rewrite dom_insert_L.
    apply subseteq_union_1_L, singleton_subseteq_l, elem_of_dom. eauto. }
  assert (Hstep : forall a cur, res !! a = Some cur ->
            exists cur1, res1 !! a = Some cur1
              /\ scan_alias a cur (feat :: rest) = scan_alias a cur1 rest).
  { intros a cur Ha. simpl. rewrite Hpid. destruct (decide (alias = a)) as [<-|Hne].
    - exists (value feat). unfold res1. rewrite lookup_insert_eq.
      assert (cur = cur0) as -> by congruence.
      rewrite Hsent, Hempty. by rewrite bool_decide_eq_true_2.
    - exists cur. unfold res1. rewrite lookup_insert_ne by done.
      split; [done|].
      rewrite bool_decide_eq_false_2 by congruence. by rewrite andb_false_r. }
  destruct (all_collected res1) eqn:Hall.
  { exists res1, true. repeat split; try done.
    intros a cur Ha. destruct (Hstep a cur Ha) as (cur1 & Hl & ->).
    rewrite Hl. f_equal. symmetry. apply scan_alias_settled.
    by apply (all_collected_lookup res1 a). }
  assert (Hkeys1 : forall pid al, PARAMS !! pid = Some al -> is_Some (res1 !! al)).
  { intros pid al Hal. apply elem_of_dom. rewrite Hdom1. apply elem_of_dom. eauto. }
  destruct (IH res1 Hkeys1) as (res' & broke & -> & Hdom & Hscan & Hbrk).
  exists res', broke. repeat split; try done.
  - by rewrite Hdom.
  - intros a cur Ha. destruct (Hstep a cur Ha) as (cur1 & Hl & ->). by apply Hscan.
Qed.

Lemma tracked_in_items (pid alias : string) :
  PARAMS !! pid = Some alias -> (pid, alias) ∈ PARAMS_items.
Proof. apply elem_of_list_to_map_2. Qed.

Lemma tracked_alias (pid alias : string) :
  PARAMS !! pid = Some alias -> alias ∈ aliases /\ String.eqb alias "" = false.
Proof.
  intros Hin%tracked_in_items. split.
  - apply elem_of_list_to_set, list_elem_of_fmap. by exists (pid, alias).
  - unfold PARAMS_items in Hin.
    repeat (apply elem_of_cons in Hin as [Hin|Hin];
            [by injection Hin as -> ->|]).
    by apply elem_of_nil in Hin.
Qed.

Lemma initial_result_dom : dom initial_result = aliases.
Proof. unfold initial_result. by rewrite dom_list_to_map_L. Qed.

Lemma initial_result_lookup (a : string) :
  a ∈ aliases -> initial_result !! a = Some (VInt (-1)).
Proof.
  intros Ha. rewrite <- initial_result_dom in Ha.
  apply elem_of_dom in Ha as [v Hv]. rewrite Hv. f_equal.
  apply elem_of_list_to_map_2, list_elem_of_fmap in Hv as ([k al] & Heq & _).
  by injection Heq.
Qed.

Lemma initial_result_keys (pid alias : string) :
  PARAMS !! pid = Some alias -> is_Some (initial_result !! alias).
Proof.
  intros [Ha _]%tracked_alias. rewrite initial_result_lookup by done. eauto.
Qed.

(** [latest_values] always returns; its mapping has exactly the nine
    fields of [PARAMS], each holding what [scan_alias] finds from [-1]. *)
Lemma latest_values_spec (raw : payload) :
  exists vals broke,
    latest_values_loop initial_result (features raw) = Ok (vals, broke)
    /\ latest_values raw = Ok vals
    /\ dom vals = aliases
    /\ (forall a, a ∈ aliases ->
          vals !! a = Some (scan_alias a (VInt (-1)) (features raw)))
    /\ (broke = true -> all_collected vals = true).
Proof.
  destruct (latest_values_loop_spec (features raw) initial_result
              initial_result_keys) as (vals & broke & Hloop & Hdom & Hscan & Hbrk).
  exists vals, broke. unfold latest_values. rewrite Hloop.
  split; [done|]. split; [done|]. split; [|split; [|done]].
  - by rewrite Hdom, initial_result_dom.
  - intros a Ha. by apply Hscan, initial_result_lookup.
Qed.

(** A field no feature of the payload reports keeps the sentinel. *)
Lemma latest_values_default (raw : payload) (a : string) :
  a ∈ aliases ->
  Forall (fun feat => ~ tracks a feat) (features raw) ->
  exists vals, latest_values raw = Ok vals /\ vals !! a = Some (VInt (-1)).
Proof.
  intros Ha Hnone.
  destruct (latest_values_spec raw) as (vals & _ & _ & Hv & _ & Hscan & _).
  exists vals. split; [done|].
  by rewrite (Hscan a Ha), scan_alias_untracked.
Qed.

Lemma aliases_size : size aliases = 9%nat.
Proof. reflexivity. Qed.

(** The first feature of a field wins when its value differs from [-1]. *)
Lemma first_occurrence_wins (raw : payload) (a : string)
    (l1 : list feature) (f1 : feature) (l2 : list feature) :
  features raw = l1 ++ f1 :: l2 ->
  Forall (fun feat => ~ tracks a feat) l1 ->
  tracks a f1 ->
  py_eq_int (value f1) (-1) = false ->
  exists vals, latest_values raw = Ok vals /\ vals !! a = Some (value f1).
Proof.
  intros Hfeats Hl1 Hf1 Hval.
  destruct (tracked_alias _ _ Hf1) as [Ha Hne].
  destruct (latest_values_spec raw) as (vals & _ & _ & Hv & _ & Hscan & _).
  exists vals. split; [done|].
  rewrite (Hscan a Ha), Hfeats, scan_alias_app.
  rewrite (scan_alias_untracked a _ l1 Hl1).
  simpl. rewrite Hne. rewrite (bool_decide_eq_true_2 _ Hf1). simpl.
  by rewrite scan_alias_settled.
Qed.

(** C2: the extractor is meant to keep, for each tracked parameter, the
    first value in feature order.  On a payload whose first dry-bulb
    reading is -1.0 and whose second is 0.5 it returns the nine fields, but
    [temp_dry_c] holds the second reading 0.5, not the first. *)
Theorem latest_values_freezing_payload :
  exists vals,
    latest_values freezing_payload = Ok vals
    /\ dom vals = aliases
    /\ vals !! "temp_dry_c" = Some (VFloat 0.5)
    /\ vals !! "temp_dry_c" <> Some (VFloat (-1)).
Proof.
  destruct (latest_values_spec freezing_payload)
    as (vals & _ & _ & Hv & Hdom & Hscan & _).
  exists vals. split; [done|]. split; [done|].
  assert (Hlook : vals !! "temp_dry_c" = Some (VFloat 0.5)).
  { rewrite Hscan; [reflexivity|]. by vm_compute. }
  split; [done|]. rewrite Hlook. intros Heq.
  apply (f_equal (fun o => match o with
                           | Some (VFloat x) => PrimFloat.ltb x 0
                           | _ => false
                           end)) in Heq.
  vm_compute in Heq. discriminate.
Qed.

(** C10: a first occurrence that carries -1 looks unset to the loop.  When
    the first feature of a tracked field has a value equal to -1 and the
    field has a later feature, the result holds what the scan finds from
    that later feature on -- its value when that differs from -1 -- and
    the loop has not broken as long as some field of the result equals -1.
    A first occurrence that differs from -1 is kept. *)
Theorem sentinel_first_occurrence (raw : payload) (a : string)
    (l1 : list feature) (f1 : feature) (rest : list feature) :
  features raw = l1 ++ f1 :: rest ->
  Forall (fun feat => ~ tracks a feat) l1 ->
  tracks a f1 ->
  exists vals broke,
    latest_values_loop initial_result (features raw) = Ok (vals, broke)
    /\ latest_values raw = Ok vals
    /\ (py_eq_int (value f1) (-1) = false -> vals !! a = Some (value f1))
    /\ (py_eq_int (value f1) (-1) = true ->
        forall l2 f2 l3,
          rest = l2 ++ f2 :: l3 ->
          Forall (fun feat => ~ tracks a feat) l2 ->
          tracks a f2 ->
          vals !! a = Some (scan_alias a (value f2) l3)
          /\ (py_eq_int (value f2) (-1) = false ->
              vals !! a = Some (value f2)))
    /\ ((exists a' v, vals !! a' = Some v /\ py_eq_int v (-1) = true) ->
        broke = false).
Proof.
  intros Hfeats Hl1 Hf1.
  destruct (tracked_alias _ _ Hf1) as [Ha Hne].
  destruct (latest_values_spec raw) as (vals & broke & Hloop & Hv & _ & Hscan & Hbrk).
  exists vals, broke. split; [done|]. split; [done|].
  assert (Hat : vals !! a
                = Some (scan_alias a (VInt (-1)) (f1 :: rest))).
  { rewrite (Hscan a Ha), Hfeats, scan_alias_app.
    by rewrite (scan_alias_untracked a _ l1 Hl1). }
  simpl in Hat. rewrite Hne, (bool_decide_eq_true_2 _ Hf1) in Hat.
  simpl in Hat.
  split; [|split].
  - intros Hval. by rewrite Hat, scan_alias_settled.
  - intros Hval l2 f2 l3 -> Hl2 Hf2.
    assert (Hnext : vals !! a = Some (scan_alias a (value f2) l3)).
    { rewrite Hat, scan_alias_app, (scan_alias_untracked a _ l2 Hl2).
      simpl. by rewrite Hval, Hne, (bool_decide_eq_true_2 _ Hf2). }
    split; [done|]. intros Hval2. by rewrite Hnext, scan_alias_settled.
  - intros (a' & v & Hlook & Hsent).
    destruct broke; [|done].
    rewrite (all_collected_lookup vals a' v (Hbrk eq_refl) Hlook) in Hsent.
    discriminate.
Qed.

Lemma sentinel_first_occurrence_witness :
  exists vals,
    latest_values sentinel_payload = Ok vals
    /\ vals !! "temp_dry_c" = Some (VInt 3).
Proof.
  destruct (sentinel_first_occurrence sentinel_payload "temp_dry_c"
              [obs "wind_dir" (VInt 140)] (obs "temp_dry" (VInt (-1)))
              [obs "wind_speed" (VInt 5); obs "temp_dry" (VInt 3);
               obs "temp_dry" (VInt 7)])
    as (vals & broke & _ & Hv & _ & Hover & _).
  - reflexivity.
  - repeat constructor. unfold tracks. simpl. vm_compute. discriminate.
  - reflexivity.
  - exists vals. split; [exact Hv|].
    refine (proj2 (Hover eq_refl [obs "wind_speed" (VInt 5)]
                     (obs "temp_dry" (VInt 3)) [obs "temp_dry" (VInt 7)]
                     eq_refl _ eq_refl) eq_refl).
    repeat constructor. unfold tracks. simpl. vm_compute. discriminate.
Defined.

(** ** The formatter *)

Lemma bind_Ok {A B : Type} (c : result A) (k : A -> result B) (b : B) :
  bind c k = Ok b -> exists a, c = Ok a /\ k a = Ok b.
Proof. destruct c as [a|e]; simpl; [eauto|discriminate]. Qed.

Lemma getitem_Ok {V : Type} (d : gmap string V) (key : string) (v : V) :
  getitem d key = Ok v <-> d !! key = Some v.
Proof.
  unfold getitem. destruct (d !! key); split; intros Heq; by inversion Heq.
Qed.

(** Splits a successful chain of [let!] into its steps. *)
Ltac inv_bind H :=
  repeat match type of H with
         | bind _ _ = Ok _ =>
             let a := fresh "a" in
             let Ha := fresh "Ha" in
             apply bind_Ok in H as (a & Ha & H)
         end.

Lemma metar_string_formatted (d : gmap string pyval) (s : string) :
  metar_string d = Ok s -> formatted d s.
Proof.
  unfold metar_string. intros Hs. inv_bind Hs. injection Hs as <-.
  repeat match goal with
         | Hget : getitem _ _ = Ok _ |- _ => apply getitem_Ok in Hget
         end.
  by econstructor; eauto 6.
Qed.

Lemma formatted_metar_string (d : gmap string pyval) (s : string) :
  formatted d s -> metar_string d = Ok s.
Proof.
  intros [dt wdir wspd gust clouds vis dry dew qnh rwy station
            (obs & Hobs & Hdt) Hwdir (ws & wss & Hws & Hwss & ->) Hgust
            (cl & Hcl & Hcls) Hvis (vdry & Hdry & Hrdry)
            (vdew & Hdew & Hrdew) (vq & Hq & Hrq) Hrwy
            (vst & Hst & Hsts) ->].
  unfold metar_string.
  repeat match goal with
         | Hget : _ !! _ = Some _ |- _ => apply getitem_Ok in Hget
         end.
  rewrite Hobs; cbn [bind]. rewrite Hdt; cbn [bind].
  rewrite Hwdir; cbn [bind]. rewrite Hws; cbn [bind].
  rewrite Hwss; cbn [bind]. rewrite Hgust; cbn [bind].
  rewrite Hcl; cbn [bind]. rewrite Hvis; cbn [bind].
  rewrite Hdry; cbn [bind]. rewrite Hrdry; cbn [bind].
  rewrite Hdew; cbn [bind]. rewrite Hrdew; cbn [bind].
  rewrite Hq; cbn [bind]. rewrite Hrq; cbn [bind].
  rewrite Hrwy; cbn [bind]. rewrite Hst; cbn [bind].
  rewrite Hsts; cbn [bind]. by rewrite Hcls.
Qed.

Lemma append_assoc (s1 s2 s3 : string) :
  (s1 +:+ s2) +:+ s3 = s1 +:+ (s2 +:+ s3).
Proof.
  induction s1 as [|c s1 IH]; [reflexivity|].
  exact (f_equal (String c) IH).
Qed.

(** The four lines of the text, the runway block last. *)
Lemma report_text_lines
    (station ts wdir wspd gust vis clouds qnh temp_dew rwy : string) :
  report_text station ts wdir wspd gust vis clouds qnh temp_dew rwy
  = (station +:+ " METAR " +:+ ts +:+ " ") +:+ nl
    +:+ (wdir +:+ wspd +:+ (if negb (String.eqb gust "") then "G" else "")
         +:+ gust +:+ "KT ") +:+ nl
    +:+ (vis +:+ " " +:+ clouds +:+ " " +:+ qnh +:+ " " +:+ temp_dew +:+ " ")
    +:+ nl
    +:+ (" " +:+ rwy) +:+ nl.
Proof. unfold report_text. by rewrite !append_assoc. Qed.

Example build_ekhk_record :
  (let! d := @build_metar_dict taylor_libm "06156" ekhk_payload in
   Ok (map_to_list d))
  = Ok (map_to_list ekhk_record).
Proof. vm_compute. reflexivity. Qed.

Example metar_string_ekhk_record :
  metar_string ekhk_record
  = Ok ("EKHK METAR 161250Z " +:+ nl +:+ "14010KT " +:+ nl
        +:+ "9999 SCT000 Q1008 6/4 " +:+ nl +:+ " R10 HW07 XW←06" +:+ nl).
Proof. vm_compute. reflexivity. Qed.

(** *** Runway block *)

Lemma rwy_of_Ok (d : gmap string pyval) (rwy : string) :
  rwy_of d = Ok rwy ->
  exists r hw side xw rs hws xws,
    d !! "runway" = Some r /\ d !! "headwind_kt" = Some hw
    /\ d !! "crosswind_from" = Some side /\ d !! "crosswind_kt" = Some xw
    /\ py_str r = Ok rs /\ py_str hw = Ok hws /\ py_str xw = Ok xws
    /\ rwy = "R" +:+ rs +:+ " HW" +:+ zfill hws 2 +:+ " XW"
             +:+ (if py_eq_str side "right" then "←" else "→")
             +:+ zfill xws 2.
Proof.
  unfold rwy_of. intros Hr. inv_bind Hr. injection Hr as <-.
  repeat match goal with
         | Hget : getitem _ _ = Ok _ |- _ => apply getitem_Ok in Hget
         end.
  do 7 eexists. by repeat (split; [eassumption|]).
Qed.

(** The two glyphs, by their UTF-8 bytes: U+2190 LEFTWARDS ARROW and
    U+2192 RIGHTWARDS ARROW. *)
Example arrows_utf8 :
  "←" = String (ascii_of_nat 226) (String (ascii_of_nat 134)
          (String (ascii_of_nat 144) ""))
  /\ "→" = String (ascii_of_nat 226) (String (ascii_of_nat 134)
             (String (ascii_of_nat 146) "")).
Proof. split; reflexivity. Qed.

(** C7: in every report the last line is a space and the runway block
    [R<runway> HW<headwind, 2 digits> XW<arrow><crosswind, 2 digits>]; the
    arrow points left when the crosswind side is "right" and right when it
    is "left" (or anything else). *)
Theorem runway_block_format (d : gmap string pyval) (s : string) :
  metar_string d = Ok s ->
  exists r hw side xw rs hws xws arrow front,
    d !! "runway" = Some r /\ d !! "headwind_kt" = Some hw
    /\ d !! "crosswind_from" = Some side /\ d !! "crosswind_kt" = Some xw
    /\ py_str r = Ok rs /\ py_str hw = Ok hws /\ py_str xw = Ok xws
    /\ (forall n, hw = VInt n -> hws = str_int n)
    /\ (forall n, xw = VInt n -> xws = str_int n)
    /\ (side = VStr "right" -> arrow = "←")
    /\ (side = VStr "left" -> arrow = "→")
    /\ (side <> VStr "right" -> arrow = "→")
    /\ s = front +:+ nl
           +:+ (" " +:+ "R" +:+ rs +:+ " HW" +:+ zfill hws 2
                +:+ " XW" +:+ arrow +:+ zfill xws 2) +:+ nl.
Proof.
  intros [dt wdir wspd gust clouds vis dry dew qnh rwy station
            _ _ _ _ _ _ _ _ _ Hrwy _ ->]%metar_string_formatted.
  destruct (rwy_of_Ok d rwy Hrwy)
    as (r & hw & side & xw & rs & hws & xws
        & Hr & Hhw & Hside & Hxw & Hrs & Hhws & Hxws & ->).
  exists r, hw, side, xw, rs, hws, xws,
    (if py_eq_str side "right" then "←" else "→").
  eexists.
  do 7 (split; [eassumption|]).
  split; [intros n ->; by injection Hhws|].
  split; [intros n ->; by injection Hxws|].
  split; [by intros ->|]. split; [by intros ->|].
  split.
  - intros Hne. destruct side as [| |?|t]; try done. simpl.
    destruct (String.eqb_spec t "right") as [->|]; [by destruct Hne|done].
  - rewrite report_text_lines. rewrite <- !append_assoc. reflexivity.
Qed.

Lemma runway_block_format_witness :
  exists front,
    metar_string ekhk_record
    = Ok (front +:+ nl +:+ " R10 HW07 XW←06" +:+ nl).
Proof.
  destruct (runway_block_format ekhk_record _ metar_string_ekhk_record)
    as (r & hw & side & xw & rs & hws & xws & arrow & front
        & Hr & Hhw & Hside & Hxw & Hrs & _ & _ & Hhws & Hxws
        & Harrow & _ & _ & Htext).
  exists front. rewrite metar_string_ekhk_record. f_equal.
  rewrite Htext.
  vm_compute in Hr, Hhw, Hside, Hxw.
  injection Hr as <-. injection Hhw as <-. injection Hside as <-.
  injection Hxw as <-. injection Hrs as <-.
  by rewrite (Hhws 7 eq_refl), (Hxws 6 eq_refl), (Harrow eq_refl).
Defined.

(** *** Comparisons of an [int] with a literal *)

Lemma py_gt_int (n k : Z) : py_gt (VInt n) k = Ok (k <? n).
Proof.
  unfold py_gt; simpl; f_equal;
    try (destruct (Z.compare_spec n k), (Z.ltb_spec k n); done || lia).
Qed.

Lemma py_lt_int (n k : Z) : py_lt (VInt n) k = Ok (n <? k).
Proof.
  unfold py_lt; simpl; f_equal;
    try (destruct (Z.compare_spec n k), (Z.ltb_spec n k); done || lia).
Qed.

Lemma py_le_int (n k : Z) : py_le (VInt n) k = Ok (n <=? k).
Proof.
  unfold py_le; simpl; f_equal;
    try (destruct (Z.compare_spec n k), (Z.leb_spec n k); done || lia).
Qed.

Lemma py_ge_int (n k : Z) : py_ge (VInt n) k = Ok (k <=? n).
Proof.
  unfold py_ge; simpl; f_equal;
    try (destruct (Z.compare_spec n k), (Z.leb_spec k n); done || lia).
Qed.

(** *** Two-digit fields *)

Lemma two_digits_table :
  Forall (fun k => zfill (str_int k) 2
                   = String (digit_char (k / 10))
                       (String (digit_char (k mod 10)) ""))
    (seqZ 0 100).
Proof. apply (bool_decide_unpack _). by vm_compute. Qed.

(** A number below 100 fills the field with its two decimal digits. *)
Lemma zfill_two_digits (k : Z) :
  0 <= k < 100 ->
  zfill (str_int k) 2
  = String (digit_char (k / 10)) (String (digit_char (k mod 10)) "").
Proof.
  intros Hk. apply (proj1 (Forall_forall _ _) two_digits_table).
  apply elem_of_seqZ. lia.
Qed.

(** *** Visibility token *)

Lemma vis_of_Ok (d : gmap string pyval) (vis : string) :
  vis_of d = Ok vis ->
  exists v,
    d !! "visibility_m" = Some v
    /\ ((py_gt v 9999 = Ok true /\ vis = "9999")
        \/ (py_gt v 9999 = Ok false /\ py_lt v 100 = Ok true /\ vis = "0000")
        \/ (py_gt v 9999 = Ok false /\ py_lt v 100 = Ok false
            /\ exists q n, py_floordiv v 100 = Ok q /\ py_int q = Ok n
                           /\ vis = zfill (str_int n) 2 +:+ "00")).
Proof.
  unfold vis_of. intros Hv.
  apply bind_Ok in Hv as (v & Hget & Hv). apply getitem_Ok in Hget.
  exists v. split; [done|].
  apply bind_Ok in Hv as ([|] & Hfar & Hv).
  { left. split; [done|]. by injection Hv. }
  right. unfold getitem in Hv. rewrite Hget in Hv. cbn [bind] in Hv.
  apply bind_Ok in Hv as ([|] & Hnear & Hv).
  { left. repeat split; try done. by injection Hv. }
  right. cbn [bind] in Hv.
  apply bind_Ok in Hv as (q & Hq & Hv).
  apply bind_Ok in Hv as (n & Hn & Hv).
  repeat split; try done. exists q, n. repeat split; try done.
  by injection Hv.
Qed.

(** C4, as the code has it: the visibility token opens the third line; it
    is "9999" above 9999 m, "0000" below 100 m, and otherwise the distance
    floor-divided by 100, on two digits, followed by "00".  So 9999 gives
    "9900", 50 gives "0000" and 4321 gives "4300". *)
Theorem visibility_token_rule (d : gmap string pyval) (s : string) :
  metar_string d = Ok s ->
  (exists v vis line1 line2 rest line4,
     d !! "visibility_m" = Some v
     /\ s = line1 +:+ nl +:+ line2 +:+ nl +:+ (vis +:+ " " +:+ rest) +:+ nl
            +:+ line4 +:+ nl
     /\ ((py_gt v 9999 = Ok true /\ vis = "9999")
         \/ (py_gt v 9999 = Ok false /\ py_lt v 100 = Ok true
             /\ vis = "0000")
         \/ (py_gt v 9999 = Ok false /\ py_lt v 100 = Ok false
             /\ exists q n, py_floordiv v 100 = Ok q /\ py_int q = Ok n
                            /\ vis = zfill (str_int n) 2 +:+ "00"))
     /\ (forall n, v = VInt n ->
           (9999 < n -> vis = "9999")
           /\ (n < 100 -> vis = "0000")
           /\ (100 <= n <= 9999 ->
               vis = String (digit_char (n / 1000))
                       (String (digit_char (n / 100 mod 10)) "00"))))
  /\ vis_of (with_visibility (VInt 9999)) = Ok "9900"
  /\ vis_of (with_visibility (VInt 50)) = Ok "0000"
  /\ vis_of (with_visibility (VInt 4321)) = Ok "4300"
  /\ vis_of (with_visibility (VFloat 4321)) = Ok "4300"
  /\ vis_of (with_visibility (VInt 10000)) = Ok "9999"
  /\ vis_of (with_visibility (VInt 100)) = Ok "0100".
Proof.
  intros Hs. split; [|by vm_compute].
  destruct (metar_string_formatted d s Hs)
    as [dt wdir wspd gust clouds vis dry dew qnh rwy station
          _ _ _ _ _ Hvis _ _ _ _ _ ->].
  destruct (vis_of_Ok d vis Hvis) as (v & Hget & Hrule).
  exists v, vis. do 4 eexists.
  split; [done|]. split; [apply report_text_lines|]. split; [done|].
  intros n ->. rewrite py_gt_int, py_lt_int in Hrule.
  destruct Hrule as [[Hfar ->]|[(Hfar & Hnear & ->)|(Hfar & Hnear & Hmid)]].
  - injection Hfar as Hfar%Z.ltb_lt. repeat split; (done || lia).
  - injection Hfar as Hfar%Z.ltb_ge. injection Hnear as Hnear%Z.ltb_lt.
    repeat split; (done || lia).
  - injection Hfar as Hfar%Z.ltb_ge. injection Hnear as Hnear%Z.ltb_ge.
    repeat split; try lia. intros _.
    destruct Hmid as (q & k & Hq & Hk & ->).
    injection Hq as <-. injection Hk as <-.
    rewrite zfill_two_digits.
    + by rewrite Z.div_div by lia.
    + split; [apply Z.div_pos; lia|apply Z.div_lt_upper_bound; lia].
Qed.

Lemma visibility_token_rule_witness :
  exists v vis line1 line2 rest line4,
    ekhk_record !! "visibility_m" = Some v
    /\ metar_string ekhk_record
       = Ok (line1 +:+ nl +:+ line2 +:+ nl +:+ (vis +:+ " " +:+ rest) +:+ nl
             +:+ line4 +:+ nl)
    /\ (forall n, v = VInt n -> 9999 < n -> vis = "9999").
Proof.
  destruct (proj1 (visibility_token_rule ekhk_record _
                     metar_string_ekhk_record))
    as (v & vis & line1 & line2 & rest & line4 & Hget & Htext & _ & Hint).
  exists v, vis, line1, line2, rest, line4.
  split; [exact Hget|]. split.
  - rewrite metar_string_ekhk_record. by rewrite Htext.
  - intros n Hn. exact (proj1 (Hint n Hn)).
Defined.

(** The claim's example fails: a visibility of 4321 m is rendered "4300",
    not "0043". *)
Lemma visibility_4321_is_4300 :
  metar_string (with_visibility (VInt 4321))
  = Ok ("EKHK METAR 161250Z " +:+ nl +:+ "14010KT " +:+ nl
        +:+ "4300 SCT000 Q1008 6/4 " +:+ nl +:+ " R10 HW07 XW←06" +:+ nl)
  /\ vis_of (with_visibility (VInt 4321)) = Ok "4300"
  /\ vis_of (with_visibility (VInt 4321)) <> Ok "0043"
  /\ vis_of (with_visibility (VInt 9999)) <> Ok "9999".
Proof. by vm_compute. Qed.

(** *** Wind line *)

(** The [gust] local is either empty or starts with its own "G". *)
Lemma gust_of_Ok (d : gmap string pyval) (gust : string) :
  gust_of d = Ok gust ->
  exists g sp diff,
    d !! "wind_gust_kt" = Some g /\ d !! "wind_speed_kt" = Some sp
    /\ py_sub g sp = Ok diff
    /\ ((py_gt diff 10 = Ok false /\ gust = "")
        \/ (py_gt diff 10 = Ok true
            /\ exists gs, py_str g = Ok gs /\ gust = "G" +:+ zfill gs 2)).
Proof.
  unfold gust_of. intros Hg.
  apply bind_Ok in Hg as (g & Hget & Hg). apply getitem_Ok in Hget.
  apply bind_Ok in Hg as (sp & Hsp & Hg). apply getitem_Ok in Hsp.
  apply bind_Ok in Hg as (diff & Hdiff & Hg).
  apply bind_Ok in Hg as ([|] & Hbig & Hg).
  - unfold getitem in Hg. rewrite Hget in Hg. cbn [bind] in Hg.
    apply bind_Ok in Hg as (gs & Hgs & Hg). injection Hg as <-.
    exists g, sp, diff. repeat split; try done. right. eauto.
  - injection Hg as <-. exists g, sp, diff. repeat split; try done. by left.
Qed.

(** The wind line of every report: direction on three digits, speed on
    two, then nothing when the gust exceeds the speed by 10 kt or less, and
    "GG" with the gust on two digits when it exceeds it by more. *)
Lemma wind_line_format (d : gmap string pyval) (s : string) :
  metar_string d = Ok s ->
  exists wdir sp sps g diff line1 below,
    wdir_of d = Ok wdir
    /\ d !! "wind_speed_kt" = Some sp /\ py_str sp = Ok sps
    /\ d !! "wind_gust_kt" = Some g /\ py_sub g sp = Ok diff
    /\ ((py_gt diff 10 = Ok false
         /\ s = line1 +:+ nl
                +:+ (zfill (str_int wdir) 3 +:+ zfill sps 2 +:+ "KT ")
                +:+ nl +:+ below)
        \/ (py_gt diff 10 = Ok true
            /\ exists gs,
                 py_str g = Ok gs
                 /\ s = line1 +:+ nl
                        +:+ (zfill (str_int wdir) 3 +:+ zfill sps 2
                             +:+ "GG" +:+ zfill gs 2 +:+ "KT ")
                        +:+ nl +:+ below)).
Proof.
  intros [dt wdir wspd gust clouds vis dry dew qnh rwy station
            _ Hwdir (sp & sps & Hsp & Hsps & ->) Hgust _ _ _ _ _ _ _ ->]
           %metar_string_formatted.
  destruct (gust_of_Ok d gust Hgust)
    as (g & sp' & diff & Hg & Hsp' & Hdiff & Hcases).
  assert (sp' = sp) as -> by congruence.
  rewrite report_text_lines.
  destruct Hcases as [[Hsmall ->]|(Hbig & gs & Hgs & ->)].
  - exists wdir, sp, sps, g, diff. do 2 eexists.
    do 5 (split; [eassumption|]).
    left. split; [done|]. reflexivity.
  - exists wdir, sp, sps, g, diff. do 2 eexists.
    do 5 (split; [eassumption|]).
    right. split; [done|]. exists gs. split; [done|]. reflexivity.
Qed.

(** C3: the gust is reported when it exceeds the speed by more than 10 kt
    (a difference of 10 is left out, of 11 is reported), but the wind line
    then carries the letter G twice: with a speed of 10 kt and a gust of
    21 kt it reads "14010GG21KT", not "14010G21KT". *)
Theorem gust_letter_is_doubled :
  metar_string (with_gust 21)
  = Ok ("EKHK METAR 161250Z " +:+ nl +:+ "14010GG21KT " +:+ nl
        +:+ "9999 SCT000 Q1008 6/4 " +:+ nl +:+ " R10 HW07 XW←06" +:+ nl)
  /\ gust_of (with_gust 21) = Ok "G21"
  /\ metar_string (with_gust 20)
     = Ok ("EKHK METAR 161250Z " +:+ nl +:+ "14010KT " +:+ nl
           +:+ "9999 SCT000 Q1008 6/4 " +:+ nl +:+ " R10 HW07 XW←06" +:+ nl)
  /\ gust_of (with_gust 20) = Ok "".
Proof. by vm_compute. Qed.

(** ** Cloud cover code *)

Lemma cloud_code_int (n : Z) :
  cloud_code (VInt n)
  = Ok (if n <=? 0 then "NCD" else if n <=? 10 then "SKC"
        else if n <=? 25 then "FEW" else if n <=? 50 then "SCT"
        else if n <=? 90 then "BKN" else "OVC").
Proof.
  unfold cloud_code. rewrite !py_le_int. cbn [bind].
  by repeat case_match.
Qed.

(** C6: the cover code goes by inclusive upper bounds, [<= 0] NCD,
    [<= 10] SKC, [<= 25] FEW, [<= 50] SCT, [<= 90] BKN, else OVC: as
    intervals on an integer cover, as the cascade of comparisons on any
    cover, and on every float (a NaN, which compares false, is OVC); and
    0, 10, 10.01, 90, 90.01 give NCD, SKC, FEW, BKN, OVC. *)
Theorem cloud_code_buckets :
  (forall n : Z,
      (n <= 0 -> cloud_code (VInt n) = Ok "NCD")
      /\ (0 < n <= 10 -> cloud_code (VInt n) = Ok "SKC")
      /\ (10 < n <= 25 -> cloud_code (VInt n) = Ok "FEW")
      /\ (25 < n <= 50 -> cloud_code (VInt n) = Ok "SCT")
      /\ (50 < n <= 90 -> cloud_code (VInt n) = Ok "BKN")
      /\ (90 < n -> cloud_code (VInt n) = Ok "OVC"))
  /\ (forall (cover : pyval) (code : string),
        cloud_code cover = Ok code <->
        (py_le cover 0 = Ok true /\ code = "NCD")
        \/ (py_le cover 0 = Ok false /\ py_le cover 10 = Ok true
            /\ code = "SKC")
        \/ (py_le cover 10 = Ok false /\ py_le cover 25 = Ok true
            /\ code = "FEW")
        \/ (py_le cover 25 = Ok false /\ py_le cover 50 = Ok true
            /\ code = "SCT")
        \/ (py_le cover 50 = Ok false /\ py_le cover 90 = Ok true
            /\ code = "BKN")
        \/ (py_le cover 0 = Ok false /\ py_le cover 10 = Ok false
            /\ py_le cover 25 = Ok false /\ py_le cover 50 = Ok false
            /\ py_le cover 90 = Ok false /\ code = "OVC"))
  /\ (forall x : float, exists code, cloud_code (VFloat x) = Ok code)
  /\ cloud_code (VInt 0) = Ok "NCD"
  /\ cloud_code (VFloat 0) = Ok "NCD"
  /\ cloud_code (VInt 10) = Ok "SKC"
  /\ cloud_code (VFloat 10) = Ok "SKC"
  /\ cloud_code (VFloat 10.01) = Ok "FEW"
  /\ cloud_code (VInt 90) = Ok "BKN"
  /\ cloud_code (VFloat 90) = Ok "BKN"
  /\ cloud_code (VFloat 90.01) = Ok "OVC"
  /\ cloud_code (VFloat PrimFloat.nan) = Ok "OVC".
Proof.
  split; [|split; [|split; [|by vm_compute]]].
  - intros n. rewrite cloud_code_int.
    repeat split; intros Hn; repeat case_match; (done || lia).
  - intros cover code. unfold cloud_code. split.
    + intros Hc.
      destruct (py_le cover 0) as [[|]|] eqn:H0; cbn [bind] in Hc;
        [injection Hc as <-; tauto| |done].
      destruct (py_le cover 10) as [[|]|] eqn:H10; cbn [bind] in Hc;
        [injection Hc as <-; tauto| |done].
      destruct (py_le cover 25) as [[|]|] eqn:H25; cbn [bind] in Hc;
        [injection Hc as <-; tauto| |done].
      destruct (py_le cover 50) as [[|]|] eqn:H50; cbn [bind] in Hc;
        [injection Hc as <-; tauto| |done].
      destruct (py_le cover 90) as [[|]|] eqn:H90; cbn [bind] in Hc;
        [injection Hc as <-; tauto| |done].
      injection Hc as <-. tauto.
    + assert (Hmono : forall k1 k2, k1 <= k2 ->
                py_le cover k1 = Ok true -> py_le cover k2 = Ok false ->
                False).
      { intros k1 k2 Hk. unfold py_le, compare_int.
        destruct cover as [|n|x|t]; try done; cbn [bind].
        - destruct (Z.compare_spec n k1), (Z.compare_spec n k2);
            (done || lia).
        - unfold float_compare_int.
          destruct (Prim2SF x) as [s|s| |s m e]; try done.
          + destruct (Z.compare_spec 0 k1), (Z.compare_spec 0 k2);
              (done || lia).
          + by destruct s.
          + destruct (Z.leb_spec 0 e).
            * generalize ((if s then Z.neg m else Z.pos m) * 2 ^ e).
              intros z.
              destruct (Z.compare_spec z k1), (Z.compare_spec z k2);
                (done || lia).
            * assert (0 < 2 ^ (- e)) by (apply Z.pow_pos_nonneg; lia).
              assert (k1 * 2 ^ (- e) <= k2 * 2 ^ (- e)) by nia.
              generalize dependent (2 ^ (- e)). intros p _ Hp.
              generalize (if s then Z.neg m else Z.pos m). intros z.
              destruct (Z.compare_spec z (k1 * p)),
                (Z.compare_spec z (k2 * p)); (done || lia). }
      intros Hcases.
      assert (Hdef : forall k, exists b, py_le cover k = Ok b).
      { intros k.
        assert (Hsome : exists k0 b0, py_le cover k0 = Ok b0)
          by (decompose [and or] Hcases; eauto).
        destruct Hsome as (k0 & b0 & Hk0). revert Hk0.
        unfold py_le, compare_int. destruct cover; cbn [bind]; eauto;
          discriminate. }
      pose proof (Hmono 0 10 ltac:(lia)) as M1.
      pose proof (Hmono 0 25 ltac:(lia)) as M2.
      pose proof (Hmono 0 50 ltac:(lia)) as M3.
      pose proof (Hmono 10 25 ltac:(lia)) as M4.
      pose proof (Hmono 10 50 ltac:(lia)) as M5.
      pose proof (Hmono 25 50 ltac:(lia)) as M6.
      clear Hmono.
      destruct (Hdef 0) as [b0 H0], (Hdef 10) as [b10 H10],
        (Hdef 25) as [b25 H25], (Hdef 50) as [b50 H50],
        (Hdef 90) as [b90 H90].
      clear Hdef. rewrite H0, H10, H25, H50, H90 in *.
      destruct b0, b10, b25, b50, b90; cbn [bind];
        intuition congruence.
  - intros x. unfold cloud_code, py_le, compare_int. cbn [bind].
    repeat case_match; eauto.
Qed.

(** ** Runway and wind components *)

Lemma round_half_even_nonneg (m : positive) (e : Z) :
  0 <= round_half_even (Z.pos m) e.
Proof.
  unfold round_half_even. destruct (Z.leb_spec 0 e) as [He|He].
  - apply Z.mul_nonneg_nonneg; [lia|]. by apply Z.pow_nonneg.
  - assert (Hd : 0 < 2 ^ (- e)) by (apply Z.pow_pos_nonneg; lia).
    assert (0 <= Z.pos m / 2 ^ (- e)) by (apply Z.div_pos; lia).
    repeat case_match; lia.
Qed.

(** Rounding to even is symmetric: [abs(round(x))] is [round(abs(x))]. *)
Lemma round_float_abs (x : float) :
  round_float (PrimFloat.abs x)
  = let! r := round_float x in Ok (Z.abs r).
Proof.
  unfold round_float. rewrite abs_spec.
  destruct (Prim2SF x) as [s|s| |s m e]; cbn [SFabs bind]; try done.
  f_equal. pose proof (round_half_even_nonneg m e). destruct s; lia.
Qed.

Lemma wind_component_abs `{Libm} (f : float -> result float)
    (av_rad wspd : float) (n : Z) :
  wind_component f av_rad wspd = Ok n <->
  exists c, f av_rad = Ok c
            /\ round_float (PrimFloat.abs (c * wspd)) = Ok n /\ 0 <= n.
Proof.
  unfold wind_component. split.
  - intros Hn. inv_bind Hn. injection Hn as <-.
    eexists. split; [eassumption|]. rewrite round_float_abs, Ha0.
    split; [done|lia].
  - intros (c & -> & Hr & _). cbn [bind].
    rewrite round_float_abs in Hr. by destruct (round_float (c * wspd)).
Qed.

Lemma in_sector_10_spec (wdir : pyval) :
  in_sector_10 wdir = Ok true
  <-> py_gt wdir 10 = Ok true /\ py_lt wdir 190 = Ok true.
Proof.
  unfold in_sector_10. split.
  - intros Hs. apply bind_Ok in Hs as ([|] & Hgt & Hs); [done|discriminate].
  - by intros [-> ->].
Qed.

Lemma in_sector_10_int (d : Z) :
  in_sector_10 (VInt d) = Ok (bool_decide (10 < d < 190)).
Proof.
  unfold in_sector_10. rewrite py_gt_int, py_lt_int. cbn [bind].
  destruct (Z.ltb_spec 10 d), (Z.ltb_spec d 190); f_equal; symmetry;
    (apply bool_decide_eq_true_2 || apply bool_decide_eq_false_2); lia.
Qed.

Lemma runway_offset_int (d : Z) :
  runway_offset (VInt d)
  = Ok (if bool_decide (10 < d < 190) then (10, VInt (d - 100))
        else if bool_decide (190 <= d) then (28, VInt (d - 280))
        else (28, VInt (d + 80))).
Proof.
  unfold runway_offset. rewrite in_sector_10_int. cbn [bind].
  destruct (bool_decide (10 < d < 190)); [done|].
  rewrite py_ge_int. cbn [bind].
  destruct (Z.leb_spec 190 d).
  - by rewrite bool_decide_eq_true_2.
  - by rewrite bool_decide_eq_false_2 by lia.
Qed.

(** [runway_and_components] returns exactly when each of its steps does,
    and then returns [components] of what they give. *)
Lemma runway_and_components_Ok `{Libm} (wdir wspd_ms : pyval)
    (res : gmap string pyval) :
  runway_and_components wdir wspd_ms = Ok res <->
  exists sector offset w rad c s hw xw neg,
    in_sector_10 wdir = Ok sector
    /\ (sector = true <->
        py_gt wdir 10 = Ok true /\ py_lt wdir 190 = Ok true)
    /\ runway_offset wdir = Ok (if sector then 10 else 28, offset)
    /\ kt wspd_ms = Ok w
    /\ math_radians offset = Ok rad
    /\ math_cos rad = Ok c /\ math_sin rad = Ok s
    /\ round_float (PrimFloat.abs (c * w)) = Ok hw
    /\ round_float (PrimFloat.abs (s * w)) = Ok xw
    /\ 0 <= hw /\ 0 <= xw
    /\ py_lt offset 0 = Ok neg
    /\ res = components (if sector then "10" else "28") hw xw
               (if neg then "left" else "right").
Proof.
  unfold runway_and_components. split.
  - intros Hr.
    apply bind_Ok in Hr as ([rwy offset] & Hro & Hr).
    apply bind_Ok in Hr as (w & Hw & Hr).
    apply bind_Ok in Hr as (rad & Hrad & Hr).
    apply bind_Ok in Hr as (hw & Hhw & Hr).
    apply bind_Ok in Hr as (xw & Hxw & Hr).
    apply bind_Ok in Hr as (neg & Hneg & Hr).
    injection Hr as <-.
    apply wind_component_abs in Hhw as (c & Hc & Hhw & Hhw0).
    apply wind_component_abs in Hxw as (s & Hs & Hxw & Hxw0).
    unfold runway_offset in Hro.
    apply bind_Ok in Hro as (sector & Hsec & Hro).
    exists sector, offset, w, rad, c, s, hw, xw, neg.
    assert (Hrwy : rwy = if sector then 10 else 28).
    { destruct sector; inv_bind Hro; by injection Hro as <- _. }
    subst rwy.
    split; [done|]. split.
    { rewrite <- in_sector_10_spec, Hsec. split; congruence. }
    split.
    { unfold runway_offset. rewrite Hsec. cbn [bind]. by destruct sector. }
    do 9 (split; [done|]). by destruct sector.
  - intros (sector & offset & w & rad & c & s & hw & xw & neg
            & _ & _ & Hro & Hw & Hrad & Hc & Hs & Hhw & Hxw & Hhw0 & Hxw0
            & Hneg & ->).
    rewrite Hro. cbn [bind]. rewrite Hw. cbn [bind].
    rewrite Hrad. cbn [bind].
    rewrite (proj2 (wind_component_abs math_cos rad w hw)) by eauto.
    rewrite (proj2 (wind_component_abs math_sin rad w xw)) by eauto.
    cbn [bind]. rewrite Hneg. cbn [bind]. by destruct sector.
Qed.

(** *** Comparing a double with 10, 190 and 0 *)

Lemma digits2_pos_bounds (m : positive) :
  2 ^ (Zpos (digits2_pos m) - 1) <= Zpos m < 2 ^ Zpos (digits2_pos m).
Proof.
  induction m as [m IH|m IH|]; cbn [digits2_pos]; [| |by vm_compute].
  - rewrite Pos2Z.inj_succ.
    replace (Z.succ (Zpos (digits2_pos m)) - 1)
      with (Z.succ (Zpos (digits2_pos m) - 1)) by lia.
    rewrite !Z.pow_succ_r by lia. lia.
  - rewrite Pos2Z.inj_succ.
    replace (Z.succ (Zpos (digits2_pos m)) - 1)
      with (Z.succ (Zpos (digits2_pos m) - 1)) by lia.
    rewrite !Z.pow_succ_r by lia. lia.
Qed.

(** The mantissa and exponent of a finite double. *)
Lemma valid_finite (s : bool) (m : positive) (e : Z) :
  valid_binary (S754_finite s m e) = true ->
  Zpos m < 2 ^ 53 /\ (e = -1074 \/ 2 ^ 52 <= Zpos m).
Proof.
  unfold SpecFloat.valid_binary, bounded, canonical_mantissa, fexp.
  intros [Hc _]%andb_true_iff. apply Z.eqb_eq in Hc.
  change (SpecFloat.emin prec emax) with (-1074) in Hc.
  change prec with 53 in Hc.
  pose proof (digits2_pos_bounds m) as [Hlo Hhi].
  set (d := Zpos (digits2_pos m)) in *.
  assert (Hd : d <= 53 /\ (e = -1074 \/ d = 53)) by lia.
  destruct Hd as [Hd53 Hcase]. split.
  - eapply Z.lt_le_trans; [exact Hhi|]. apply Z.pow_le_mono_r; lia.
  - destruct Hcase as [->| ->]; [by left|right]. exact Hlo.
Qed.

(** Python compares a double with an integer exactly; for an integer
    that is itself a double with a mantissa of 53 bits this is the
    comparison of the two doubles. *)
Lemma float_compare_int_SFcompare (x : float) (k : Z) (mk : positive)
    (ek : Z) :
  0 < k -> -1074 < ek <= 0 -> Zpos mk = k * 2 ^ (- ek) ->
  2 ^ 52 <= Zpos mk < 2 ^ 53 ->
  SFcompare (Prim2SF x) (S754_finite false mk ek) = float_compare_int x k
  /\ SFcompare (S754_finite false mk ek) (Prim2SF x)
     = CompOpp <$> float_compare_int x k.
Proof.
  intros Hk Hek Hmk Hbits. pose proof (Prim2SF_valid x) as Hvalid.
  unfold float_compare_int.
  destruct (Prim2SF x) as [s|s| |s m e]; cbn [SFcompare fmap option_fmap option_map].
  - rewrite (proj2 (Z.compare_lt_iff 0 k) Hk). by destruct s.
  - by destruct s.
  - done.
  - apply valid_finite in Hvalid as [Hm Hnorm].
    assert (Hpk : 0 < 2 ^ (- ek)) by (apply Z.pow_pos_nonneg; lia).
    destruct s.
    + assert (Hneg : (if 0 <=? e then Z.neg m * 2 ^ e ?= k
                      else Z.neg m ?= k * 2 ^ (- e)) = Lt).
      { destruct (Z.leb_spec 0 e); apply Z.compare_lt_iff.
        - assert (0 < 2 ^ e) by (apply Z.pow_pos_nonneg; lia). nia.
        - assert (0 < 2 ^ (- e)) by (apply Z.pow_pos_nonneg; lia). nia. }
      by rewrite Hneg.
    + assert (Hcmp : (if 0 <=? e then Z.pos m * 2 ^ e ?= k
                      else Z.pos m ?= k * 2 ^ (- e))
                     = match e ?= ek with
                       | Eq => Pos.compare_cont Eq m mk
                       | Lt => Lt
                       | Gt => Gt
                       end).
      { change (Pos.compare_cont Eq m mk) with (Z.pos m ?= Z.pos mk).
        destruct (Z.compare_spec e ek) as [->|Hlt|Hgt].
        - destruct (Z.leb_spec 0 ek).
          + assert (ek = 0) as -> by lia.
            change (2 ^ (- 0)) with 1 in Hmk. change (2 ^ 0) with 1.
            by rewrite Hmk, !Z.mul_1_r.
          + by rewrite Hmk.
        - assert (He : - e = - ek + (ek - e)) by lia.
          destruct (Z.leb_spec 0 e); [lia|].
          apply Z.compare_lt_iff. rewrite He, Z.pow_add_r by lia.
          rewrite Z.mul_assoc, <- Hmk.
          assert (2 <= 2 ^ (ek - e)).
          { change 2 with (2 ^ 1) at 1. apply Z.pow_le_mono_r; lia. }
          change (2 ^ 52) with 4503599627370496 in *.
          change (2 ^ 53) with 9007199254740992 in *. nia.
        - destruct Hnorm as [->|Hnorm]; [lia|].
          change (2 ^ 52) with 4503599627370496 in *.
          change (2 ^ 53) with 9007199254740992 in *.
          destruct (Z.leb_spec 0 e); apply Z.compare_gt_iff.
          + assert (0 < 2 ^ e) by (apply Z.pow_pos_nonneg; lia).
            destruct (decide (ek = 0)) as [->|Hne].
            * change (2 ^ (- 0)) with 1 in Hmk.
              assert (2 <= 2 ^ e).
              { change 2 with (2 ^ 1) at 1. apply Z.pow_le_mono_r; lia. }
              nia.
            * assert (2 <= 2 ^ (- ek)).
              { change 2 with (2 ^ 1) at 1. apply Z.pow_le_mono_r; lia. }
              nia.
          + assert (He : - ek = - e + (e - ek)) by lia.
            rewrite He, Z.pow_add_r in Hmk by lia.
            assert (2 <= 2 ^ (e - ek)).
            { change 2 with (2 ^ 1) at 1. apply Z.pow_le_mono_r; lia. }
            assert (0 < 2 ^ (- e)) by (apply Z.pow_pos_nonneg; lia).
            nia. }
      rewrite Hcmp. split; [done|].
      rewrite (Z.compare_antisym e ek).
      destruct (e ?= ek); cbn [CompOpp]; try done.
      by rewrite (Pos.compare_cont_antisym m mk Eq).
Qed.

Lemma float_compare_int_0 (x : float) :
  SFcompare (Prim2SF x) (S754_zero false) = float_compare_int x 0.
Proof.
  unfold float_compare_int.
  destruct (Prim2SF x) as [s|s| |s m e]; cbn [SFcompare]; try done.
  f_equal. destruct s.
  - destruct (Z.leb_spec 0 e); symmetry; apply Z.compare_lt_iff.
    + assert (0 < 2 ^ e) by (apply Z.pow_pos_nonneg; lia). nia.
    + lia.
  - destruct (Z.leb_spec 0 e); symmetry; apply Z.compare_gt_iff.
    + assert (0 < 2 ^ e) by (apply Z.pow_pos_nonneg; lia). nia.
    + lia.
Qed.

Lemma py_gt_float_10 (x : float) : py_gt (VFloat x) 10 = Ok (10 <? x)%float.
Proof.
  unfold py_gt, compare_int. cbn [bind]. f_equal.
  rewrite ltb_spec. unfold SFltb.
  change (Prim2SF 10) with (S754_finite false 5629499534213120 (-49)).
  rewrite (proj2 (float_compare_int_SFcompare x 10 5629499534213120 (-49)
                    ltac:(lia) ltac:(lia) eq_refl ltac:(by vm_compute))).
  by destruct (float_compare_int x 10) as [[| |]|].
Qed.

Lemma py_lt_float_190 (x : float) :
  py_lt (VFloat x) 190 = Ok (x <? 190)%float.
Proof.
  unfold py_lt, compare_int. cbn [bind]. f_equal.
  rewrite ltb_spec. unfold SFltb.
  change (Prim2SF 190) with (S754_finite false 6685030696878080 (-45)).
  rewrite (proj1 (float_compare_int_SFcompare x 190 6685030696878080 (-45)
                    ltac:(lia) ltac:(lia) eq_refl ltac:(by vm_compute))).
  by destruct (float_compare_int x 190) as [[| |]|].
Qed.

Lemma py_ge_float_190 (x : float) :
  py_ge (VFloat x) 190 = Ok (190 <=? x)%float.
Proof.
  unfold py_ge, compare_int. cbn [bind]. f_equal.
  rewrite leb_spec. unfold SFleb.
  change (Prim2SF 190) with (S754_finite false 6685030696878080 (-45)).
  rewrite (proj2 (float_compare_int_SFcompare x 190 6685030696878080 (-45)
                    ltac:(lia) ltac:(lia) eq_refl ltac:(by vm_compute))).
  by destruct (float_compare_int x 190) as [[| |]|].
Qed.

Lemma py_lt_float_0 (x : float) : py_lt (VFloat x) 0 = Ok (x <? 0)%float.
Proof.
  unfold py_lt, compare_int. cbn [bind]. f_equal.
  rewrite ltb_spec. unfold SFltb.
  change (Prim2SF 0) with (S754_zero false).
  rewrite float_compare_int_0.
  by destruct (float_compare_int x 0) as [[| |]|].
Qed.

(** *** The steps of [runway_and_components], written out *)

Lemma in_sector_10_Ok (wdir : pyval) (sector : bool) :
  in_sector_10 wdir = Ok sector <->
  exists above,
    py_gt wdir 10 = Ok above
    /\ (if above then py_lt wdir 190 = Ok sector else sector = false).
Proof.
  unfold in_sector_10. split.
  - intros Hs. apply bind_Ok in Hs as (above & Hgt & Hs). exists above.
    split; [done|]. destruct above; [done|]. by injection Hs.
  - intros (above & -> & Hs). cbn [bind]. destruct above; [done|].
    by rewrite Hs.
Qed.

Lemma runway_offset_Ok (wdir : pyval) (sector : bool) (offset : pyval) :
  runway_offset wdir = Ok (if sector then 10 else 28, offset) <->
  in_sector_10 wdir = Ok sector
  /\ (if sector then py_sub wdir (VInt 100) = Ok offset
      else exists far,
             py_ge wdir 190 = Ok far
             /\ (if far then py_sub wdir (VInt 280)
                 else py_add wdir (VInt 80)) = Ok offset).
Proof.
  unfold runway_offset. split.
  - intros Hr. apply bind_Ok in Hr as (sector' & Hsec & Hr).
    destruct sector'.
    + apply bind_Ok in Hr as (o & Ho & Hr). injection Hr as Hrwy <-.
      destruct sector; [done|discriminate].
    + apply bind_Ok in Hr as (far & Hfar & Hr).
      apply bind_Ok in Hr as (o & Ho & Hr). injection Hr as Hrwy <-.
      destruct sector; [discriminate|]. eauto.
  - intros [-> Hoff]. cbn [bind]. destruct sector.
    + by rewrite Hoff.
    + destruct Hoff as (far & -> & Hoff). cbn [bind]. by rewrite Hoff.
Qed.

Lemma kt_Ok (ms : pyval) (w : float) :
  kt ms = Ok w <-> exists ws, as_float ms = Ok ws /\ w = (ws * 1.94384)%float.
Proof.
  unfold kt, py_mul_float. split.
  - intros Hk. apply bind_Ok in Hk as (ws & Hws & Hk). injection Hk as <-.
    eauto.
  - by intros (ws & -> & ->).
Qed.

Lemma math_radians_Ok (v : pyval) (rad : float) :
  math_radians v = Ok rad <->
  exists o, as_float v = Ok o
            /\ rad = (o * (3.141592653589793 / 180))%float.
Proof.
  unfold math_radians, degToRad. split.
  - intros Hr. apply bind_Ok in Hr as (o & Ho & Hr). injection Hr as <-.
    eauto.
  - by intros (o & -> & ->).
Qed.

Lemma math_1_Ok (f : float -> float) (x c : float) :
  math_1 f x = Ok c <->
  c = f x
  /\ PrimFloat.is_nan (f x) && negb (PrimFloat.is_nan x) = false
  /\ PrimFloat.is_infinity (f x) && PrimFloat.is_finite x = false.
Proof.
  unfold math_1.
  destruct (PrimFloat.is_nan (f x) && negb (PrimFloat.is_nan x));
    [split; [discriminate|by intros (_ & ? & _)]|].
  destruct (PrimFloat.is_infinity (f x) && PrimFloat.is_finite x);
    [split; [discriminate|by intros (_ & _ & ?)]|].
  split; [by intros [= <-]|by intros (-> & _)].
Qed.

(** C5: [runway_and_components] returns exactly when each of its steps
    does, and then: the runway is "10" when [10 < wdir < 190] and "28"
    otherwise; the offset is [wdir - 100] on runway 10, and on runway 28
    [wdir - 280] from 190 on and [wdir + 80] below; the knots are the
    speed times 1.94384 and the radians the offset times pi/180; headwind
    and crosswind are [round(|cos(radians) * knots|)] and
    [round(|sin(radians) * knots|)], non-negative integers; the side is
    "left" when the offset is negative and "right" otherwise.  For a
    whole direction and for a double the comparisons and the offset are
    given in closed form. *)
Theorem runway_and_components_spec `{Libm} (wdir wspd_ms : pyval)
    (res : gmap string pyval) :
  (runway_and_components wdir wspd_ms = Ok res <->
   exists above sector offset ws o hw xw neg,
     py_gt wdir 10 = Ok above
     /\ (if above then py_lt wdir 190 = Ok sector else sector = false)
     /\ (if sector then py_sub wdir (VInt 100) = Ok offset
         else exists far,
                py_ge wdir 190 = Ok far
                /\ (if far then py_sub wdir (VInt 280)
                    else py_add wdir (VInt 80)) = Ok offset)
     /\ as_float wspd_ms = Ok ws
     /\ as_float offset = Ok o
     /\ (let knots := (ws * 1.94384)%float in
         let rad := (o * (3.141592653589793 / 180))%float in
         PrimFloat.is_nan (libm_cos rad) && negb (PrimFloat.is_nan rad)
         = false
         /\ PrimFloat.is_infinity (libm_cos rad) && PrimFloat.is_finite rad
            = false
         /\ PrimFloat.is_nan (libm_sin rad) && negb (PrimFloat.is_nan rad)
            = false
         /\ PrimFloat.is_infinity (libm_sin rad) && PrimFloat.is_finite rad
            = false
         /\ round_float (PrimFloat.abs (libm_cos rad * knots)) = Ok hw
         /\ round_float (PrimFloat.abs (libm_sin rad * knots)) = Ok xw)
     /\ 0 <= hw /\ 0 <= xw
     /\ py_lt offset 0 = Ok neg
     /\ res = components (if sector then "10" else "28") hw xw
                (if neg then "left" else "right"))
  /\ (forall d : Z,
        wdir = VInt d ->
        runway_and_components wdir wspd_ms = Ok res ->
        let sector := bool_decide (10 < d < 190) in
        let off := if sector then d - 100
                   else if bool_decide (190 <= d) then d - 280 else d + 80 in
        exists ws o hw xw,
          as_float wspd_ms = Ok ws
          /\ float_of_int off = Ok o
          /\ round_float
               (PrimFloat.abs
                  (libm_cos (o * (3.141592653589793 / 180))
                   * (ws * 1.94384))) = Ok hw
          /\ round_float
               (PrimFloat.abs
                  (libm_sin (o * (3.141592653589793 / 180))
                   * (ws * 1.94384))) = Ok xw
          /\ 0 <= hw /\ 0 <= xw
          /\ res = components (if sector then "10" else "28") hw xw
                     (if off <? 0 then "left" else "right"))
  /\ (forall x : float,
        wdir = VFloat x ->
        runway_and_components wdir wspd_ms = Ok res ->
        let sector := ((10 <? x) && (x <? 190))%float in
        let off := (if sector then x - 100
                    else if 190 <=? x then x - 280 else x + 80)%float in
        exists ws hw xw,
          as_float wspd_ms = Ok ws
          /\ round_float
               (PrimFloat.abs
                  (libm_cos (off * (3.141592653589793 / 180))
                   * (ws * 1.94384))) = Ok hw
          /\ round_float
               (PrimFloat.abs
                  (libm_sin (off * (3.141592653589793 / 180))
                   * (ws * 1.94384))) = Ok xw
          /\ 0 <= hw /\ 0 <= xw
          /\ res = components (if sector then "10" else "28") hw xw
                     (if (off <? 0)%float then "left" else "right")).
Proof.
  assert (Hiff :
    runway_and_components wdir wspd_ms = Ok res <->
    exists above sector offset ws o hw xw neg,
      py_gt wdir 10 = Ok above
      /\ (if above then py_lt wdir 190 = Ok sector else sector = false)
      /\ (if sector then py_sub wdir (VInt 100) = Ok offset
          else exists far,
                 py_ge wdir 190 = Ok far
                 /\ (if far then py_sub wdir (VInt 280)
                     else py_add wdir (VInt 80)) = Ok offset)
      /\ as_float wspd_ms = Ok ws
      /\ as_float offset = Ok o
      /\ (let knots := (ws * 1.94384)%float in
          let rad := (o * (3.141592653589793 / 180))%float in
          PrimFloat.is_nan (libm_cos rad) && negb (PrimFloat.is_nan rad)
          = false
          /\ PrimFloat.is_infinity (libm_cos rad) && PrimFloat.is_finite rad
             = false
          /\ PrimFloat.is_nan (libm_sin rad) && negb (PrimFloat.is_nan rad)
             = false
          /\ PrimFloat.is_infinity (libm_sin rad) && PrimFloat.is_finite rad
             = false
          /\ round_float (PrimFloat.abs (libm_cos rad * knots)) = Ok hw
          /\ round_float (PrimFloat.abs (libm_sin rad * knots)) = Ok xw)
      /\ 0 <= hw /\ 0 <= xw
      /\ py_lt offset 0 = Ok neg
      /\ res = components (if sector then "10" else "28") hw xw
                 (if neg then "left" else "right")).
  { rewrite runway_and_components_Ok. split.
    - intros (sector & offset & w & rad & c & s & hw & xw & neg
              & _ & _ & Hoff & Hw & Hrad & Hc & Hs & Hhw & Hxw & Hhw0
              & Hxw0 & Hneg & ->).
      apply runway_offset_Ok in Hoff as [Hsec Hoff].
      apply in_sector_10_Ok in Hsec as (above & Habove & Hsec).
      apply kt_Ok in Hw as (ws & Hws & ->).
      apply math_radians_Ok in Hrad as (o & Ho & ->).
      apply math_1_Ok in Hc as (-> & Hc1 & Hc2).
      apply math_1_Ok in Hs as (-> & Hs1 & Hs2).
      exists above, sector, offset, ws, o, hw, xw, neg.
      cbv zeta. split_and!; (assumption || reflexivity).
    - intros (above & sector & offset & ws & o & hw & xw & neg
              & Habove & Hsec & Hoff & Hws & Ho & Hlibm & Hhw0 & Hxw0
              & Hneg & ->).
      cbv zeta in Hlibm.
      destruct Hlibm as (Hc1 & Hc2 & Hs1 & Hs2 & Hhw & Hxw).
      assert (Hin : in_sector_10 wdir = Ok sector).
      { apply in_sector_10_Ok. eauto. }
      exists sector, offset, (ws * 1.94384)%float,
        (o * (3.141592653589793 / 180))%float,
        (libm_cos (o * (3.141592653589793 / 180))),
        (libm_sin (o * (3.141592653589793 / 180))), hw, xw, neg.
      split; [done|].
      split; [rewrite <- in_sector_10_spec, Hin;
              split; [by intros ->|by intros [= ->]]|].
      split; [by apply runway_offset_Ok|].
      split; [apply kt_Ok; eauto|].
      split; [apply math_radians_Ok; eauto|].
      split; [by apply math_1_Ok|]. split; [by apply math_1_Ok|].
      split_and!; (assumption || reflexivity). }
  split; [exact Hiff|]. split.
  - intros d -> Hres. cbv zeta.
    apply Hiff in Hres
      as (above & sector & offset & ws & o & hw & xw & neg
          & Habove & Hsec & Hoff & Hws & Ho & Hlibm & Hhw0 & Hxw0
          & Hneg & ->).
    cbv zeta in Hlibm. destruct Hlibm as (_ & _ & _ & _ & Hhw & Hxw).
    rewrite py_gt_int in Habove. injection Habove as <-.
    assert (Hsector : sector = bool_decide (10 < d < 190)).
    { destruct (Z.ltb_spec 10 d).
      - rewrite py_lt_int in Hsec. injection Hsec as <-.
        destruct (Z.ltb_spec d 190).
        + by rewrite bool_decide_eq_true_2 by lia.
        + by rewrite bool_decide_eq_false_2 by lia.
      - subst sector. by rewrite bool_decide_eq_false_2 by lia. }
    subst sector.
    assert (Hoffset : offset
                      = VInt (if bool_decide (10 < d < 190) then d - 100
                              else if bool_decide (190 <= d) then d - 280
                                   else d + 80)).
    { destruct (bool_decide (10 < d < 190)).
      - cbn [py_sub] in Hoff. by injection Hoff.
      - destruct Hoff as (far & Hfar & Hoff).
        rewrite py_ge_int in Hfar. injection Hfar as <-.
        destruct (Z.leb_spec 190 d).
        + rewrite bool_decide_eq_true_2 by done.
          cbn [py_sub] in Hoff. by injection Hoff.
        + rewrite bool_decide_eq_false_2 by lia.
          cbn [py_add] in Hoff. by injection Hoff. }
    subst offset. rewrite py_lt_int in Hneg. injection Hneg as <-.
    cbn [as_float] in Ho.
    exists ws, o, hw, xw. split_and!; (assumption || reflexivity).
  - intros x -> Hres. cbv zeta.
    apply Hiff in Hres
      as (above & sector & offset & ws & o & hw & xw & neg
          & Habove & Hsec & Hoff & Hws & Ho & Hlibm & Hhw0 & Hxw0
          & Hneg & ->).
    cbv zeta in Hlibm. destruct Hlibm as (_ & _ & _ & _ & Hhw & Hxw).
    rewrite py_gt_float_10 in Habove. injection Habove as <-.
    assert (Hsector : sector = ((10 <? x) && (x <? 190))%float).
    { destruct (10 <? x)%float.
      - rewrite py_lt_float_190 in Hsec. by injection Hsec as <-.
      - done. }
    subst sector.
    assert (Hoffset : offset
                      = VFloat (if (10 <? x) && (x <? 190) then x - 100
                                else if 190 <=? x then x - 280
                                     else x + 80)%float).
    { destruct ((10 <? x) && (x <? 190))%float.
      - injection Hoff as <-. reflexivity.
      - destruct Hoff as (far & Hfar & Hoff).
        rewrite py_ge_float_190 in Hfar. injection Hfar as <-.
        destruct (190 <=? x)%float; injection Hoff as <-; reflexivity. }
    subst offset. rewrite py_lt_float_0 in Hneg. injection Hneg as <-.
    cbn [as_float] in Ho. injection Ho as <-.
    exists ws, hw, xw. split_and!; (assumption || reflexivity).
Qed.

Example runway_and_components_140_5 :
  (let! r := @runway_and_components taylor_libm (VInt 140) (VInt 5) in
   Ok (map_to_list r))
  = Ok (map_to_list (components "10" 7 6 "right")).
Proof. vm_compute. reflexivity. Qed.

Example runway_and_components_265_5 :
  (let! r := @runway_and_components taylor_libm (VFloat 265.5) (VFloat 5) in
   Ok (map_to_list r))
  = Ok (map_to_list (components "28" 9 2 "left")).
Proof. vm_compute. reflexivity. Qed.

(** ** The report builder *)

Lemma float_compare_int_zero (x : float) :
  float_compare_int x 0 = Some Eq -> exists s, Prim2SF x = S754_zero s.
Proof.
  unfold float_compare_int.
  destruct (Prim2SF x) as [s|s| |s m e]; try (by eauto); try (by destruct s).
  assert (0 < 2 ^ e \/ e < 0) as [He|He].
  { destruct (Z.leb_spec 0 e); [left; by apply Z.pow_pos_nonneg|by right]. }
  - destruct (Z.leb_spec 0 e), s; intros [= Hc%Z.compare_eq]; nia.
  - destruct (Z.leb_spec 0 e), s; intros [= Hc%Z.compare_eq]; lia.
Qed.

(** No wind in m/s is no wind in knots. *)
Lemma kt_zero (ms : pyval) (w : float) :
  py_eq_int ms 0 = true -> kt ms = Ok w -> exists s, Prim2SF w = S754_zero s.
Proof.
  unfold kt, py_mul_float. destruct ms as [|n|x|t]; simpl; try done.
  - intros ->%Z.eqb_eq [= <-]. by exists false.
  - intros Hx [= <-].
    destruct (float_compare_int x 0) as [[| |]|] eqn:Hc; try done.
    destruct (float_compare_int_zero x Hc) as [s Hs].
    rewrite mul_spec, Hs. by exists (xorb s false).
Qed.

(** A component of no wind that can be rounded is zero. *)
Lemma round_abs_mul_zero (c w : float) (s : bool) (n : Z) :
  Prim2SF w = S754_zero s ->
  round_float (PrimFloat.abs (c * w)) = Ok n -> n = 0.
Proof.
  intros Hw. unfold round_float. rewrite abs_spec, mul_spec, Hw.
  destruct (Prim2SF c) as [sc|sc| |sc m e]; simpl; congruence.
Qed.

(** C9: every record [build_metar_dict] returns has the four derived
    fields -- runway "10" or "28", headwind and crosswind as non-negative
    integers, side "left" or "right" -- and with a wind speed of zero the
    headwind and the crosswind are 0. *)
Theorem build_metar_dict_derived_fields `{Libm} (station_id : string)
    (raw : payload) (d : gmap string pyval) :
  build_metar_dict station_id raw = Ok d ->
  exists rwy hw xw side,
    d !! "runway" = Some (VStr rwy)
    /\ d !! "headwind_kt" = Some (VInt hw)
    /\ d !! "crosswind_kt" = Some (VInt xw)
    /\ d !! "crosswind_from" = Some (VStr side)
    /\ (rwy = "10" \/ rwy = "28")
    /\ 0 <= hw /\ 0 <= xw
    /\ (side = "left" \/ side = "right")
    /\ (forall vals ms,
          latest_values raw = Ok vals ->
          vals !! "wind_speed_ms" = Some ms ->
          py_eq_int ms 0 = true ->
          hw = 0 /\ xw = 0).
Proof.
  unfold build_metar_dict. intros Hd.
  apply bind_Ok in Hd as (vals & Hvals & Hd).
  apply bind_Ok in Hd as (first & _ & Hd).
  apply bind_Ok in Hd as (obs_dt & _ & Hd).
  apply bind_Ok in Hd as (ms1 & _ & Hd).
  apply bind_Ok in Hd as (k1 & _ & Hd).
  apply bind_Ok in Hd as (speed_kt & _ & Hd).
  apply bind_Ok in Hd as (ms2 & _ & Hd).
  apply bind_Ok in Hd as (k2 & _ & Hd).
  apply bind_Ok in Hd as (gust_kt & _ & Hd).
  apply bind_Ok in Hd as (cover & _ & Hd).
  apply bind_Ok in Hd as (code & _ & Hd).
  apply bind_Ok in Hd as (height & _ & Hd).
  apply bind_Ok in Hd as (high & _ & Hd).
  apply bind_Ok in Hd as (height_ft & _ & Hd).
  apply bind_Ok in Hd as (wdir & _ & Hd).
  apply bind_Ok in Hd as (wspd & Hwspd%getitem_Ok & Hd).
  apply bind_Ok in Hd as (rc & Hrc & Hd).
  injection Hd as <-.
  apply runway_and_components_Ok in Hrc
    as (sector & offset & w & rad & c & s & hw & xw & neg
        & _ & _ & _ & Hw & _ & _ & _ & Hhw & Hxw & Hhw0 & Hxw0 & _ & ->).
  exists (if sector then "10" else "28"), hw, xw,
    (if neg then "left" else "right").
  repeat split; try done.
  - by apply lookup_union_Some_l.
  - by apply lookup_union_Some_l.
  - by apply lookup_union_Some_l.
  - by apply lookup_union_Some_l.
  - destruct sector; auto.
  - destruct neg; auto.
  - assert (ms = wspd) as -> by congruence.
    destruct (kt_zero wspd w) as [sw Hsw]; try done.
    by apply (round_abs_mul_zero c w sw).
  - assert (ms = wspd) as -> by congruence.
    destruct (kt_zero wspd w) as [sw Hsw]; try done.
    by apply (round_abs_mul_zero s w sw).
Qed.

Lemma build_metar_dict_derived_fields_witness :
  exists d rwy side,
    @build_metar_dict taylor_libm "06156" calm_payload = Ok d
    /\ d !! "runway" = Some (VStr rwy)
    /\ d !! "headwind_kt" = Some (VInt 0)
    /\ d !! "crosswind_kt" = Some (VInt 0)
    /\ d !! "crosswind_from" = Some (VStr side).
Proof.
  assert (Hok : is_Ok (@build_metar_dict taylor_libm "06156" calm_payload)
                = true) by (vm_compute; reflexivity).
  destruct (@build_metar_dict taylor_libm "06156" calm_payload)
    as [d|e] eqn:Hd; [|discriminate Hok].
  destruct (@build_metar_dict_derived_fields taylor_libm "06156"
              calm_payload d Hd)
    as (rwy & hw & xw & side & Hr & Hhw & Hxw & Hside & _ & _ & _ & _ & Hcalm).
  assert (Hv : (let! vals := latest_values calm_payload in
                Ok (vals !! "wind_speed_ms")) = Ok (Some (VFloat 0)))
    by (vm_compute; reflexivity).
  destruct (latest_values calm_payload) as [vals|e] eqn:Hvals;
    [|discriminate Hv].
  injection Hv as Hms.
  destruct (Hcalm vals (VFloat 0) eq_refl Hms eq_refl) as [-> ->].
  exists d, rwy, side. auto.
Defined.

(** [build_metar_dict] raises only exceptions of Python: the marker
    [NotModelled] belongs to the formatter. *)
Lemma pythonic_build_metar_dict `{Libm} (station_id : string) (raw : payload) :
  pythonic (build_metar_dict station_id raw).
Proof.
  unfold build_metar_dict.
  apply pythonic_bind.
  { intros e He. destruct (latest_values_spec raw) as (vals & _ & _ & Hv & _).
    congruence. }
  intros vals. apply pythonic_bind.
  { unfold first_feature. destruct (features raw); [|apply pythonic_Ok].
    by apply pythonic_Raise. }
  intros first. unfold kt.
  repeat (apply pythonic_bind;
          [auto using pythonic_cloud_code, pythonic_runway_and_components
             with pythonic|];
          intros ?).
  apply pythonic_Ok.
Qed.

(** ** End to end *)

(** A mapping is known by its list of entries. *)
Lemma result_map_eq (r : result (gmap string pyval)) (m : gmap string pyval) :
  (let! v := r in Ok (map_to_list v)) = Ok (map_to_list m) -> r = Ok m.
Proof.
  destruct r as [v|e]; simpl; [|discriminate]. intros [= Heq]. f_equal.
  by rewrite <- (list_to_map_to_list v), Heq, list_to_map_to_list.
Qed.

Lemma latest_values_ekhk : latest_values ekhk_payload = Ok ekhk_vals.
Proof. apply result_map_eq. vm_compute. reflexivity. Qed.

Lemma bind_eval {A B : Type} (c : result A) (v : A) (k : A -> result B) :
  c = Ok v -> bind c k = k v.
Proof. by intros ->. Qed.

Lemma bind_raise {A B : Type} (c : result A) (e : exn) (k : A -> result B) :
  c = Raise e -> bind c k = Raise e.
Proof. by intros ->. Qed.

(** Evaluates the computation at the head of a [let!], except the
    libm-dependent ones and [str] (whose digits stay folded). *)
Ltac eval_let :=
  match goal with
  | |- context [@bind ?A ?B ?c ?k] =>
      lazymatch c with
      | bind _ _ => fail
      | runway_and_components _ _ => fail
      | wind_component _ _ _ => fail
      | _ => idtac
      end;
      lazymatch c with
      | py_str (VInt ?n) =>
          rewrite (bind_eval c (str_int n) k eq_refl)
      | Ok ?v =>
          rewrite (bind_eval c v k eq_refl)
      | _ =>
          let r := eval vm_compute in c in
          lazymatch r with
          | Ok ?v =>
              rewrite (bind_eval c v k ltac:(vm_compute; reflexivity))
          end
      end;
      cbv beta
  end.

Lemma runway_and_components_140_5_any `{Libm} :
  runway_and_components (VInt 140) (VInt 5)
  = let! hw := wind_component math_cos (40 * degToRad)%float
                 (5 * 1.94384)%float in
    let! xw := wind_component math_sin (40 * degToRad)%float
                 (5 * 1.94384)%float in
    Ok (components "10" hw xw "right").
Proof.
  unfold runway_and_components.
  rewrite runway_offset_int, bool_decide_eq_true_2 by lia. cbn [bind].
  do 2 eval_let.
  replace (py_lt (VInt (140 - 100)) 0) with (@Ok bool false)
    by (vm_compute; reflexivity).
  reflexivity.
Qed.

(** C1, as the code has it: for the payload of station "06156" with wind
    140 degrees at 5 m/s, cover 30, base 20 m, visibility 12000, QNH 1008,
    6/4 degrees, observed 2024-01-16T12:50:00Z, and whatever libm is, the
    report is made exactly when the two wind components can be computed,
    and then its first line is "EKHK METAR 161250Z" and a space, its wind
    line "14010KT" and a space (140, then 10 kt on two digits), its
    visibility token "9999" and its cloud token "SCT000" (a cover of 30 is
    above 25; 66 ft floor-divided by 100 is 0). *)
Theorem end_to_end_report `{Libm} :
  report "06156" ekhk_payload
  = let! hw := wind_component math_cos (40 * degToRad)%float
                 (5 * 1.94384)%float in
    let! xw := wind_component math_sin (40 * degToRad)%float
                 (5 * 1.94384)%float in
    Ok ("EKHK METAR 161250Z " +:+ nl
        +:+ "14010KT " +:+ nl
        +:+ "9999 SCT000 Q1008 6/4 " +:+ nl
        +:+ (" R10 HW" +:+ zfill (str_int hw) 2
             +:+ " XW←" +:+ zfill (str_int xw) 2) +:+ nl).
Proof.
  unfold report, build_metar_dict.
  rewrite latest_values_ekhk. cbv beta.
  repeat eval_let.
  rewrite runway_and_components_140_5_any.
  destruct (wind_component math_cos _ _) as [hw|e]; [|reflexivity].
  destruct (wind_component math_sin _ _) as [xw|e]; [|reflexivity].
  cbn [bind].
  unfold metar_string, wdir_of, gust_of, clouds_of, vis_of, rwy_of.
  repeat eval_let.
  reflexivity.
Qed.

(** With the stand-in libm the report is made, and its cloud token is
    "SCT000": it does not start with "FEW".  Its first line ends in a
    space. *)
Lemma end_to_end_cloud_token_is_SCT :
  exists s line3,
    @report taylor_libm "06156" ekhk_payload = Ok s
    /\ text_lines s
       = ["EKHK METAR 161250Z "; "14010KT "; line3; " R10 HW07 XW←06"; ""]
    /\ text_tokens line3 = ["9999"; "SCT000"; "Q1008"; "6/4"; ""]
    /\ String.prefix "FEW" "SCT000" = false
    /\ text_lines s !! 0%nat <> Some "EKHK METAR 161250Z".
Proof.
  exists ("EKHK METAR 161250Z " +:+ nl +:+ "14010KT " +:+ nl
          +:+ "9999 SCT000 Q1008 6/4 " +:+ nl +:+ " R10 HW07 XW←06" +:+ nl),
    "9999 SCT000 Q1008 6/4 ".
  by vm_compute.
Qed.

(** ** The batch builder *)

Section GetMetarProperties.
Context `{Libm}.
Variable fetch_station : string -> result payload.

Lemma get_metar_station_spec (acc : batch) (sid : string) :
  get_metar_station fetch_station acc sid
  = Ok match station_run fetch_station sid with
       | Ok d => (acc.1 ++ [d], acc.2)
       | Raise e => (acc.1, acc.2 ++ [logged sid e])
       end.
Proof.
  unfold get_metar_station, station_run, try_except.
  destruct (fetch_station sid) as [raw|e]; cbn [bind].
  - destruct (build_metar_dict sid raw) as [d|e]; cbn [bind]; [done|].
    by destruct e.
  - by destruct e.
Qed.

Lemma get_metar_loop_spec (station_ids : list string) (acc : batch) :
  get_metar_loop fetch_station acc station_ids
  = Ok (acc.1 ++ successes fetch_station station_ids, acc.2 ++ failures fetch_station station_ids).
Proof.
  revert acc. induction station_ids as [|sid rest IH]; intros [out err].
  { simpl. by rewrite !app_nil_r. }
  cbn [get_metar_loop]. rewrite get_metar_station_spec. cbn [bind].
  rewrite IH. unfold successes, failures. cbn [omap list_omap fst snd].
  destruct (station_run fetch_station sid) as [d|e]; cbn [fst snd]; f_equal.
  - by rewrite <- app_assoc.
  - by rewrite <- app_assoc.
Qed.

Lemma successes_app (l1 l2 : list string) :
  successes fetch_station (l1 ++ l2) = successes fetch_station l1 ++ successes fetch_station l2.
Proof. apply omap_app. Qed.

(** C8: [get_metar] never raises.  The stations it processes are those
    of the list asked, in order, when that list is not empty, and 06170
    then 06156 when it is [None] or empty.  It returns the records of the
    stations whose fetch and build succeed, in order, and logs one line
    for each of the others; a station that fails is left out and the
    records of the stations before and after it are those they have
    without it. *)
Theorem get_metar_skips_failures (station_ids : option (list string)) :
  let ids := match station_ids with
             | Some (sid :: rest) => sid :: rest
             | Some [] | None => ["06170"; "06156"]
             end in
  exists out err,
    get_metar fetch_station station_ids = Ok (out, err)
    /\ out = successes fetch_station ids
    /\ err = failures fetch_station ids
    /\ (length out + length err = length ids)%nat
    /\ (forall l1 sid l2 e,
          ids = l1 ++ sid :: l2 ->
          station_run fetch_station sid = Raise e ->
          out = successes fetch_station l1 ++ successes fetch_station l2
          /\ logged sid e ∈ err).
Proof.
  intros ids. exists (successes fetch_station ids), (failures fetch_station ids).
  split.
  { unfold get_metar.
    replace (station_ids_or_default station_ids) with ids
      by (by destruct station_ids as [[|sid rest]|]).
    by rewrite get_metar_loop_spec. }
  split; [done|]. split; [done|]. split.
  - unfold successes, failures.
    induction ids as [|sid rest IH]; [done|]. cbn [omap list_omap].
    destruct (station_run fetch_station sid); simpl in *; lia.
  - intros l1 sid l2 e -> Hfail. split.
    + rewrite successes_app. f_equal. unfold successes at 1.
      cbn [omap list_omap]. by rewrite Hfail.
    + unfold failures. apply list_elem_of_omap. exists sid. split.
      * apply elem_of_app. right. apply elem_of_cons. by left.
      * by rewrite Hfail.
Qed.
End GetMetarProperties.

Lemma get_metar_skips_failures_witness :
  exists out,
    @get_metar taylor_libm flaky_fetch (Some ["06156"; "06170"; "06156"])
    = Ok (out, [LogHTTPError "06170" 503 "Service Unavailable"])
    /\ out = @successes taylor_libm flaky_fetch ["06156"]
             ++ @successes taylor_libm flaky_fetch ["06156"]
    /\ length out = 2%nat.
Proof.
  destruct (@get_metar_skips_failures taylor_libm flaky_fetch
              (Some ["06156"; "06170"; "06156"]))
    as (out & err & Hget & Hout & Herr & _ & Hskip).
  destruct (Hskip ["06156"] "06170" ["06156"]
              (HTTPError 503 "Service Unavailable") eq_refl eq_refl)
    as [Hrest _].
  assert (Hok : is_Ok (@build_metar_dict taylor_libm "06156" ekhk_payload)
                = true) by (vm_compute; reflexivity).
  exists out. rewrite Hget, Herr. split.
  { unfold failures, station_run. cbn [omap list_omap flaky_fetch].
    change (String.eqb "06156" "06156") with true.
    change (String.eqb "06170" "06156") with false. cbn [bind].
    by destruct (@build_metar_dict taylor_libm "06156" ekhk_payload). }
  split; [exact Hrest|]. rewrite Hrest.
  unfold successes, station_run. cbn [omap list_omap app flaky_fetch].
  change (String.eqb "06156" "06156") with true. cbn [bind].
  by destruct (@build_metar_dict taylor_libm "06156" ekhk_payload).
Defined.

Lemma runway_and_components_spec_witness :
  @runway_and_components taylor_libm (VInt 140) (VInt 5)
  = Ok (components "10" 7 6 "right")
  /\ @runway_and_components taylor_libm (VFloat 265.5) (VFloat 5)
     = Ok (components "28" 9 2 "left").
Proof.
  split.
  - apply (proj1 (@runway_and_components_spec taylor_libm (VInt 140)
                    (VInt 5) (components "10" 7 6 "right"))).
    exists true, true, (VInt 40), 5%float, 40%float, 7, 6, false.
    cbv zeta. repeat split; try (vm_compute; reflexivity); lia.
  - apply (proj1 (@runway_and_components_spec taylor_libm (VFloat 265.5)
                    (VFloat 5) (components "28" 9 2 "left"))).
    exists true, false, (VFloat (-14.5)), 5%float, (-14.5)%float, 9, 2, true.
    cbv zeta. split; [vm_compute; reflexivity|]. split; [vm_compute; reflexivity|].
    split; [exists true; split; vm_compute; reflexivity|].
    repeat split; try (vm_compute; reflexivity); lia.
Defined.

(** * Further properties of the module *)

(** ** The value extractor *)

Lemma scan_alias_features_of (alias : string) (cur : pyval)
    (feats : list feature) :
  scan_alias alias cur (features_of alias feats) = scan_alias alias cur feats.
Proof.
  unfold features_of. revert cur.
  induction feats as [|feat rest IH]; intros cur; [done|].
  rewrite filter_cons. case_decide as Htr; simpl.
  - rewrite !IH. by rewrite (bool_decide_eq_true_2 _ Htr).
  - rewrite IH, (bool_decide_eq_false_2 _ Htr). by rewrite andb_false_r.
Qed.

(** X1: a field of the extracted mapping is decided by the features of its
    own parameter alone, in their order: two payloads with the same such
    features give the same value, whatever else they contain. *)
Theorem latest_values_field_by_field (raw raw' : payload) (a : string) :
  a ∈ aliases ->
  features_of a (features raw) = features_of a (features raw') ->
  exists vals vals',
    latest_values raw = Ok vals /\ latest_values raw' = Ok vals'
    /\ vals !! a = vals' !! a.
Proof.
  intros Ha Hsame.
  destruct (latest_values_spec raw) as (vals & _ & _ & Hv & _ & Hscan & _).
  destruct (latest_values_spec raw') as (vals' & _ & _ & Hv' & _ & Hscan' & _).
  exists vals, vals'. split; [done|]. split; [done|].
  rewrite (Hscan a Ha), (Hscan' a Ha).
  by rewrite <- (scan_alias_features_of a _ (features raw)), Hsame,
    scan_alias_features_of.
Qed.

Lemma latest_values_field_by_field_witness :
  exists vals vals',
    latest_values sentinel_payload = Ok vals
    /\ latest_values
         {| features := [obs "temp_dry" (VInt (-1)); obs "unknown" (VInt 9);
                         obs "temp_dry" (VInt 3); obs "temp_dry" (VInt 7);
                         obs "temp_dew" (VInt 1)] |} = Ok vals'
    /\ vals !! "temp_dry_c" = vals' !! "temp_dry_c".
Proof.
  apply (latest_values_field_by_field sentinel_payload _ "temp_dry_c").
  - apply (bool_decide_unpack _). by vm_compute.
  - by vm_compute.
Defined.

(** The loop without the [break] also computes [scan_alias] in each
    field. *)
Lemma latest_values_loop_no_break_spec (feats : list feature)
    (res : gmap string pyval) :
  (forall pid alias, PARAMS !! pid = Some alias -> is_Some (res !! alias)) ->
  exists res',
    latest_values_loop_no_break res feats = Ok res'
    /\ dom res' = dom res
    /\ (forall a cur, res !! a = Some cur ->
          res' !! a = Some (scan_alias a cur feats)).
Proof.
  revert res. induction feats as [|feat rest IH]; intros res Hkeys.
  { exists res. by repeat split. }
  cbn [latest_values_loop_no_break].
  destruct (PARAMS !! parameterId feat) as [alias|] eqn:Hpid; last first.
  { destruct (IH res Hkeys) as (res' & -> & Hdom & Hscan).
    exists res'. repeat split; try done.
    intros a cur Ha. rewrite (Hscan a cur Ha). simpl. rewrite Hpid.
    rewrite bool_decide_eq_false_2 by done. by rewrite andb_false_r. }
  destruct (tracked_alias _ _ Hpid) as [_ Hne]. rewrite Hne. cbn [negb].
  destruct (Hkeys _ _ Hpid) as [cur0 Hcur0].
  unfold getitem. rewrite Hcur0. cbn [bind].
  destruct (py_eq_int cur0 (-1)) eqn:Hsent.
  - set (res1 := <[alias := value feat]> res).
    assert (Hdom1 : dom res1 = dom res).
    { unfold res1. rewrite dom_insert_L.
      apply subseteq_union_1_L, singleton_subseteq_l, elem_of_dom. eauto. }
    assert (Hkeys1 : forall pid al,
               PARAMS !! pid = Some al -> is_Some (res1 !! al)).
    { intros pid al Hal. apply elem_of_dom. rewrite Hdom1.
      apply elem_of_dom. eauto. }
    destruct (IH res1 Hkeys1) as (res' & -> & Hdom & Hscan).
    exists res'. split; [done|]. split; [by rewrite Hdom|].
    intros a cur Ha. simpl. rewrite Hpid.
    destruct (decide (alias = a)) as [<-|Hna].
    + assert (cur = cur0) as -> by congruence.
      rewrite Hsent, Hne, bool_decide_eq_true_2 by done. simpl.
      apply Hscan. unfold res1. by rewrite lookup_insert_eq.
    + rewrite (bool_decide_eq_false_2 (Some alias = Some a)) by congruence.
      rewrite andb_false_r. simpl. apply Hscan. unfold res1.
      by rewrite lookup_insert_ne.
  - destruct (IH res Hkeys) as (res' & -> & Hdom & Hscan).
    exists res'. repeat split; try done.
    intros a cur Ha. rewrite (Hscan a cur Ha). simpl. rewrite Hpid.
    destruct (decide (alias = a)) as [<-|Hna].
    + assert (cur = cur0) as -> by congruence. by rewrite Hsent.
    + rewrite (bool_decide_eq_false_2 (Some alias = Some a)) by congruence.
      by rewrite andb_false_r.
Qed.

(** X2: the early exit is an optimisation only: [latest_values] returns
    the mapping the loop would build without its [break]. *)
Theorem latest_values_break_is_transparent (raw : payload) :
  latest_values raw
  = latest_values_loop_no_break initial_result (features raw).
Proof.
  destruct (latest_values_spec raw) as (vals & _ & _ & -> & Hdom & Hscan & _).
  destruct (latest_values_loop_no_break_spec (features raw) initial_result
              initial_result_keys) as (vals' & -> & Hdom' & Hscan').
  f_equal. apply map_eq. intros i.
  destruct (decide (i ∈ aliases)) as [Hi|Hi].
  - rewrite (Hscan i Hi).
    by rewrite (Hscan' i (VInt (-1)) (initial_result_lookup i Hi)).
  - rewrite (proj1 (not_elem_of_dom vals i)) by (by rewrite Hdom).
    rewrite (proj1 (not_elem_of_dom vals' i)); [done|].
    by rewrite Hdom', initial_result_dom.
Qed.

(** ** The report builder *)

(** The steps behind a record [build_metar_dict] returns. *)
Lemma build_metar_dict_parts `{Libm} (station_id : string) (raw : payload)
    (d : gmap string pyval) :
  build_metar_dict station_id raw = Ok d ->
  exists vals first dt ms speed_kt gms gust_kt cover code height hft wdir rc,
    latest_values raw = Ok vals
    /\ first_feature raw = Ok first
    /\ fromisoformat (replace_char "Z" "+00:00" (observed first)) = Ok dt
    /\ vals !! "wind_speed_ms" = Some ms
    /\ (exists k, kt ms = Ok k /\ round_float k = Ok speed_kt)
    /\ vals !! "wind_gust_ms" = Some gms
    /\ (exists k, kt gms = Ok k /\ round_float k = Ok gust_kt)
    /\ vals !! "cloud_cover_pct" = Some cover
    /\ cloud_code cover = Ok code
    /\ vals !! "cloud_height_m" = Some height
    /\ ((py_gt height 15 = Ok false /\ hft = VNone)
        \/ (py_gt height 15 = Ok true
            /\ exists ft r, py_mul_float height 3.28084 = Ok ft
                            /\ round_float ft = Ok r /\ hft = VInt r))
    /\ vals !! "wind_dir_deg" = Some wdir
    /\ runway_and_components wdir ms = Ok rc
    /\ d = assemble vals (default station_id (STATIONS !! station_id))
             (isoformat_seconds dt) speed_kt gust_kt code hft rc.
Proof.
  unfold build_metar_dict. intros Hd.
  apply bind_Ok in Hd as (vals & Hvals & Hd).
  apply bind_Ok in Hd as (first & Hfirst & Hd).
  apply bind_Ok in Hd as (dt & Hdt & Hd).
  apply bind_Ok in Hd as (ms & Hms%getitem_Ok & Hd).
  apply bind_Ok in Hd as (k1 & Hk1 & Hd).
  apply bind_Ok in Hd as (speed_kt & Hspeed & Hd).
  apply bind_Ok in Hd as (gms & Hgms%getitem_Ok & Hd).
  apply bind_Ok in Hd as (k2 & Hk2 & Hd).
  apply bind_Ok in Hd as (gust_kt & Hgust & Hd).
  apply bind_Ok in Hd as (cover & Hcover%getitem_Ok & Hd).
  apply bind_Ok in Hd as (code & Hcode & Hd).
  apply bind_Ok in Hd as (height & Hheight%getitem_Ok & Hd).
  apply bind_Ok in Hd as (high & Hhigh & Hd).
  apply bind_Ok in Hd as (hft & Hhft & Hd).
  apply bind_Ok in Hd as (wdir & Hwdir%getitem_Ok & Hd).
  apply bind_Ok in Hd as (wspd & Hwspd%getitem_Ok & Hd).
  apply bind_Ok in Hd as (rc & Hrc & Hd).
  injection Hd as <-.
  assert (wspd = ms) as -> by congruence.
  exists vals, first, dt, ms, speed_kt, gms, gust_kt, cover, code, height,
    hft, wdir, rc.
  do 4 (split; [done|]). split; [eauto|]. split; [done|]. split; [eauto|].
  do 3 (split; [done|]). split; [|done].
  destruct high.
  - right. split; [done|].
    apply bind_Ok in Hhft as (height' & Hh'%getitem_Ok & Hhft).
    assert (height' = height) as -> by congruence.
    apply bind_Ok in Hhft as (ft & Hft & Hhft).
    apply bind_Ok in Hhft as (r & Hr & Hhft).
    injection Hhft as <-. eauto.
  - left. split; [done|]. by injection Hhft.
Qed.

Lemma derived_not_alias (k : string) : k ∈ derived_keys -> k ∉ aliases.
Proof.
  unfold derived_keys. rewrite elem_of_list_to_set. intros Hk.
  repeat (apply elem_of_cons in Hk as [->|Hk];
          [apply (bool_decide_unpack _); by vm_compute|]).
  by apply elem_of_nil in Hk.
Qed.

(** What each key of an assembled record holds. *)
Lemma assemble_lookup (vals : gmap string pyval) (name iso : string)
    (speed_kt gust_kt : Z) (code : string) (hft : pyval)
    (rwy : string) (hw xw : Z) (side : string) :
  dom vals = aliases ->
  let d := assemble vals name iso speed_kt gust_kt code hft
             (components rwy hw xw side) in
  dom d = aliases ∪ derived_keys
  /\ (forall a, a ∈ aliases -> d !! a = vals !! a)
  /\ d !! "station" = Some (VStr name)
  /\ d !! "observed" = Some (VStr iso)
  /\ d !! "wind_speed_kt" = Some (VInt speed_kt)
  /\ d !! "wind_gust_kt" = Some (VInt gust_kt)
  /\ d !! "cloud_code" = Some (VStr code)
  /\ d !! "cloud_height_ft" = Some hft
  /\ d !! "runway" = Some (VStr rwy)
  /\ d !! "headwind_kt" = Some (VInt hw)
  /\ d !! "crosswind_kt" = Some (VInt xw)
  /\ d !! "crosswind_from" = Some (VStr side).
Proof.
  intros Hdom d.
  assert (Hnone : forall k, k ∈ derived_keys -> vals !! k = None).
  { intros k Hk. apply not_elem_of_dom. rewrite Hdom.
    by apply derived_not_alias. }
  assert (Hin : forall k, In k ["station"; "observed"; "wind_speed_kt";
                                "wind_gust_kt"; "cloud_code";
                                "cloud_height_ft"; "runway"; "headwind_kt";
                                "crosswind_kt"; "crosswind_from"] ->
                          k ∈ derived_keys).
  { intros k Hk. unfold derived_keys. apply elem_of_list_to_set.
    by apply list_elem_of_In. }
  split.
  { unfold d, assemble, components, derived_keys.
    repeat first [rewrite dom_union_L | rewrite dom_insert_L
                 | rewrite dom_empty_L].
    rewrite Hdom. cbn [list_to_set foldr]. set_solver. }
  split.
  { intros a Ha. unfold d, assemble, components.
    assert (Hna : forall k, k ∈ derived_keys -> k <> a).
    { intros k Hk ->. by apply (derived_not_alias a). }
    rewrite lookup_union_r.
    2:{ rewrite !lookup_insert_ne by (apply Hna, Hin; simpl; tauto).
        apply lookup_empty. }
    rewrite !lookup_insert_ne by (apply Hna, Hin; simpl; tauto).
    rewrite <- Hdom in Ha. apply elem_of_dom in Ha as [v Hv].
    rewrite Hv. by apply lookup_union_Some_l. }
  unfold d, assemble, components.
  repeat split.
  - rewrite lookup_union_r by done. rewrite !lookup_insert_ne by done.
    rewrite lookup_union_r by (apply Hnone, Hin; simpl; tauto).
    by rewrite lookup_insert_eq.
  - rewrite lookup_union_r by done. rewrite !lookup_insert_ne by done.
    rewrite lookup_union_r by (apply Hnone, Hin; simpl; tauto).
    rewrite lookup_insert_ne by done. by rewrite lookup_insert_eq.
  - rewrite lookup_union_r by done. rewrite !lookup_insert_ne by done.
    by rewrite lookup_insert_eq.
  - rewrite lookup_union_r by done. rewrite !lookup_insert_ne by done.
    by rewrite lookup_insert_eq.
  - rewrite lookup_union_r by done. rewrite !lookup_insert_ne by done.
    by rewrite lookup_insert_eq.
  - rewrite lookup_union_r by done. by rewrite lookup_insert_eq.
  - by apply lookup_union_Some_l.
  - by apply lookup_union_Some_l.
  - by apply lookup_union_Some_l.
  - by apply lookup_union_Some_l.
Qed.

(** Every record [build_metar_dict] returns, key by key. *)
Lemma build_metar_dict_record `{Libm} (station_id : string) (raw : payload)
    (d : gmap string pyval) :
  build_metar_dict station_id raw = Ok d ->
  exists vals first dt ms speed_kt gms gust_kt cover code height hft,
    latest_values raw = Ok vals
    /\ first_feature raw = Ok first
    /\ fromisoformat (replace_char "Z" "+00:00" (observed first)) = Ok dt
    /\ vals !! "wind_speed_ms" = Some ms
    /\ (exists k, kt ms = Ok k /\ round_float k = Ok speed_kt)
    /\ vals !! "wind_gust_ms" = Some gms
    /\ (exists k, kt gms = Ok k /\ round_float k = Ok gust_kt)
    /\ vals !! "cloud_cover_pct" = Some cover
    /\ cloud_code cover = Ok code
    /\ vals !! "cloud_height_m" = Some height
    /\ ((py_gt height 15 = Ok false /\ hft = VNone)
        \/ (py_gt height 15 = Ok true
            /\ exists ft r, py_mul_float height 3.28084 = Ok ft
                            /\ round_float ft = Ok r /\ hft = VInt r))
    /\ dom d = aliases ∪ derived_keys
    /\ (forall a, a ∈ aliases -> d !! a = vals !! a)
    /\ d !! "station"
       = Some (VStr (default station_id (STATIONS !! station_id)))
    /\ d !! "observed" = Some (VStr (isoformat_seconds dt))
    /\ d !! "wind_speed_kt" = Some (VInt speed_kt)
    /\ d !! "wind_gust_kt" = Some (VInt gust_kt)
    /\ d !! "cloud_code" = Some (VStr code)
    /\ d !! "cloud_height_ft" = Some hft.
Proof.
  intros Hd.
  destruct (build_metar_dict_parts _ _ _ Hd)
    as (vals & first & dt & ms & speed_kt & gms & gust_kt & cover & code
        & height & hft & wdir & rc & Hvals & Hfirst & Hdt & Hms & Hspeed
        & Hgms & Hgust & Hcover & Hcode & Hheight & Hhft & Hwdir & Hrc & ->).
  apply runway_and_components_Ok in Hrc
    as (sector & offset & w & rad & c & s & hw & xw & neg & Hrest).
  assert (Hrc : rc = components (if sector then "10" else "28") hw xw
                       (if neg then "left" else "right")) by tauto.
  subst rc.
  destruct (latest_values_spec raw) as (vals' & _ & _ & Hv & Hdom & _).
  assert (vals' = vals) as -> by congruence.
  destruct (assemble_lookup vals (default station_id (STATIONS !! station_id))
              (isoformat_seconds dt) speed_kt gust_kt code hft
              (if sector then "10" else "28") hw xw
              (if neg then "left" else "right") Hdom)
    as (Hd1 & Hd2 & Hd3 & Hd4 & Hd5 & Hd6 & Hd7 & Hd8 & _).
  exists vals, first, dt, ms, speed_kt, gms, gust_kt, cover, code, height, hft.
  repeat (split; [assumption|]). assumption.
Qed.

Lemma build_ekhk :
  @build_metar_dict taylor_libm "06156" ekhk_payload = Ok ekhk_record.
Proof. apply result_map_eq, build_ekhk_record. Qed.

(** X3: a record [build_metar_dict] returns has exactly nineteen keys, the
    nine fields of [PARAMS] and the ten keys the builder adds, and each of
    the nine fields holds the value [latest_values] extracted: no added
    key overwrites one. *)
Theorem build_metar_dict_keeps_raw_fields `{Libm} (station_id : string)
    (raw : payload) (d : gmap string pyval) :
  build_metar_dict station_id raw = Ok d ->
  dom d = aliases ∪ derived_keys
  /\ size (dom d) = 19%nat
  /\ exists vals, latest_values raw = Ok vals
                  /\ forall a, a ∈ aliases -> d !! a = vals !! a.
Proof.
  intros Hd.
  destruct (build_metar_dict_record _ _ _ Hd)
    as (vals & first & dt & ms & speed_kt & gms & gust_kt & cover & code
        & height & hft & Hvals & _ & _ & _ & _ & _ & _ & _ & _ & _ & _
        & Hdom & Hraw & _).
  split; [done|]. split; [by rewrite Hdom|]. eauto.
Qed.

Lemma build_metar_dict_keeps_raw_fields_witness :
  dom ekhk_record = aliases ∪ derived_keys
  /\ size (dom ekhk_record) = 19%nat
  /\ exists vals, latest_values ekhk_payload = Ok vals
                  /\ forall a, a ∈ aliases -> ekhk_record !! a = vals !! a.
Proof.
  exact (@build_metar_dict_keeps_raw_fields taylor_libm "06156" ekhk_payload
           ekhk_record build_ekhk).
Defined.

(** X4: a record is labelled with [STATIONS.get(station_id, station_id)],
    the identifier itself when the station is not in the table, and its
    [observed] key is the time stamp of the payload's first feature (its
    "Z" read as "+00:00"), printed again to the second; the time stamps
    of the other features are not read. *)
Theorem build_metar_dict_label_and_time `{Libm} (station_id : string)
    (raw : payload) (d : gmap string pyval) :
  build_metar_dict station_id raw = Ok d ->
  exists first rest dt,
    features raw = first :: rest
    /\ fromisoformat (replace_char "Z" "+00:00" (observed first)) = Ok dt
    /\ d !! "observed" = Some (VStr (isoformat_seconds dt))
    /\ d !! "station"
       = Some (VStr (match STATIONS !! station_id with
                     | Some name => name
                     | None => station_id
                     end)).
Proof.
  intros Hd.
  destruct (build_metar_dict_record _ _ _ Hd)
    as (vals & first & dt & ms & speed_kt & gms & gust_kt & cover & code
        & height & hft & _ & Hfirst & Hdt & _ & _ & _ & _ & _ & _ & _ & _
        & _ & _ & Hst & Hobs & _).
  unfold first_feature in Hfirst.
  destruct (features raw) as [|f rest] eqn:Hfeats; [discriminate|].
  injection Hfirst as ->.
  exists first, rest, dt. split; [done|]. split; [done|]. split; [done|].
  rewrite Hst. by destruct (STATIONS !! station_id).
Qed.

Lemma build_metar_dict_label_and_time_witness :
  exists first rest dt,
    features ekhk_payload = first :: rest
    /\ fromisoformat (replace_char "Z" "+00:00" (observed first)) = Ok dt
    /\ ekhk_record !! "observed" = Some (VStr (isoformat_seconds dt))
    /\ ekhk_record !! "station"
       = Some (VStr (match STATIONS !! "06156" with
                     | Some name => name
                     | None => "06156"
                     end)).
Proof.
  exact (@build_metar_dict_label_and_time taylor_libm "06156" ekhk_payload
           ekhk_record build_ekhk).
Defined.

Lemma latest_values_loop_ext (feats feats' : list feature)
    (res : gmap string pyval) :
  (fun feat => (parameterId feat, value feat)) <$> feats
  = (fun feat => (parameterId feat, value feat)) <$> feats' ->
  latest_values_loop res feats = latest_values_loop res feats'.
Proof.
  revert feats' res. induction feats as [|feat rest IH];
    intros [|feat' rest'] res Heq; try discriminate; [done|].
  injection Heq as Hpid Hval Hrest.
  cbn [latest_values_loop]. rewrite Hpid, Hval.
  destruct (PARAMS !! parameterId feat') as [alias|]; [|by apply IH].
  destruct (negb (String.eqb alias "")); [|by apply IH].
  destruct (getitem res alias) as [cur|e]; [|done]. cbn [bind].
  destruct (py_eq_int cur (-1)); [|by apply IH].
  destruct (all_collected _); [done|by apply IH].
Qed.

(** X5: of the time stamps of a payload [build_metar_dict] reads the
    first feature's only.  Two payloads whose features report the same
    parameters and values in the same order, and whose first features
    carry the same time stamp, give the same record or raise the same
    exception. *)
Theorem build_metar_dict_reads_first_time_only `{Libm} (station_id : string)
    (raw raw' : payload) :
  (fun feat => (parameterId feat, value feat)) <$> features raw
  = (fun feat => (parameterId feat, value feat)) <$> features raw' ->
  observed <$> head (features raw) = observed <$> head (features raw') ->
  build_metar_dict station_id raw = build_metar_dict station_id raw'.
Proof.
  intros Hfeats Hhead. unfold build_metar_dict, latest_values.
  rewrite (latest_values_loop_ext _ _ _ Hfeats).
  destruct (latest_values_loop initial_result (features raw')) as [r|e];
    [|done].
  cbn [bind]. unfold first_feature.
  destruct (features raw) as [|f rest], (features raw') as [|f' rest'];
    try discriminate; [done|].
  injection Hhead as Hobs. cbn [bind]. by rewrite Hobs.
Qed.

Lemma build_metar_dict_reads_first_time_only_witness :
  @build_metar_dict taylor_libm "06156"
    {| features :=
         [obs "wind_dir" (VFloat 140);
          {| parameterId := "wind_speed"; value := VFloat 0;
             observed := "2024-01-16T12:40:00Z" |};
          {| parameterId := "temp_dry"; value := VFloat 6;
             observed := "not a time stamp" |}] |}
  = @build_metar_dict taylor_libm "06156" calm_payload.
Proof.
  apply (@build_metar_dict_reads_first_time_only taylor_libm "06156");
    reflexivity.
Defined.

(** X6: what a record holds for a reading the payload lacks.  The field
    keeps the sentinel -1 and the builder converts it like a reading:
    without a wind-speed feature the speed is -2 kt (-1 m/s in knots,
    rounded), without a gust feature the gust is -2 kt, without a cloud
    cover the code is "NCD" and without a cloud height the height in feet
    is [None]. *)
Theorem build_metar_dict_missing_readings `{Libm} (station_id : string)
    (raw : payload) (d : gmap string pyval) :
  build_metar_dict station_id raw = Ok d ->
  (Forall (fun feat => ~ tracks "wind_speed_ms" feat) (features raw) ->
   d !! "wind_speed_kt" = Some (VInt (-2)))
  /\ (Forall (fun feat => ~ tracks "wind_gust_ms" feat) (features raw) ->
      d !! "wind_gust_kt" = Some (VInt (-2)))
  /\ (Forall (fun feat => ~ tracks "cloud_cover_pct" feat) (features raw) ->
      d !! "cloud_code" = Some (VStr "NCD"))
  /\ (Forall (fun feat => ~ tracks "cloud_height_m" feat) (features raw) ->
      d !! "cloud_height_ft" = Some VNone).
Proof.
  intros Hd.
  destruct (build_metar_dict_record _ _ _ Hd)
    as (vals & first & dt & ms & speed_kt & gms & gust_kt & cover & code
        & height & hft & Hvals & _ & _ & Hms & (k1 & Hk1 & Hspeed)
        & Hgms & (k2 & Hk2 & Hgust) & Hcover & Hcode & Hheight & Hhft
        & _ & _ & _ & _ & Hd1 & Hd2 & Hd3 & Hd4).
  assert (Hdefault : forall a v,
             a ∈ aliases ->
             Forall (fun feat => ~ tracks a feat) (features raw) ->
             vals !! a = Some v -> v = VInt (-1)).
  { intros a v Ha Hnone Hv.
    destruct (latest_values_default raw a Ha Hnone) as (vals' & Hv' & Hm).
    congruence. }
  assert (Hal : forall a, In a ["wind_speed_ms"; "wind_gust_ms";
                                "cloud_cover_pct"; "cloud_height_m"] ->
                          a ∈ aliases).
  { intros a Ha. simpl in Ha.
    repeat (destruct Ha as [<-|Ha];
            [apply (bool_decide_unpack _); by vm_compute|]).
    destruct Ha. }
  split; [|split; [|split]]; intros Hnone.
  - rewrite (Hdefault "wind_speed_ms" _ (Hal "wind_speed_ms" ltac:(simpl; tauto)) Hnone Hms) in Hk1.
    vm_compute in Hk1. injection Hk1 as <-.
    vm_compute in Hspeed. injection Hspeed as <-. done.
  - rewrite (Hdefault "wind_gust_ms" _ (Hal "wind_gust_ms" ltac:(simpl; tauto)) Hnone Hgms) in Hk2.
    vm_compute in Hk2. injection Hk2 as <-.
    vm_compute in Hgust. injection Hgust as <-. done.
  - rewrite (Hdefault "cloud_cover_pct" _ (Hal "cloud_cover_pct" ltac:(simpl; tauto)) Hnone Hcover) in Hcode.
    vm_compute in Hcode. injection Hcode as <-. done.
  - rewrite (Hdefault "cloud_height_m" _ (Hal "cloud_height_m" ltac:(simpl; tauto)) Hnone Hheight) in Hhft.
    destruct Hhft as [[_ ->]|[Hgt _]]; [done|].
    vm_compute in Hgt. discriminate.
Qed.

Lemma build_metar_dict_missing_readings_witness :
  exists d,
    @build_metar_dict taylor_libm "06156" calm_payload = Ok d
    /\ d !! "wind_gust_kt" = Some (VInt (-2))
    /\ d !! "cloud_code" = Some (VStr "NCD")
    /\ d !! "cloud_height_ft" = Some VNone.
Proof.
  assert (Hok : is_Ok (@build_metar_dict taylor_libm "06156" calm_payload)
                = true) by (vm_compute; reflexivity).
  destruct (@build_metar_dict taylor_libm "06156" calm_payload)
    as [d|e] eqn:Hd; [|discriminate Hok].
  destruct (@build_metar_dict_missing_readings taylor_libm "06156"
              calm_payload d Hd) as (_ & Hgust & Hcode & Hheight).
  assert (Hnone : forall a,
             In a ["wind_gust_ms"; "cloud_cover_pct"; "cloud_height_m"] ->
             Forall (fun feat => ~ tracks a feat) (features calm_payload)).
  { intros a Ha. simpl in Ha.
    repeat (destruct Ha as [<-|Ha];
            [repeat constructor; intros Ht; vm_compute in Ht; discriminate|]).
    destruct Ha. }
  exists d. split; [done|].
  split; [|split]; [apply Hgust|apply Hcode|apply Hheight];
    apply Hnone; simpl; tauto.
Defined.

(** ** Runway geometry *)

(** X7: the runway [runway_offset] picks for a whole direction [d] and the
    angle it returns.  The angle is [d] minus the runway heading (100 for
    runway 10, 280 for runway 28) up to a full turn, and it lies within a
    quarter turn of the heading exactly for directions between -170 and
    370, so for every compass direction: the wind is never behind the
    runway picked. *)
Theorem runway_offset_within_quarter_turn (d : Z) :
  exists rwy off,
    runway_offset (VInt d) = Ok (rwy, VInt off)
    /\ (rwy = 10 \/ rwy = 28)
    /\ (d - 10 * rwy - off) mod 360 = 0
    /\ (-90 <= off <= 90 <-> -170 <= d <= 370).
Proof.
  rewrite runway_offset_int.
  destruct (decide (10 < d < 190)) as [Hs|Hs].
  { rewrite bool_decide_eq_true_2 by done. exists 10, (d - 100).
    split; [done|]. split; [by left|].
    split; [by replace (d - 10 * 10 - (d - 100)) with 0 by lia|lia]. }
  rewrite bool_decide_eq_false_2 by done.
  destruct (decide (190 <= d)) as [Hd|Hd].
  { rewrite bool_decide_eq_true_2 by done. exists 28, (d - 280).
    split; [done|]. split; [by right|].
    split; [by replace (d - 10 * 28 - (d - 280)) with 0 by lia|lia]. }
  rewrite bool_decide_eq_false_2 by done. exists 28, (d + 80).
  split; [done|]. split; [by right|].
  split; [by replace (d - 10 * 28 - (d + 80)) with (-360) by lia|lia].
Qed.

(** ** The direction token *)

Lemma wdir_of_lookup (d : gmap string pyval) (v : pyval) :
  d !! "wind_dir_deg" = Some v ->
  wdir_of d = wdir_of {["wind_dir_deg" := v]}.
Proof.
  intros Hv. unfold wdir_of.
  rewrite (bind_eval _ v _ (proj2 (getitem_Ok _ _ _) Hv)).
  by rewrite (bind_eval (getitem {["wind_dir_deg" := v]} _) v _
                (proj2 (getitem_Ok _ _ _) (lookup_singleton_eq _ _))).
Qed.

Lemma wdir_table :
  Forall (fun n => prints_direction n (wdir_of {["wind_dir_deg" := VInt n]}))
    (seqZ (-1) 362).
Proof. apply (bool_decide_unpack _). by vm_compute. Qed.

(** X8: the direction the report prints for a whole direction between -1
    and 360.  It is the direction rounded to the nearest ten, a tie going
    to the even ten (5 gives 0, 15 gives 20), printed on three
    characters; north is printed 000 from 0 to 4 degrees and 360 from 355
    to 360, and the sentinel -1 is printed 000. *)
Theorem wind_direction_token (d : gmap string pyval) (n : Z) :
  d !! "wind_dir_deg" = Some (VInt n) ->
  -1 <= n <= 360 ->
  exists w,
    wdir_of d = Ok w
    /\ rounded_to_ten n w
    /\ String.length (zfill (str_int w) 3) = 3%nat
    /\ (n <= 4 -> w = 0) /\ (355 <= n -> w = 360).
Proof.
  intros Hn Hrange. rewrite (wdir_of_lookup d _ Hn).
  pose proof wdir_table as Htable. rewrite Forall_forall in Htable.
  specialize (Htable n). rewrite elem_of_seqZ in Htable.
  specialize (Htable ltac:(lia)).
  unfold prints_direction in Htable.
  destruct (wdir_of _) as [w|e]; [|done]. by exists w.
Qed.

Lemma wind_direction_token_witness :
  exists w,
    wdir_of ekhk_record = Ok w
    /\ rounded_to_ten 140 w
    /\ String.length (zfill (str_int w) 3) = 3%nat
    /\ (140 <= 4 -> w = 0) /\ (355 <= 140 -> w = 360).
Proof.
  apply (wind_direction_token ekhk_record 140); [by vm_compute|lia].
Defined.

(** ** The web application *)

Section AppProperties.
Context `{Libm}.
Variable fetch_station : string -> result payload.

Lemma get_metar_06156 :
  get_metar fetch_station (Some ["06156"])
  = Ok match station_run fetch_station "06156" with
       | Ok d => ([d], [])
       | Raise e => ([], [logged "06156" e])
       end.
Proof.
  unfold get_metar. cbn [station_ids_or_default].
  rewrite get_metar_loop_spec. unfold successes, failures.
  cbn [omap list_omap fst snd].
  by destruct (station_run fetch_station "06156").
Qed.

(** X9: the two endpoints ask for station 06156 only and never reach the
    other station.  The page answers 503 exactly when the fetch or the
    build of that station fails, whatever the exception; otherwise it
    answers 200 with the report between the fixed head and tail of the
    page, and an exception of [metar_string] is not caught.  The JSON
    endpoint never raises: it returns the one record, or the empty list
    when the station fails. *)
Theorem endpoints_serve_station_06156 :
  ekhg_page fetch_station
  = match station_run fetch_station "06156" with
    | Raise _ => Ok unavailable
    | Ok d => match metar_string d with
              | Ok metar => Ok (page metar)
              | Raise e => Raise e
              end
    end
  /\ ekhk fetch_station
     = Ok match station_run fetch_station "06156" with
          | Ok d => [d]
          | Raise _ => []
          end.
Proof.
  unfold ekhg_page, ekhk. rewrite get_metar_06156. cbn [bind].
  destruct (station_run fetch_station "06156") as [d|e]; cbn [fst snd].
  - split; [|done]. by destruct (metar_string d).
  - done.
Qed.

Lemma ekhg_page_cases :
  ekhg_page fetch_station
  = match station_run fetch_station "06156" with
    | Raise _ => Ok unavailable
    | Ok d => match metar_string d with
              | Ok metar => Ok (page metar)
              | Raise e => Raise e
              end
    end.
Proof.
  unfold ekhg_page. rewrite get_metar_06156. cbn [bind].
  destruct (station_run fetch_station "06156") as [d|e]; cbn [fst snd].
  - by destruct (metar_string d).
  - done.
Qed.

Lemma ekhk_cases :
  ekhk fetch_station
  = Ok match station_run fetch_station "06156" with
       | Ok d => [d]
       | Raise _ => []
       end.
Proof.
  unfold ekhk. rewrite get_metar_06156. cbn [bind].
  by destruct (station_run fetch_station "06156").
Qed.

(** X10: a station that answers with no observation.  When the payload
    of station 06156 has an empty feature list the build raises
    [IndexError], which [get_metar] logs and skips: the page answers 503
    and the JSON endpoint returns the empty list. *)
Theorem empty_payload_is_unavailable (raw : payload) :
  fetch_station "06156" = Ok raw ->
  features raw = [] ->
  station_run fetch_station "06156" = Raise IndexError
  /\ get_metar fetch_station (Some ["06156"])
     = Ok ([], [LogUndecodable "06156" IndexError])
  /\ ekhg_page fetch_station = Ok unavailable
  /\ ekhk fetch_station = Ok [].
Proof.
  intros Hfetch Hempty.
  assert (Hrun : station_run fetch_station "06156" = Raise IndexError).
  { unfold station_run. rewrite Hfetch. cbn [bind].
    unfold build_metar_dict.
    destruct (latest_values_spec raw) as (vals & _ & _ & -> & _).
    cbn [bind]. unfold first_feature. by rewrite Hempty. }
  rewrite ekhg_page_cases, ekhk_cases, get_metar_06156, Hrun. done.
Qed.

(** X11: a page served with status 200 carries the report of station
    EKHK: behind the head of the page its text starts with
    "EKHK METAR ", then the time of the first feature as day, hour and
    minute and a "Z". *)
Theorem page_reports_ekhk (r : HTMLResponse) :
  ekhg_page fetch_station = Ok r ->
  response_status r = 200 ->
  exists raw first rest dt dt' body,
    fetch_station "06156" = Ok raw
    /\ features raw = first :: rest
    /\ fromisoformat (replace_char "Z" "+00:00" (observed first)) = Ok dt
    /\ fromisoformat_val (VStr (isoformat_seconds dt)) = Ok dt'
    /\ content r
       = page_head
         +:+ ("EKHK METAR " +:+ strftime_ddhhmmz dt' +:+ " " +:+ nl
              +:+ body)
         +:+ page_tail.
Proof.
  rewrite ekhg_page_cases. unfold station_run.
  destruct (fetch_station "06156") as [raw|e] eqn:Hfetch; cbn [bind];
    [|by intros [= <-]].
  destruct (build_metar_dict "06156" raw) as [d|e] eqn:Hd;
    [|by intros [= <-]].
  destruct (metar_string d) as [metar|e] eqn:Hs; [|discriminate].
  intros [= <-] _.
  destruct (build_metar_dict_record _ _ _ Hd)
    as (vals & first & dt & ms & speed_kt & gms & gust_kt & cover & code
        & height & hft & _ & Hfirst & Hdt & _ & _ & _ & _ & _ & _ & _ & _
        & _ & _ & Hst & Hobs & _).
  unfold first_feature in Hfirst.
  destruct (features raw) as [|f rest] eqn:Hfeats; [discriminate|].
  injection Hfirst as ->.
  apply metar_string_formatted in Hs
    as [dt' wdir wspd gust clouds vis dry dew qnh rwy station
          (obs & Hobs' & Hdt') _ _ _ _ _ _ _ _ _ (vst & Hst' & Hsts) ->].
  rewrite Hobs in Hobs'. injection Hobs' as <-.
  rewrite Hst in Hst'. injection Hst' as <-.
  change (default "06156" (STATIONS !! "06156")) with "EKHK" in Hsts.
  injection Hsts as <-.
  eexists raw, first, rest, dt, dt', _.
  split; [done|]. split; [done|]. split; [done|]. split; [exact Hdt'|].
  cbn [content]. by f_equal.
Qed.

(** X12: a reading that is [null], or anything else [round] refuses,
    passes the builder and stops the formatter.  When the first feature
    of the temperature, the dew point or the pressure of station 06156
    carries such a value and the record is built, the JSON endpoint
    serves the record and the page raises instead of answering. *)
Theorem unrounded_reading_breaks_page (raw : payload) (a : string)
    (l1 : list feature) (f1 : feature) (l2 : list feature) :
  fetch_station "06156" = Ok raw ->
  is_Ok (build_metar_dict "06156" raw) = true ->
  a ∈ ["temp_dry_c"; "temp_dew_c"; "qnh_hpa"] ->
  features raw = l1 ++ f1 :: l2 ->
  Forall (fun feat => ~ tracks a feat) l1 ->
  tracks a f1 ->
  py_eq_int (value f1) (-1) = false ->
  is_Ok (py_round (value f1)) = false ->
  exists d e,
    ekhk fetch_station = Ok [d]
    /\ d !! a = Some (value f1)
    /\ ekhg_page fetch_station = Raise e.
Proof.
  intros Hfetch Hok Ha Hfeats Hl1 Hf1 Hval Hround.
  destruct (build_metar_dict "06156" raw) as [d|e] eqn:Hd; [|discriminate].
  assert (Hrun : station_run fetch_station "06156" = Ok d).
  { unfold station_run. by rewrite Hfetch. }
  destruct (first_occurrence_wins raw a l1 f1 l2 Hfeats Hl1 Hf1 Hval)
    as (vals & Hvals & Hv).
  destruct (build_metar_dict_record _ _ _ Hd)
    as (vals' & first & dt & ms & speed_kt & gms & gust_kt & cover & code
        & height & hft & Hvals' & _ & _ & _ & _ & _ & _ & _ & _ & _ & _
        & _ & Hraw & _).
  assert (vals' = vals) as -> by congruence.
  assert (Hda : d !! a = Some (value f1)).
  { rewrite Hraw; [done|]. by apply (tracked_alias _ _ Hf1). }
  rewrite ekhg_page_cases, ekhk_cases, Hrun.
  destruct (metar_string d) as [metar|e] eqn:Hs; [|by eauto].
  exfalso.
  apply metar_string_formatted in Hs
    as [dt' wdir wspd gust clouds vis dry dew qnh rwy station
          _ _ _ _ _ _ (vdry & Hdry & Hrdry) (vdew & Hdew & Hrdew)
          (vq & Hq & Hrq) _ _ _].
  assert (Hno : forall v n, d !! a = Some v -> py_round v = Ok n -> False).
  { intros v n Hv' Hr. rewrite Hda in Hv'. injection Hv' as <-.
    by rewrite Hr in Hround. }
  repeat (apply elem_of_cons in Ha as [->|Ha]; [by eauto|]).
  by apply elem_of_nil in Ha.
Qed.

End AppProperties.

Lemma empty_payload_is_unavailable_witness :
  let fetch := fun _ : string => Ok {| features := [] |} in
  @station_run taylor_libm fetch "06156" = Raise IndexError
  /\ @get_metar taylor_libm fetch (Some ["06156"])
     = Ok ([], [LogUndecodable "06156" IndexError])
  /\ @ekhg_page taylor_libm fetch = Ok unavailable
  /\ @ekhk taylor_libm fetch = Ok [].
Proof.
  exact (@empty_payload_is_unavailable taylor_libm
           (fun _ => Ok {| features := [] |}) {| features := [] |}
           eq_refl eq_refl).
Defined.

Lemma ekhg_page_flaky :
  @ekhg_page taylor_libm flaky_fetch
  = Ok (page ("EKHK METAR 161250Z " +:+ nl +:+ "14010KT " +:+ nl
              +:+ "9999 SCT000 Q1008 6/4 " +:+ nl
              +:+ " R10 HW07 XW←06" +:+ nl)).
Proof.
  rewrite ekhg_page_cases. unfold station_run.
  change (flaky_fetch "06156") with (Ok ekhk_payload). cbn [bind].
  by rewrite build_ekhk, metar_string_ekhk_record.
Qed.

Lemma page_reports_ekhk_witness :
  exists raw first rest dt dt' body,
    flaky_fetch "06156" = Ok raw
    /\ features raw = first :: rest
    /\ fromisoformat (replace_char "Z" "+00:00" (observed first)) = Ok dt
    /\ fromisoformat_val (VStr (isoformat_seconds dt)) = Ok dt'
    /\ content (page ("EKHK METAR 161250Z " +:+ nl +:+ "14010KT " +:+ nl
                      +:+ "9999 SCT000 Q1008 6/4 " +:+ nl
                      +:+ " R10 HW07 XW←06" +:+ nl))
       = page_head
         +:+ ("EKHK METAR " +:+ strftime_ddhhmmz dt' +:+ " " +:+ nl
              +:+ body)
         +:+ page_tail.
Proof.
  exact (@page_reports_ekhk taylor_libm flaky_fetch _ ekhg_page_flaky
           eq_refl).
Defined.

Lemma unrounded_reading_breaks_page_witness :
  exists d e,
    @ekhk taylor_libm (fun _ => Ok null_temperature_payload) = Ok [d]
    /\ d !! "temp_dry_c" = Some VNone
    /\ @ekhg_page taylor_libm (fun _ => Ok null_temperature_payload)
       = Raise e.
Proof.
  apply (@unrounded_reading_breaks_page taylor_libm
           (fun _ => Ok null_temperature_payload) null_temperature_payload
           "temp_dry_c" [obs "wind_dir" (VInt 140); obs "wind_speed" (VInt 5)]
           (obs "temp_dry" VNone) [obs "temp_dry" (VInt 6)]).
  - reflexivity.
  - by vm_compute.
  - apply list_elem_of_here.
  - reflexivity.
  - repeat constructor; intros Ht; vm_compute in Ht; discriminate.
  - by vm_compute.
  - reflexivity.
  - reflexivity.
Defined.

(** ** Time stamps *)

Lemma digit_of_bound (c : ascii) (d : Z) : digit_of c = Some d -> 0 <= d <= 9.
Proof.
  unfold digit_of.
  destruct (Z.leb_spec 48 (Z.of_N (N_of_ascii c)));
    destruct (Z.leb_spec (Z.of_N (N_of_ascii c)) 57); simpl;
    intros [= <-]; lia.
Qed.

Lemma parse_digits_bound (n : nat) (acc : Z) (s : string) (v : Z)
    (r : string) :
  parse_digits n acc s = Some (v, r) ->
  acc * 10 ^ Z.of_nat n <= v < (acc + 1) * 10 ^ Z.of_nat n.
Proof.
  revert acc s. induction n as [|n IH]; intros acc s Hp.
  { simpl in Hp. injection Hp as <- <-. simpl. lia. }
  cbn [parse_digits] in Hp. destruct s as [|c rest]; [discriminate|].
  destruct (digit_of c) as [d|] eqn:Hd; [|discriminate].
  apply digit_of_bound in Hd. apply IH in Hp.
  rewrite Nat2Z.inj_succ, Z.pow_succ_r by lia. nia.
Qed.

Lemma parse_hh_mm_ss_ff_bound (s : string) (h mi se us : Z) :
  parse_hh_mm_ss_ff s = Some (h, mi, se, us) ->
  0 <= h < 100 /\ 0 <= mi < 100 /\ 0 <= se < 100 /\ 0 <= us < 1000000.
Proof.
  unfold parse_hh_mm_ss_ff. intros Hp.
  destruct (parse_digits 2 0 s) as [[h' r1]|] eqn:Hh; [|discriminate].
  apply parse_digits_bound in Hh. cbn [mbind option_bind] in Hp.
  destruct (String.eqb r1 ""); [injection Hp as <- <- <- <-; lia|].
  destruct (expect ":" r1) as [r2|]; [|discriminate].
  cbn [mbind option_bind] in Hp.
  destruct (parse_digits 2 0 r2) as [[mi' r3]|] eqn:Hmi; [|discriminate].
  apply parse_digits_bound in Hmi. cbn [mbind option_bind] in Hp.
  destruct (String.eqb r3 ""); [injection Hp as <- <- <- <-; lia|].
  destruct (expect ":" r3) as [r4|]; [|discriminate].
  cbn [mbind option_bind] in Hp.
  destruct (parse_digits 2 0 r4) as [[se' r5]|] eqn:Hse; [|discriminate].
  apply parse_digits_bound in Hse. cbn [mbind option_bind] in Hp.
  destruct (String.eqb r5 ""); [injection Hp as <- <- <- <-; lia|].
  destruct (expect "." r5) as [r6|]; [|discriminate].
  cbn [mbind option_bind] in Hp.
  destruct (String.length r6) as [|[|[|[|[|[|[|]]]]]]]; try discriminate.
  - destruct (parse_digits 3 0 r6) as [[ms r7]|] eqn:Hms; [|discriminate].
    apply parse_digits_bound in Hms. cbn [mbind option_bind] in Hp.
    injection Hp as <- <- <- <-. lia.
  - destruct (parse_digits 6 0 r6) as [[us' r7]|] eqn:Hus; [|discriminate].
    apply parse_digits_bound in Hus. cbn [mbind option_bind] in Hp.
    injection Hp as <- <- <- <-. lia.
Qed.

Lemma parse_offset_bound (neg : bool) (s : string) (off : Z) :
  parse_offset neg s = Some off -> -86400000000 < off < 86400000000.
Proof.
  unfold parse_offset. destruct (bool_decide _); [|discriminate].
  destruct (parse_hh_mm_ss_ff s) as [[[[h mi] se] us]|] eqn:Hp;
    [|discriminate].
  apply parse_hh_mm_ss_ff_bound in Hp. cbn [mbind option_bind].
  destruct (Z.ltb_spec (((h * 60 + mi) * 60 + se) * 1000000 + us)
              86400000000); [|discriminate].
  intros [= <-]. destruct neg; lia.
Qed.

Lemma days_in_month_bound (y m : Z) : 28 <= days_in_month y m <= 31.
Proof.
  unfold days_in_month.
  destruct (m =? 2); [destruct (is_leap y); lia|].
  destruct (bool_decide _); lia.
Qed.

(** What [fromisoformat] returns is a valid date and time. *)
Lemma fromisoformat_valid (s : string) (dt : datetime) :
  fromisoformat s = Ok dt -> valid_datetime dt.
Proof.
  unfold fromisoformat.
  destruct (parse_isoformat s) as [dt'|] eqn:Hp; [|discriminate].
  intros [= <-]. unfold parse_isoformat in Hp.
  destruct (parse_digits 4 0 s) as [[y r1]|] eqn:Hy; [|discriminate].
  apply parse_digits_bound in Hy. cbn [mbind option_bind] in Hp.
  destruct (expect "-" r1) as [r2|]; [|discriminate].
  cbn [mbind option_bind] in Hp.
  destruct (parse_digits 2 0 r2) as [[mo r3]|] eqn:Hmo; [|discriminate].
  cbn [mbind option_bind] in Hp.
  destruct (expect "-" r3) as [r4|]; [|discriminate].
  cbn [mbind option_bind] in Hp.
  destruct (parse_digits 2 0 r4) as [[d r5]|] eqn:Hd; [|discriminate].
  cbn [mbind option_bind] in Hp.
  match type of Hp with
  | mbind _ ?t = _ => destruct t as [[[[[h mi] se] us] off]|] eqn:Ht;
                        [|discriminate]
  end.
  cbn [mbind option_bind] in Hp.
  destruct ((1 <=? y) && (1 <=? mo) && (mo <=? 12) && (1 <=? d)
            && (d <=? days_in_month y mo) && (h <? 24) && (mi <? 60)
            && (se <? 60)) eqn:Hchk; [|discriminate].
  injection Hp as <-.
  repeat (apply andb_true_iff in Hchk as [Hchk ?]).
  assert (0 <= h /\ 0 <= mi /\ 0 <= se
          /\ forall o, off = Some o -> -86400000000 < o < 86400000000)
    as (Hh & Hmi & Hse & Hoff).
  { destruct r5 as [|c tstr].
    { injection Ht as <- <- <- <- <-.
      split; [lia|]. split; [lia|]. split; [lia|]. discriminate. }
    destruct (split_offset tstr) as [t o].
    destruct (parse_hh_mm_ss_ff t) as [[[[h' mi'] se'] us']|] eqn:Htime;
      [|discriminate].
    apply parse_hh_mm_ss_ff_bound in Htime. cbn [mbind option_bind] in Ht.
    destruct o as [[neg ostr]|].
    - destruct (parse_offset neg ostr) as [off'|] eqn:Hoff; [|discriminate].
      apply parse_offset_bound in Hoff.
      cbn [mbind option_bind] in Ht. injection Ht as <- <- <- <- <-.
      split; [lia|]. split; [lia|]. split; [lia|].
      by intros o [= <-].
    - injection Ht as <- <- <- <- <-.
      split; [lia|]. split; [lia|]. split; [lia|]. discriminate. }
  pose proof (days_in_month_bound y mo).
  change (10 ^ Z.of_nat 4) with 10000 in Hy.
  unfold valid_datetime. cbn [year month day hour minute second utcoffset].
  repeat split; try lia; by apply Hoff.
Qed.

Lemma append_cons (c : ascii) (s r : string) :
  String c s +:+ r = String c (s +:+ r).
Proof. reflexivity. Qed.

Lemma append_empty_r (s : string) : s +:+ "" = s.
Proof.
  induction s as [|c s IH]; [done|]. by rewrite append_cons, IH.
Qed.

Lemma length_append (s r : string) :
  String.length (s +:+ r) = (String.length s + String.length r)%nat.
Proof.
  induction s as [|c s IH]; [done|].
  rewrite append_cons. cbn [String.length]. by rewrite IH.
Qed.

(** Digits followed by more text are read like the digits alone. *)
Lemma parse_digits_app (n : nat) (acc : Z) (s : string) (v : Z)
    (rest : string) :
  parse_digits n acc s = Some (v, "") ->
  String.length s = n ->
  parse_digits n acc (s +:+ rest) = Some (v, rest).
Proof.
  revert acc s. induction n as [|n IH]; intros acc s Hp Hlen.
  { destruct s; [|discriminate]. by injection Hp as ->. }
  destruct s as [|c s]; [discriminate|]. rewrite append_cons.
  cbn [parse_digits] in *. destruct (digit_of c); [|discriminate].
  apply IH; [done|]. by injection Hlen.
Qed.

(** Text without a sign in front of more text. *)
Lemma split_offset_app (p r : string) :
  split_offset p = (p, None) ->
  split_offset (p +:+ r) = (p +:+ (split_offset r).1, (split_offset r).2).
Proof.
  induction p as [|c p IH]; intros Hp.
  { change ("" +:+ r) with r. by destruct (split_offset r). }
  rewrite !append_cons. cbn [split_offset] in *.
  destruct (Ascii.eqb c "+"); [discriminate|].
  destruct (Ascii.eqb c "-"); [discriminate|].
  destruct (split_offset p) as [t o]. injection Hp as -> ->.
  rewrite IH by done. reflexivity.
Qed.

Lemma two_table :
  Forall (fun k => parse_digits 2 0 (two k) = Some (k, "")
                   /\ String.length (two k) = 2%nat
                   /\ split_offset (two k) = (two k, None))
    (seqZ 0 100).
Proof. apply (bool_decide_unpack _). by vm_compute. Qed.

Lemma year_table :
  Forall (fun k => parse_digits 4 0 (zfill (str_int k) 4) = Some (k, "")
                   /\ String.length (zfill (str_int k) 4) = 4%nat)
    (seqZ 0 10000).
Proof. apply (bool_decide_unpack _). by vm_compute. Qed.

Lemma two_spec (k : Z) :
  0 <= k < 100 ->
  (forall rest, parse_digits 2 0 (two k +:+ rest) = Some (k, rest))
  /\ String.length (two k) = 2%nat
  /\ (forall rest, split_offset (two k +:+ rest)
                   = (two k +:+ (split_offset rest).1,
                      (split_offset rest).2)).
Proof.
  intros Hk.
  destruct (proj1 (Forall_forall _ _) two_table k) as (Hp & Hlen & Hs).
  { apply elem_of_seqZ. lia. }
  split; [|split; [done|]].
  - intros rest. by apply parse_digits_app.
  - intros rest. by apply split_offset_app.
Qed.

Lemma year_spec (k : Z) (rest : string) :
  0 <= k < 10000 ->
  parse_digits 4 0 (zfill (str_int k) 4 +:+ rest) = Some (k, rest).
Proof.
  intros Hk.
  destruct (proj1 (Forall_forall _ _) year_table k) as (Hp & Hlen).
  { apply elem_of_seqZ. lia. }
  by apply parse_digits_app.
Qed.

Lemma append_empty_l (r : string) : "" +:+ r = r.
Proof. reflexivity. Qed.

(** Moves the literal characters out of the appends. *)
Ltac norm_lit := repeat (rewrite append_cons || rewrite append_empty_l).

Ltac parse_step :=
  cbn [mbind option_bind String.eqb expect Ascii.eqb Bool.eqb].

(** The time of day reads back. *)
Lemma parse_hh_mm_ss (h mi se : Z) :
  0 <= h < 100 -> 0 <= mi < 100 -> 0 <= se < 100 ->
  parse_hh_mm_ss_ff
    (two h +:+ String ":" (two mi +:+ String ":" (two se +:+ "")))
  = Some (h, mi, se, 0).
Proof.
  intros Hh Hmi Hse. unfold parse_hh_mm_ss_ff. norm_lit.
  destruct (two_spec h Hh) as (-> & _ & _). parse_step.
  destruct (two_spec mi Hmi) as (-> & _ & _). parse_step.
  destruct (two_spec se Hse) as (-> & _ & _). parse_step.
  reflexivity.
Qed.

Lemma parse_hh_mm (h mi : Z) :
  0 <= h < 100 -> 0 <= mi < 100 ->
  parse_hh_mm_ss_ff (two h +:+ String ":" (two mi +:+ ""))
  = Some (h, mi, 0, 0).
Proof.
  intros Hh Hmi. unfold parse_hh_mm_ss_ff. norm_lit.
  destruct (two_spec h Hh) as (-> & _ & _). parse_step.
  destruct (two_spec mi Hmi) as (-> & _ & _). parse_step.
  reflexivity.
Qed.

Lemma split_offset_time (h mi se : Z) (offs : string) :
  0 <= h < 100 -> 0 <= mi < 100 -> 0 <= se < 100 ->
  split_offset
    (two h +:+ String ":" (two mi +:+ String ":" (two se +:+ offs)))
  = (two h +:+ String ":" (two mi +:+ String ":"
                             (two se +:+ (split_offset offs).1)),
     (split_offset offs).2).
Proof.
  intros Hh Hmi Hse.
  destruct (two_spec h Hh) as (_ & _ & ->).
  change (split_offset (String ":" ?r))
    with (let '(t, o) := split_offset r in (String ":" t, o)).
  destruct (two_spec mi Hmi) as (_ & _ & ->).
  change (split_offset (String ":" ?r))
    with (let '(t, o) := split_offset r in (String ":" t, o)).
  destruct (two_spec se Hse) as (_ & _ & ->).
  reflexivity.
Qed.

(** The offset reads back. *)
Lemma parse_format_offset (off : Z) :
  -86400000000 < off < 86400000000 ->
  off mod 1000000 = 0 ->
  exists neg ostr,
    split_offset (format_offset off) = ("", Some (neg, ostr))
    /\ parse_offset neg ostr = Some off.
Proof.
  intros Hoff Hwhole. unfold format_offset.
  set (a := Z.abs off). set (s := a / 1000000).
  assert (Ha : 0 <= a < 86400000000) by lia.
  assert (Hus : a mod 1000000 = 0).
  { unfold a. destruct (Z.abs_spec off) as [[_ ->]|[_ ->]]; [done|].
    by apply Z.mod_opp_l_z. }
  assert (Has : a = s * 1000000).
  { unfold s. pose proof (Z.div_mod a 1000000). lia. }
  assert (Hs : 0 <= s < 86400) by lia.
  assert (Hsplit : s = (s / 3600 * 60 + s / 60 mod 60) * 60 + s mod 60).
  { pose proof (Z.div_div s 60 60 ltac:(lia) ltac:(lia)) as Hdd.
    change (60 * 60) with 3600 in Hdd. rewrite <- Hdd.
    pose proof (Z.div_mod s 60). pose proof (Z.div_mod (s / 60) 60). lia. }
  assert (Hhh : 0 <= s / 3600 < 100).
  { split; [apply Z.div_pos; lia|]. apply Z.div_lt_upper_bound; lia. }
  assert (Hmm : 0 <= s / 60 mod 60 < 100).
  { pose proof (Z.mod_pos_bound (s / 60) 60). lia. }
  assert (Hss : 0 <= s mod 60 < 100).
  { pose proof (Z.mod_pos_bound s 60). lia. }
  rewrite Hus. cbn [Z.eqb]. rewrite andb_true_r.
  exists (off <? 0).
  destruct (s mod 60 =? 0) eqn:Hsec.
  - exists (two (s / 3600) +:+ String ":" (two (s / 60 mod 60) +:+ "")).
    split; [by destruct (off <? 0)|].
    unfold parse_offset.
    rewrite bool_decide_eq_true_2.
    2:{ repeat (rewrite length_append; cbn [String.length]).
        rewrite (proj1 (proj2 (two_spec _ Hhh))),
          (proj1 (proj2 (two_spec _ Hmm))).
        apply (bool_decide_unpack _). by vm_compute. }
    rewrite parse_hh_mm by done. cbn [mbind option_bind].
    apply Z.eqb_eq in Hsec.
    assert (Hval : ((s / 3600 * 60 + s / 60 mod 60) * 60 + 0) * 1000000 + 0
                   = a) by lia.
    rewrite Hval.
    destruct (Z.ltb_spec a 86400000000); [|lia].
    f_equal. unfold a. destruct (Z.ltb_spec off 0); lia.
  - exists (two (s / 3600)
            +:+ String ":" (two (s / 60 mod 60)
                            +:+ String ":" (two (s mod 60) +:+ ""))).
    split; [by destruct (off <? 0)|].
    unfold parse_offset.
    rewrite bool_decide_eq_true_2.
    2:{ repeat (rewrite length_append; cbn [String.length]).
        rewrite (proj1 (proj2 (two_spec _ Hhh))),
          (proj1 (proj2 (two_spec _ Hmm))),
          (proj1 (proj2 (two_spec _ Hss))).
        apply (bool_decide_unpack _). by vm_compute. }
    rewrite parse_hh_mm_ss by done. cbn [mbind option_bind].
    assert (Hval : ((s / 3600 * 60 + s / 60 mod 60) * 60 + s mod 60)
                   * 1000000 + 0 = a) by lia.
    rewrite Hval.
    destruct (Z.ltb_spec a 86400000000); [|lia].
    f_equal. unfold a. destruct (Z.ltb_spec off 0); lia.
Qed.

(** What [isoformat(timespec="seconds")] prints of a valid date and time
    reads back as the same date and time, to the second. *)
Lemma fromisoformat_isoformat_seconds (dt : datetime) :
  valid_datetime dt ->
  whole_second_offset dt ->
  fromisoformat (isoformat_seconds dt) = Ok (to_the_second dt).
Proof.
  intros (Hy & Hmo & Hd & Hh & Hmi & Hse & Hoff) Hwhole.
  pose proof (days_in_month_bound (year dt) (month dt)) as Hdim.
  assert (Hparse : parse_isoformat (isoformat_seconds dt)
                   = Some (to_the_second dt)); [|by unfold fromisoformat; rewrite Hparse].
  unfold parse_isoformat, isoformat_seconds. norm_lit.
  rewrite year_spec by lia. parse_step.
  destruct (two_spec (month dt) ltac:(lia)) as (-> & _ & _). parse_step.
  destruct (two_spec (day dt) ltac:(lia)) as (-> & _ & _). parse_step.
  rewrite split_offset_time by lia.
  assert (Htime : exists o,
             split_offset match utcoffset dt with
                          | Some off => format_offset off
                          | None => ""
                          end = ("", o)
             /\ match o with
                | Some (neg, ostr) =>
                    exists off, utcoffset dt = Some off
                                /\ parse_offset neg ostr = Some off
                | None => utcoffset dt = None
                end).
  { destruct (utcoffset dt) as [off|] eqn:Hutc.
    - destruct (parse_format_offset off (Hoff off eq_refl)
                  (Hwhole off Hutc)) as (neg & ostr & Hsplit & Hpo).
      exists (Some (neg, ostr)). eauto.
    - by exists None. }
  destruct Htime as (o & -> & Ho). cbn [fst snd].
  rewrite parse_hh_mm_ss by lia. parse_step.
  assert (Hchk : (1 <=? year dt) && (1 <=? month dt) && (month dt <=? 12)
                 && (1 <=? day dt)
                 && (day dt <=? days_in_month (year dt) (month dt))
                 && (hour dt <? 24) && (minute dt <? 60)
                 && (second dt <? 60) = true).
  { repeat (apply andb_true_intro; split);
      first [apply Z.leb_le | apply Z.ltb_lt]; lia. }
  unfold to_the_second.
  destruct o as [[neg ostr]|].
  - destruct Ho as (off & -> & ->). parse_step. by rewrite Hchk.
  - rewrite Ho. parse_step. by rewrite Hchk.
Qed.

Lemma strftime_to_the_second (dt : datetime) :
  strftime_ddhhmmz (to_the_second dt) = strftime_ddhhmmz dt.
Proof. reflexivity. Qed.

(** ** The formatter on the records the builder makes *)

Lemma gust_of_int (d : gmap string pyval) (g s : Z) :
  d !! "wind_gust_kt" = Some (VInt g) ->
  d !! "wind_speed_kt" = Some (VInt s) ->
  gust_of d = Ok (if 10 <? g - s then "G" +:+ zfill (str_int g) 2 else "").
Proof.
  intros Hg%getitem_Ok Hs%getitem_Ok. unfold gust_of.
  rewrite Hg, Hs. cbn [bind py_sub]. rewrite py_gt_int. cbn [bind].
  by destruct (10 <? g - s).
Qed.

Lemma clouds_of_text (d : gmap string pyval) (code : string) (hft : pyval) :
  d !! "cloud_code" = Some (VStr code) ->
  d !! "cloud_height_ft" = Some hft ->
  hft = VNone \/ (exists r, hft = VInt r) ->
  exists c, clouds_of d = Ok (VStr c).
Proof.
  intros Hc%getitem_Ok Hh%getitem_Ok Hhft. unfold clouds_of.
  rewrite Hc. cbn [bind py_eq_str].
  destruct (negb (String.eqb code "SKC")); cbn [bind]; [|by eauto].
  rewrite Hh. cbn [bind].
  destruct Hhft as [->|[r ->]]; cbn [truthy]; [by eauto|].
  destruct (negb (r =? 0)); [|by eauto].
  cbn [bind py_floordiv py_str append_str]. eauto.
Qed.

Lemma rwy_of_components (d : gmap string pyval) (rwy : string) (hw xw : Z)
    (side : string) :
  d !! "runway" = Some (VStr rwy) ->
  d !! "headwind_kt" = Some (VInt hw) ->
  d !! "crosswind_kt" = Some (VInt xw) ->
  d !! "crosswind_from" = Some (VStr side) ->
  exists r, rwy_of d = Ok r.
Proof.
  intros Hr%getitem_Ok Hhw%getitem_Ok Hxw%getitem_Ok Hside%getitem_Ok.
  unfold rwy_of. rewrite Hr, Hhw, Hxw, Hside. cbn [bind py_str]. eauto.
Qed.

(** The runway block of a record [build_metar_dict] returns. *)
Lemma build_metar_dict_runway `{Libm} (station_id : string) (raw : payload)
    (d : gmap string pyval) :
  build_metar_dict station_id raw = Ok d ->
  exists rwy hw xw side,
    d !! "runway" = Some (VStr rwy)
    /\ d !! "headwind_kt" = Some (VInt hw)
    /\ d !! "crosswind_kt" = Some (VInt xw)
    /\ d !! "crosswind_from" = Some (VStr side).
Proof.
  intros Hd.
  destruct (build_metar_dict_parts _ _ _ Hd)
    as (vals & first & dt & ms & speed_kt & gms & gust_kt & cover & code
        & height & hft & wdir & rc & Hvals & _ & _ & _ & _ & _ & _ & _ & _
        & _ & _ & _ & Hrc & ->).
  apply runway_and_components_Ok in Hrc
    as (sector & offset & w & rad & c & s & hw & xw & neg & Hrest).
  assert (Hrc : rc = components (if sector then "10" else "28") hw xw
                       (if neg then "left" else "right")) by tauto.
  subst rc.
  destruct (latest_values_spec raw) as (vals' & _ & _ & Hv & Hdom & _).
  assert (vals' = vals) as -> by congruence.
  destruct (assemble_lookup vals (default station_id (STATIONS !! station_id))
              (isoformat_seconds dt) speed_kt gust_kt code hft
              (if sector then "10" else "28") hw xw
              (if neg then "left" else "right") Hdom)
    as (_ & _ & _ & _ & _ & _ & _ & _ & Hr1 & Hr2 & Hr3 & Hr4).
  eauto 10.
Qed.

(** On a record of the builder the time stamp, the wind speed, the gust,
    the cloud token, the runway block and the station never stop the
    formatter: it returns as soon as the direction, the visibility and
    the three rounded readings can be computed. *)
Lemma metar_string_steps `{Libm} (station_id : string) (raw : payload)
    (d : gmap string pyval) (first : feature) (rest : list feature)
    (dt : datetime) :
  build_metar_dict station_id raw = Ok d ->
  features raw = first :: rest ->
  fromisoformat (replace_char "Z" "+00:00" (observed first)) = Ok dt ->
  whole_second_offset dt ->
  is_Ok (wdir_of d) = true ->
  is_Ok (vis_of d) = true ->
  (forall k, k ∈ ["temp_dry_c"; "temp_dew_c"; "qnh_hpa"] ->
             exists v, d !! k = Some v /\ is_Ok (py_round v) = true) ->
  exists wdir wspd gust vis clouds qnh temp_dew rwy,
    metar_string d
    = Ok (report_text (default station_id (STATIONS !! station_id))
            (strftime_ddhhmmz dt) wdir wspd gust vis clouds qnh temp_dew
            rwy).
Proof.
  intros Hd Hfeats Hdt Hwhole Hw Hvis Hround.
  destruct (build_metar_dict_record _ _ _ Hd)
    as (vals & first' & dt' & ms & speed_kt & gms & gust_kt & cover & code
        & height & hft & _ & Hfirst & Hdt' & _ & _ & _ & _ & _ & _ & _
        & Hhft & _ & _ & Hst & Hobs & Hspeed & Hgust & Hcode & Hheight).
  unfold first_feature in Hfirst. rewrite Hfeats in Hfirst.
  injection Hfirst as <-.
  assert (dt' = dt) as -> by congruence.
  destruct (build_metar_dict_runway _ _ _ Hd)
    as (rwy & hw & xw & side & Hr1 & Hr2 & Hr3 & Hr4).
  destruct (wdir_of d) as [w|] eqn:Hwd; [|discriminate].
  destruct (vis_of d) as [vis|] eqn:Hv; [|discriminate].
  destruct (Hround "temp_dry_c") as (vdry & Hdry & Hrdry);
    [apply (bool_decide_unpack _); by vm_compute|].
  destruct (Hround "temp_dew_c") as (vdew & Hdew & Hrdew);
    [apply (bool_decide_unpack _); by vm_compute|].
  destruct (Hround "qnh_hpa") as (vq & Hq & Hrq);
    [apply (bool_decide_unpack _); by vm_compute|].
  destruct (py_round vdry) as [dry|] eqn:Hdry'; [|discriminate].
  destruct (py_round vdew) as [dew|] eqn:Hdew'; [|discriminate].
  destruct (py_round vq) as [q|] eqn:Hq'; [|discriminate].
  destruct (clouds_of_text d code hft Hcode Hheight) as (cl & Hcl).
  { destruct Hhft as [[_ ->]|(_ & ft & r & _ & _ & ->)]; eauto. }
  destruct (rwy_of_components d rwy hw xw side Hr1 Hr2 Hr3 Hr4)
    as (rw & Hrw).
  do 8 eexists. apply formatted_metar_string.
  eapply (Formatted d _ (to_the_second dt) w _ _ cl vis dry dew q rw
            (default station_id (STATIONS !! station_id))).
  - exists (VStr (isoformat_seconds dt)). split; [done|].
    apply fromisoformat_isoformat_seconds; [|done].
    by apply (fromisoformat_valid _ _ Hdt).
  - done.
  - exists (VInt speed_kt), (str_int speed_kt). by split.
  - by apply (gust_of_int d gust_kt speed_kt).
  - exists (VStr cl). by split.
  - done.
  - eauto.
  - eauto.
  - eauto.
  - done.
  - eexists. by split.
  - reflexivity.
Qed.

Lemma vis_of_int (d : gmap string pyval) (v : Z) :
  d !! "visibility_m" = Some (VInt v) -> is_Ok (vis_of d) = true.
Proof.
  intros Hv%getitem_Ok. unfold vis_of. rewrite Hv. cbn [bind].
  rewrite py_gt_int. cbn [bind]. destruct (9999 <? v); [done|].
  rewrite py_lt_int. cbn [bind]. by destruct (v <? 100).
Qed.

Lemma strftime_length (dt : datetime) :
  valid_datetime dt -> String.length (strftime_ddhhmmz dt) = 7%nat.
Proof.
  intros (_ & _ & Hd & Hh & Hmi & _).
  pose proof (days_in_month_bound (year dt) (month dt)).
  unfold strftime_ddhhmmz. rewrite !length_append.
  rewrite (proj1 (proj2 (two_spec (day dt) ltac:(lia)))).
  rewrite (proj1 (proj2 (two_spec (hour dt) ltac:(lia)))).
  by rewrite (proj1 (proj2 (two_spec (minute dt) ltac:(lia)))).
Qed.

(** X13: the formatter can read the time stamp the builder writes.  When
    the time stamp of the payload's first feature parses, with an offset
    of whole seconds, the record's [observed] string reads back as the
    same date, time and offset to the second; the time token of the
    report is then seven characters, the day, hour and minute as the
    payload wrote them, not converted to UTC, and a "Z". *)
Theorem built_time_stamp_reads_back `{Libm} (station_id : string)
    (raw : payload) (d : gmap string pyval) (first : feature)
    (rest : list feature) (dt : datetime) :
  build_metar_dict station_id raw = Ok d ->
  features raw = first :: rest ->
  fromisoformat (replace_char "Z" "+00:00" (observed first)) = Ok dt ->
  whole_second_offset dt ->
  exists obs dt',
    d !! "observed" = Some obs
    /\ fromisoformat_val obs = Ok dt'
    /\ dt' = to_the_second dt
    /\ strftime_ddhhmmz dt'
       = two (day dt) +:+ two (hour dt) +:+ two (minute dt) +:+ "Z"
    /\ String.length (strftime_ddhhmmz dt') = 7%nat.
Proof.
  intros Hd Hfeats Hdt Hwhole.
  destruct (build_metar_dict_record _ _ _ Hd)
    as (vals & first' & dt' & ms & speed_kt & gms & gust_kt & cover & code
        & height & hft & _ & Hfirst & Hdt' & _ & _ & _ & _ & _ & _ & _
        & _ & _ & _ & _ & Hobs & _).
  unfold first_feature in Hfirst. rewrite Hfeats in Hfirst.
  injection Hfirst as <-.
  assert (dt' = dt) as -> by congruence.
  pose proof (fromisoformat_valid _ _ Hdt) as Hvalid.
  exists (VStr (isoformat_seconds dt)), (to_the_second dt).
  split; [done|]. split; [by apply fromisoformat_isoformat_seconds|].
  split; [done|]. split; [done|].
  by rewrite strftime_to_the_second, strftime_length.
Qed.

Lemma built_time_stamp_reads_back_witness :
  exists obs dt',
    ekhk_record !! "observed" = Some obs
    /\ fromisoformat_val obs = Ok dt'
    /\ dt' = to_the_second
               {| year := 2024; month := 1; day := 16; hour := 12;
                  minute := 50; second := 0; microsecond := 0;
                  utcoffset := Some 0 |}
    /\ strftime_ddhhmmz dt' = two 16 +:+ two 12 +:+ two 50 +:+ "Z"
    /\ String.length (strftime_ddhhmmz dt') = 7%nat.
Proof.
  apply (@built_time_stamp_reads_back taylor_libm "06156" ekhk_payload
           ekhk_record (obs "wind_dir" (VInt 140))
           (tail (features ekhk_payload))
           {| year := 2024; month := 1; day := 16; hour := 12;
              minute := 50; second := 0; microsecond := 0;
              utcoffset := Some 0 |}).
  - exact build_ekhk.
  - reflexivity.
  - by vm_compute.
  - intros off Hoff. cbn in Hoff. by injection Hoff as <-.
Defined.

(** X14: what can stop the formatter on a record of the builder.  With a
    first time stamp whose offset is in whole seconds, [metar_string]
    returns exactly when the direction can be rounded, the visibility
    token can be made and the temperature, the dew point and the pressure
    can be rounded; the time stamp, the wind speed, the gust, the cloud
    token, the runway block and the station never raise. *)
Theorem metar_string_returns_iff `{Libm} (station_id : string)
    (raw : payload) (d : gmap string pyval) (first : feature)
    (rest : list feature) (dt : datetime) :
  build_metar_dict station_id raw = Ok d ->
  features raw = first :: rest ->
  fromisoformat (replace_char "Z" "+00:00" (observed first)) = Ok dt ->
  whole_second_offset dt ->
  is_Ok (metar_string d) = true
  <-> is_Ok (wdir_of d) = true
      /\ is_Ok (vis_of d) = true
      /\ forall k, k ∈ ["temp_dry_c"; "temp_dew_c"; "qnh_hpa"] ->
                   exists v, d !! k = Some v /\ is_Ok (py_round v) = true.
Proof.
  intros Hd Hfeats Hdt Hwhole. split.
  - destruct (metar_string d) as [s|e] eqn:Hs; [|discriminate]. intros _.
    apply metar_string_formatted in Hs
      as [dt' wdir wspd gust clouds vis dry dew qnh rwy station
            _ Hwdir _ _ _ Hvis (vdry & Hdry & Hrdry) (vdew & Hdew & Hrdew)
            (vq & Hq & Hrq) _ _ _].
    rewrite Hwdir, Hvis. split; [done|]. split; [done|].
    intros k Hk.
    repeat (apply elem_of_cons in Hk as [->|Hk];
            [eexists; split; [eassumption|];
             by match goal with Hr : py_round _ = Ok _ |- _ => rewrite Hr end
            |]).
    by apply elem_of_nil in Hk.
  - intros (Hw & Hvis & Hround).
    destruct (metar_string_steps _ _ _ _ _ _ Hd Hfeats Hdt Hwhole Hw Hvis
                Hround)
      as (wdir & wspd & gust & vis & clouds & qnh & temp_dew & rwy & ->).
    done.
Qed.

Lemma metar_string_returns_iff_witness :
  is_Ok (metar_string ekhk_record) = true
  <-> is_Ok (wdir_of ekhk_record) = true
      /\ is_Ok (vis_of ekhk_record) = true
      /\ forall k, k ∈ ["temp_dry_c"; "temp_dew_c"; "qnh_hpa"] ->
                   exists v, ekhk_record !! k = Some v
                             /\ is_Ok (py_round v) = true.
Proof.
  apply (@metar_string_returns_iff taylor_libm "06156" ekhk_payload
           ekhk_record (obs "wind_dir" (VInt 140))
           (tail (features ekhk_payload))
           {| year := 2024; month := 1; day := 16; hour := 12;
              minute := 50; second := 0; microsecond := 0;
              utcoffset := Some 0 |}).
  - exact build_ekhk.
  - reflexivity.
  - by vm_compute.
  - intros off Hoff. cbn in Hoff. by injection Hoff as <-.
Defined.

(** X15: a report for every payload of whole readings.  When the record
    is built, the first time stamp has an offset of whole seconds, the
    wind direction is a whole number between -1 and 360 and the
    visibility, the temperature, the dew point and the pressure are whole
    numbers, [metar_string] returns, and the report opens with the
    station label, " METAR " and the time token. *)
Theorem report_of_whole_readings `{Libm} (station_id : string)
    (raw : payload) (d : gmap string pyval) (first : feature)
    (rest : list feature) (dt : datetime) (wdir vis dry dew qnh : Z) :
  build_metar_dict station_id raw = Ok d ->
  features raw = first :: rest ->
  fromisoformat (replace_char "Z" "+00:00" (observed first)) = Ok dt ->
  whole_second_offset dt ->
  d !! "wind_dir_deg" = Some (VInt wdir) ->
  -1 <= wdir <= 360 ->
  d !! "visibility_m" = Some (VInt vis) ->
  d !! "temp_dry_c" = Some (VInt dry) ->
  d !! "temp_dew_c" = Some (VInt dew) ->
  d !! "qnh_hpa" = Some (VInt qnh) ->
  exists body,
    metar_string d
    = Ok (default station_id (STATIONS !! station_id) +:+ " METAR "
          +:+ strftime_ddhhmmz dt +:+ " " +:+ nl +:+ body).
Proof.
  intros Hd Hfeats Hdt Hwhole Hwdir Hrange Hvis Hdry Hdew Hqnh.
  destruct (metar_string_steps _ _ _ _ _ _ Hd Hfeats Hdt Hwhole)
    as (w & wspd & gust & v & clouds & q & temp_dew & rwy & ->).
  - rewrite (wdir_of_lookup d _ Hwdir).
    pose proof (proj1 (Forall_forall _ _) wdir_table wdir) as Htable.
    rewrite elem_of_seqZ in Htable. specialize (Htable ltac:(lia)).
    unfold prints_direction in Htable. by destruct (wdir_of _).
  - by apply (vis_of_int d vis).
  - intros k Hk.
    repeat (apply elem_of_cons in Hk as [->|Hk]; [by eauto|]).
    by apply elem_of_nil in Hk.
  - eexists. unfold report_text. reflexivity.
Qed.

Lemma report_of_whole_readings_witness :
  exists body,
    metar_string ekhk_record
    = Ok (default "06156" (STATIONS !! "06156") +:+ " METAR "
          +:+ strftime_ddhhmmz
                {| year := 2024; month := 1; day := 16; hour := 12;
                   minute := 50; second := 0; microsecond := 0;
                   utcoffset := Some 0 |}
          +:+ " " +:+ nl +:+ body).
Proof.
  apply (@report_of_whole_readings taylor_libm "06156" ekhk_payload
           ekhk_record (obs "wind_dir" (VInt 140))
           (tail (features ekhk_payload))
           {| year := 2024; month := 1; day := 16; hour := 12;
              minute := 50; second := 0; microsecond := 0;
              utcoffset := Some 0 |} 140 12000 6 4 1008).
  - exact build_ekhk.
  - reflexivity.
  - by vm_compute.
  - intros off Hoff. cbn in Hoff. by injection Hoff as <-.
  - by vm_compute.
  - lia.
  - by vm_compute.
  - by vm_compute.
  - by vm_compute.
  - by vm_compute.
Defined.

(** ** Runway and side for whole directions *)

Lemma components_lookup (rwy : string) (hw xw : Z) (side : string) :
  components rwy hw xw side !! "runway" = Some (VStr rwy)
  /\ components rwy hw xw side !! "headwind_kt" = Some (VInt hw)
  /\ components rwy hw xw side !! "crosswind_kt" = Some (VInt xw)
  /\ components rwy hw xw side !! "crosswind_from" = Some (VStr side).
Proof.
  unfold components.
  rewrite lookup_insert_eq, !lookup_insert_ne, !lookup_insert_eq by done.
  rewrite !lookup_insert_ne, !lookup_insert_eq by done. done.
Qed.

(** X16: runway and side for a whole wind direction [d], in closed form.
    Whenever [runway_and_components] returns, the runway is "10" for
    [10 < d < 190] and "28" otherwise, and the crosswind comes from the
    left exactly for [10 < d < 100], for [190 <= d < 280] and below -80;
    the bounds 10, 100 and 280 give the right, and so does the
    sentinel -1. *)
Theorem runway_and_side_of_whole_direction `{Libm} (d : Z) (wspd_ms : pyval)
    (res : gmap string pyval) :
  runway_and_components (VInt d) wspd_ms = Ok res ->
  res !! "runway"
  = Some (VStr (if bool_decide (10 < d < 190) then "10" else "28"))
  /\ res !! "crosswind_from"
     = Some (VStr (if bool_decide (d < -80 \/ 10 < d < 100 \/ 190 <= d < 280)
                   then "left" else "right")).
Proof.
  intros Hres. apply runway_and_components_Ok in Hres
    as (sector & offset & w & rad & c & s & hw & xw & neg & Hsector & _
        & Hoffset & _ & _ & _ & _ & _ & _ & _ & _ & Hneg & ->).
  destruct (components_lookup (if sector then "10" else "28") hw xw
              (if neg then "left" else "right")) as (-> & _ & _ & ->).
  rewrite in_sector_10_int in Hsector. injection Hsector as <-.
  rewrite runway_offset_int in Hoffset.
  split; [done|]. do 2 f_equal.
  destruct (decide (10 < d < 190)) as [Hs|Hs].
  - rewrite bool_decide_eq_true_2 in Hoffset by done.
    injection Hoffset as <-. rewrite py_lt_int in Hneg.
    injection Hneg as <-.
    destruct (Z.ltb_spec (d - 100) 0).
    + by rewrite bool_decide_eq_true_2 by lia.
    + by rewrite bool_decide_eq_false_2 by lia.
  - rewrite bool_decide_eq_false_2 in Hoffset by done.
    destruct (decide (190 <= d)) as [Hd|Hd].
    + rewrite bool_decide_eq_true_2 in Hoffset by done.
      injection Hoffset as <-. rewrite py_lt_int in Hneg.
      injection Hneg as <-.
      destruct (Z.ltb_spec (d - 280) 0).
      * by rewrite bool_decide_eq_true_2 by lia.
      * by rewrite bool_decide_eq_false_2 by lia.
    + rewrite bool_decide_eq_false_2 in Hoffset by done.
      injection Hoffset as <-. rewrite py_lt_int in Hneg.
      injection Hneg as <-.
      destruct (Z.ltb_spec (d + 80) 0).
      * by rewrite bool_decide_eq_true_2 by lia.
      * by rewrite bool_decide_eq_false_2 by lia.
Qed.

Lemma runway_and_side_of_whole_direction_witness :
  components "10" 7 6 "right" !! "runway"
  = Some (VStr (if bool_decide (10 < 140 < 190) then "10" else "28"))
  /\ components "10" 7 6 "right" !! "crosswind_from"
     = Some (VStr (if bool_decide
                        (140 < -80 \/ 10 < 140 < 100 \/ 190 <= 140 < 280)
                   then "left" else "right")).
Proof.
  exact (@runway_and_side_of_whole_direction taylor_libm 140 (VInt 5) _
           (result_map_eq _ _ runway_and_components_140_5)).
Defined.

(** The runway block of a record is what [runway_and_components] returns
    for the extracted direction and speed. *)
Lemma build_metar_dict_components `{Libm} (station_id : string)
    (raw : payload) (d : gmap string pyval) :
  build_metar_dict station_id raw = Ok d ->
  exists vals wdir ms rc,
    latest_values raw = Ok vals
    /\ vals !! "wind_dir_deg" = Some wdir
    /\ vals !! "wind_speed_ms" = Some ms
    /\ runway_and_components wdir ms = Ok rc
    /\ d !! "wind_dir_deg" = Some wdir
    /\ d !! "runway" = rc !! "runway"
    /\ d !! "crosswind_from" = rc !! "crosswind_from".
Proof.
  intros Hd.
  destruct (build_metar_dict_parts _ _ _ Hd)
    as (vals & first & dt & ms & speed_kt & gms & gust_kt & cover & code
        & height & hft & wdir & rc & Hvals & _ & _ & Hms & _ & _ & _ & _ & _
        & _ & _ & Hwdir & Hrc & ->).
  exists vals, wdir, ms, rc. do 4 (split; [done|]).
  pose proof Hrc as Hrc'. apply runway_and_components_Ok in Hrc'
    as (sector & offset & w & rad & c & s & hw & xw & neg & Hrest).
  assert (Heq : rc = components (if sector then "10" else "28") hw xw
                       (if neg then "left" else "right")) by tauto.
  destruct (latest_values_spec raw) as (vals' & _ & _ & Hv & Hdom & _).
  assert (vals' = vals) as -> by congruence.
  rewrite Heq.
  destruct (assemble_lookup vals (default station_id (STATIONS !! station_id))
              (isoformat_seconds dt) speed_kt gust_kt code hft
              (if sector then "10" else "28") hw xw
              (if neg then "left" else "right") Hdom)
    as (_ & Hraw & _ & _ & _ & _ & _ & _ & Hr1 & _ & _ & Hr4).
  destruct (components_lookup (if sector then "10" else "28") hw xw
              (if neg then "left" else "right")) as (-> & _ & _ & ->).
  split; [|by split].
  rewrite Hraw; [done|]. apply (bool_decide_unpack _). by vm_compute.
Qed.

(** X17: a payload without a wind direction.  The field keeps -1, which
    the builder treats as a direction: the record names runway 28 with
    the crosswind from the right, and the report prints the direction
    as 0. *)
Theorem build_metar_dict_missing_direction `{Libm} (station_id : string)
    (raw : payload) (d : gmap string pyval) :
  build_metar_dict station_id raw = Ok d ->
  Forall (fun feat => ~ tracks "wind_dir_deg" feat) (features raw) ->
  d !! "wind_dir_deg" = Some (VInt (-1))
  /\ d !! "runway" = Some (VStr "28")
  /\ d !! "crosswind_from" = Some (VStr "right")
  /\ wdir_of d = Ok 0.
Proof.
  intros Hd Hnone.
  destruct (build_metar_dict_components _ _ _ Hd)
    as (vals & wdir & ms & rc & Hvals & Hwdir & _ & Hrc & Hd1 & Hd2 & Hd3).
  destruct (latest_values_default raw "wind_dir_deg") as (vals' & Hv' & Hm);
    [apply (bool_decide_unpack _); by vm_compute|done|].
  assert (wdir = VInt (-1)) as -> by congruence.
  apply runway_and_components_Ok in Hrc
    as (sector & offset & w & rad & c & s & hw & xw & neg & Hsector & _
        & Hoffset & _ & _ & _ & _ & _ & _ & _ & _ & Hneg & ->).
  destruct (components_lookup (if sector then "10" else "28") hw xw
              (if neg then "left" else "right")) as (Hr1 & _ & _ & Hr4).
  rewrite Hr1 in Hd2. rewrite Hr4 in Hd3.
  vm_compute in Hsector. injection Hsector as <-.
  vm_compute in Hoffset. injection Hoffset as <-.
  vm_compute in Hneg. injection Hneg as <-.
  split; [done|]. split; [done|]. split; [done|].
  rewrite (wdir_of_lookup d _ Hd1). by vm_compute.
Qed.

Lemma build_metar_dict_missing_direction_witness :
  exists d,
    @build_metar_dict taylor_libm "06156"
      {| features := [obs "wind_speed" (VInt 5)] |} = Ok d
    /\ d !! "wind_dir_deg" = Some (VInt (-1))
    /\ d !! "runway" = Some (VStr "28")
    /\ d !! "crosswind_from" = Some (VStr "right")
    /\ wdir_of d = Ok 0.
Proof.
  assert (Hok : is_Ok (@build_metar_dict taylor_libm "06156"
                         {| features := [obs "wind_speed" (VInt 5)] |})
                = true) by (vm_compute; reflexivity).
  destruct (@build_metar_dict taylor_libm "06156"
              {| features := [obs "wind_speed" (VInt 5)] |})
    as [d|e] eqn:Hd; [|discriminate Hok].
  exists d. split; [done|].
  apply (@build_metar_dict_missing_direction taylor_libm "06156" _ d Hd).
  repeat constructor. intros Ht. vm_compute in Ht. discriminate.
Defined.

(** ** The batch builder and the station labels *)

Section Labels.
Context `{Libm}.
Variable fetch_station : string -> result payload.

(** X18: the records [get_metar] returns can be told apart by their
    label.  The [station] keys of the records, in order, are the labels
    [STATIONS.get(sid, sid)] of the identifiers whose fetch and build
    succeed, in the order asked: the list given when it is not empty, and
    06170 then 06156 when it is [None] or empty.  An identifier asked
    twice is fetched and listed twice. *)
Theorem get_metar_labels (station_ids : option (list string)) :
  exists out err,
    get_metar fetch_station station_ids = Ok (out, err)
    /\ (fun d : gmap string pyval => d !! "station") <$> out
       = (fun sid => Some (VStr (default sid (STATIONS !! sid))))
           <$> filter (fun sid => is_Ok (station_run fetch_station sid) = true)
                 match station_ids with
                 | Some (sid :: rest) => sid :: rest
                 | Some [] | None => ["06170"; "06156"]
                 end.
Proof.
  unfold get_metar. rewrite get_metar_loop_spec. cbn [fst snd].
  eexists _, _. split; [reflexivity|]. cbn [app].
  replace (match station_ids with
           | Some (sid :: rest) => sid :: rest
           | Some [] | None => ["06170"; "06156"]
           end) with (station_ids_or_default station_ids)
    by (by destruct station_ids as [[|sid rest]|]).
  induction (station_ids_or_default station_ids) as [|sid rest IH];
    [done|].
  unfold successes. cbn [omap list_omap]. rewrite filter_cons.
  destruct (station_run fetch_station sid) as [d|e] eqn:Hrun.
  - cbn [is_Ok]. rewrite decide_True by done. cbn [fmap list_fmap].
    f_equal; [|exact IH].
    unfold station_run in Hrun.
    destruct (fetch_station sid) as [raw|e]; [|discriminate].
    cbn [bind] in Hrun.
    destruct (build_metar_dict_record _ _ _ Hrun)
      as (vals & first & dt & ms & speed_kt & gms & gust_kt & cover & code
          & height & hft & _ & _ & _ & _ & _ & _ & _ & _ & _ & _ & _
          & _ & _ & Hst & _).
    done.
  - cbn [is_Ok]. rewrite decide_False by done. exact IH.
Qed.

End Labels.

(** ** [zfill_int] *)

Lemma zeros_length (n : nat) : String.length (zeros n) = n.
Proof.
  induction n as [|n IH]; [done|]. cbn [zeros String.length]. by rewrite IH.
Qed.

Lemma zfill_length (s : string) (width : nat) :
  String.length (zfill s width) = Nat.max (String.length s) width.
Proof.
  unfold zfill. destruct s as [|c rest].
  { rewrite zeros_length. cbn [String.length]. lia. }
  destruct (Ascii.eqb c "+" || Ascii.eqb c "-")%bool.
  - cbn [String.length]. rewrite length_append, zeros_length.
    cbn [String.length]. lia.
  - rewrite length_append, zeros_length. cbn [String.length]. lia.
Qed.

(** X19: [zfill_int] pads and never cuts.  It raises exactly when [round]
    does; otherwise the text is as long as the larger of the width and the
    length of the rounded number, and the zeros of a negative number come
    after its sign. *)
Theorem zfill_int_pads (n : pyval) (width : nat) :
  (forall e, zfill_int n width = Raise e <-> py_round n = Raise e)
  /\ forall s, zfill_int n width = Ok s ->
       exists r, py_round n = Ok r
                 /\ String.length s
                    = Nat.max (String.length (str_int r)) width
                 /\ (r < 0 -> exists t, s = String "-" t).
Proof.
  unfold zfill_int. destruct (py_round n) as [r|e0]; cbn [bind].
  - split; [by split|]. intros s [= <-]. exists r.
    split; [done|]. split; [apply zfill_length|].
    intros Hr. destruct r as [|p|p]; try lia.
    unfold zfill, str_int. cbn. eauto.
  - split; [by intros e; split; intros [= ->]|]. discriminate.
Qed.
